(** * csmb: assignment graph, metrics repository and dashboard analytics

    A shallow embedding of the services of the csmb back end over an
    explicit model of the MongoDB collections they read and write:
    - services/assignmentService.ts (the admin-founder assignment edges),
    - services/metricsService.ts and controllers/metricsController.ts (the
      monthly founder metrics and who may upload or read them),
    - middlewares/permissions.ts ([canAccessFounderContent]),
    - services/adminDashboardService.ts and the super-admin DashboardService
      (completion rates, growth highlights, upcoming milestones),
    - routes/metricsRoutes.ts with the [authorize] middlewares, the other
      permission handlers, the registration of founders and admins in
      services/userService.ts, the attention lists, deadlines and monthly
      series of the dashboards, and the month test of
      services/reportService.ts.
    Posts, report files, tokens and e-mail are outside the development.

    Conventions.
    - A collection is the list of its documents in natural (insertion) order;
      [findOne] is the first match, [find] the matches in order.
    - An [ObjectId] is its string form (the services receive ids as strings
      and compare them through [toString]). The lookups of the assignment
      service and the read of a founder's metrics cast the id their caller
      supplies and throw a [CastError] when the string is no ObjectId; which
      strings are ObjectIds is the parameter [ObjectId_isValid] of the class
      [ObjectIds].
    - A string is the sequence of the bytes of its UTF-8 form.
    - A JavaScript [number] is a binary64 float ([PrimFloat.float]) with the
      IEEE operations of the kernel; [Math.round] and [Math.max] are defined
      on it; the comparisons are reasoned about through their specification
      in [FloatAxioms].
    - A service that writes takes the database and returns the database
      after the call together with its result; a thrown exception is the
      [Err] result, and a read-only service returns its result alone.
    - The current date, the month keys derived from it and the ids of new
      documents are parameters of the calls that use them. *)

From Stdlib Require Import ZArith Lia Bool List String Ascii Permutation.
From Stdlib Require Import Floats Uint63.
From Stdlib Require Sorted OrderedTypeEx.
Import ListNotations.

Local Open Scope string_scope.
Local Open Scope list_scope.

(** ** Identifiers, dates, errors *)

Definition ObjectId := string.
Definition Date := Z.

(** [UserRole = 'super-admin' | 'admin' | 'founder'] *)
Module Role.
Inductive t := super_admin | admin | founder.
End Role.
Definition UserRole := Role.t.

Definition UserRole_eqb (a b : UserRole) : bool :=
  match a, b with
  | Role.super_admin, Role.super_admin
  | Role.admin, Role.admin
  | Role.founder, Role.founder => true
  | _, _ => false
  end.

(** What a call can throw: the application's [AppError(message, statusCode)],
    a duplicate-key error of the server (code 11000), a schema validation or
    cast error of mongoose, a [TypeError] of the runtime. *)
Inductive Error :=
| AppError (message : string) (statusCode : Z)
| MongoServerError (code : Z)
| ValidationError (path : string)
| CastError (path : string)
| TypeError.

Inductive Result (A : Type) :=
| Ok (a : A)
| Err (e : Error).
Arguments Ok {A} a.
Arguments Err {A} e.

Definition bindR {A B} (r : Result A) (k : A -> Result B) : Result B :=
  match r with
  | Ok a => k a
  | Err e => Err e
  end.

Notation "x <- c1 ;; c2" := (bindR c1 (fun x => c2))
  (at level 61, c1 at next level, right associativity).

(** [try { body } catch (error) { handler }] *)
Definition tryCatch {A} (body : Result A) (handler : Error -> Result A) : Result A :=
  match body with
  | Ok a => Ok a
  | Err e => handler e
  end.

(** An id reaches a service as a string. Mongoose casts the string given
    for an ObjectId path before the query runs, and the query throws a
    [CastError] for a string that is no ObjectId; the error carries no
    status code, and the error handler answers 500. Which strings are
    ObjectIds is decided by the driver ([mongoose.Types.ObjectId.isValid]
    in the services that test it themselves); the test is a parameter of
    the development, and the cast leaves a string that passes it as it
    is. *)
Class ObjectIds := { ObjectId_isValid : string -> bool }.

Definition castObjectId `{ObjectIds} (path value : string) : Result ObjectId :=
  if ObjectId_isValid value then Ok value else Err (CastError path).

(** The error taxonomy of the specification, read off the status code. *)
Definition isNotFound (e : Error) : bool :=
  match e with AppError _ 404 => true | _ => false end.
Definition isInvalidRole (e : Error) : bool :=
  match e with AppError _ 400 => true | _ => false end.
Definition isInvalidFormat (e : Error) : bool :=
  match e with AppError _ 400 => true | _ => false end.
Definition isForbidden (e : Error) : bool :=
  match e with AppError _ 403 => true | _ => false end.

(** ** Models (models/*.ts) *)

Module User.
Record t := mk { _id : ObjectId; name : string; email : string; role : UserRole }.
End User.

Module Founder.
Record t := mk {
  _id : ObjectId;
  userId : ObjectId;
  companyName : string;
  industry : option string
}.
End Founder.

Module Admin.
Record t := mk { _id : ObjectId; userId : ObjectId }.
End Admin.

Module Assignment.
Record t := mk {
  founderId : ObjectId;
  adminId : ObjectId;
  assignedBy : ObjectId;
  assignedAt : Date
}.
End Assignment.

Module FounderMetrics.
Record t := mk {
  _id : ObjectId;
  founderId : ObjectId;
  uploadedBy : ObjectId;
  month : string;
  totalPosts : float;
  totalImpressions : float;
  totalCommentOutreach : float;
  notes : option string;
  createdAt : Date;
  updatedAt : Date
}.
End FounderMetrics.

(** The database: one list per collection. *)
Record DB := mkDB {
  users : list User.t;
  founders : list Founder.t;
  admins : list Admin.t;
  assignments : list Assignment.t;
  foundermetrics : list FounderMetrics.t
}.

Definition set_assignments (db : DB) (l : list Assignment.t) : DB :=
  mkDB (users db) (founders db) (admins db) l (foundermetrics db).

Definition set_foundermetrics (db : DB) (l : list FounderMetrics.t) : DB :=
  mkDB (users db) (founders db) (admins db) (assignments db) l.

(** *** Queries *)

Definition User_findById (db : DB) (id : ObjectId) : option User.t :=
  find (fun u => User._id u =? id) (users db).

Definition Founder_findOne_userId (db : DB) (userId : ObjectId) : option Founder.t :=
  find (fun f => Founder.userId f =? userId) (founders db).

Definition Founder_findById (db : DB) (id : ObjectId) : option Founder.t :=
  find (fun f => Founder._id f =? id) (founders db).

Definition Admin_findOne_userId (db : DB) (userId : ObjectId) : option Admin.t :=
  find (fun a => Admin.userId a =? userId) (admins db).

(** [Assignment.findOne({ founderId, adminId })] *)
Definition Assignment_findOne (l : list Assignment.t) (founderId adminId : ObjectId)
  : option Assignment.t :=
  find (fun a => (Assignment.founderId a =? founderId) && (Assignment.adminId a =? adminId)) l.

(** [Assignment.deleteMany({ founderId })] *)
Definition Assignment_deleteMany (l : list Assignment.t) (founderId : ObjectId)
  : list Assignment.t :=
  filter (fun a => negb (Assignment.founderId a =? founderId)) l.

(** [Assignment.insertMany(docs)], ordered: the documents go in one after the
    other, and the unique index on (founderId, adminId) refuses the first
    duplicate with error 11000. *)
Fixpoint Assignment_insertMany (l : list Assignment.t) (docs : list Assignment.t)
  : Result (list Assignment.t) :=
  match docs with
  | [] => Ok l
  | d :: docs' =>
      match Assignment_findOne l (Assignment.founderId d) (Assignment.adminId d) with
      | Some _ => Err (MongoServerError 11000)
      | None => Assignment_insertMany (l ++ [d]) docs'
      end
  end.

(** [Assignment.deleteOne({ adminId, founderId })]: the first matching
    document goes. *)
Fixpoint Assignment_deleteOne (l : list Assignment.t) (founderId adminId : ObjectId)
  : list Assignment.t :=
  match l with
  | [] => []
  | a :: l' =>
      if (Assignment.founderId a =? founderId) && (Assignment.adminId a =? adminId)
      then l'
      else a :: Assignment_deleteOne l' founderId adminId
  end.

(** ** services/assignmentService.ts *)

Module AssignmentService.

Record AdminDetails := mkAdminDetails {
  adminId : ObjectId;
  name : string;
  email : string
}.

(** The validation loop over [adminIds]: [Admin.findOne({ userId: adminId })]
    throws the cast error for the first id that is no ObjectId; the first id
    without an Admin document throws 404, the first one whose user is
    missing or is not an admin throws 400. [User.findById] is given a
    string the lookup before it has cast. *)
Fixpoint validateAdminIds `{ObjectIds} (db : DB) (adminIds : list ObjectId) : Result unit :=
  match adminIds with
  | [] => Ok tt
  | adminId :: rest =>
      match castObjectId "userId" adminId with
      | Err e => Err e
      | Ok _ =>
          match Admin_findOne_userId db adminId with
          | None => Err (AppError ("Admin with ID " ++ adminId ++ " not found") 404)
          | Some _ =>
              match User_findById db adminId with
              | Some adminUser =>
                  if UserRole_eqb (User.role adminUser) Role.admin
                  then validateAdminIds db rest
                  else Err (AppError ("User with ID " ++ adminId ++ " is not an admin") 400)
              | None => Err (AppError ("User with ID " ++ adminId ++ " is not an admin") 400)
              end
          end
      end
  end.

(** The body of the transaction: what the session sees after
    [deleteMany] and [insertMany], or the error one of them throws. *)
Definition replaceInSession (session : list Assignment.t)
    (founder_id : ObjectId) (adminIds : list ObjectId)
    (assignedBy : ObjectId) (now : Date) : Result (list Assignment.t) :=
  let session := Assignment_deleteMany session founder_id in
  let assignments :=
    map (fun adminId => Assignment.mk founder_id adminId assignedBy now) adminIds in
  if (0 <? List.length assignments)%nat
  then Assignment_insertMany session assignments
  else Ok session.

(** [assignAdminsToFounder(founderId, adminIds, assignedBy)]; [now] is the
    value of [new Date()]. The session starts from the committed
    assignments; [commitTransaction] installs what the session holds,
    [abortTransaction] leaves the database as it was and the error is
    thrown again. [Founder.findOne({ userId: founderId })] casts the
    founder id. *)
Definition assignAdminsToFounder `{ObjectIds} (db : DB) (founderId : ObjectId)
    (adminIds : list ObjectId) (assignedBy : ObjectId) (now : Date)
  : DB * Result unit :=
  match castObjectId "userId" founderId with
  | Err e => (db, Err e)
  | Ok _ =>
      match Founder_findOne_userId db founderId with
      | None => (db, Err (AppError "Founder not found" 404))
      | Some founder =>
          match User_findById db founderId with
          | None => (db, Err (AppError "Invalid founder ID" 400))
          | Some founderUser =>
              if negb (UserRole_eqb (User.role founderUser) Role.founder)
              then (db, Err (AppError "Invalid founder ID" 400))
              else
                match validateAdminIds db adminIds with
                | Err e => (db, Err e)
                | Ok _ =>
                    match replaceInSession (assignments db) (Founder._id founder)
                            adminIds assignedBy now with
                    | Ok session => (set_assignments db session, Ok tt)
                    | Err error => (db, Err error)
                    end
                end
          end
      end
  end.

(** [getAssignedAdmins(founderId)]: the lookup of the founder, which casts
    the id, and the aggregation pipeline, [$match] on the founder document's
    id, then the two [$lookup]/[$unwind] joins with
    the admins and the users, then the projection. *)
Definition getAssignedAdmins `{ObjectIds} (db : DB) (founderId : ObjectId)
  : Result (list AdminDetails) :=
  _ <- castObjectId "userId" founderId ;;
  match Founder_findOne_userId db founderId with
  | None => Err (AppError "Founder not found" 404)
  | Some founder =>
      Ok (flat_map
            (fun a =>
               flat_map
                 (fun _ : Admin.t =>
                    map (fun user =>
                           mkAdminDetails (Assignment.adminId a)
                             (User.name user) (User.email user))
                        (filter (fun u => User._id u =? Assignment.adminId a) (users db)))
                 (filter (fun ad => Admin.userId ad =? Assignment.adminId a) (admins db)))
            (filter (fun a => Assignment.founderId a =? Founder._id founder)
                    (assignments db)))
  end.

(** [isAdminAssignedToFounder(adminId, founderId)], over lookups that may
    throw (a cast error on a malformed id, a lost connection): both
    lookups sit inside the [try], and the [catch] returns [false]. *)
Section Lookups.
Variable Founder_findOne : ObjectId -> Result (option Founder.t).
Variable Assignment_findOne' : ObjectId -> ObjectId -> Result (option Assignment.t).

Definition isAdminAssignedToFounder (adminId founderId : ObjectId) : Result bool :=
  tryCatch
    (founder <- Founder_findOne founderId ;;
     match founder with
     | None => Ok false
     | Some founder =>
         assignment <- Assignment_findOne' (Founder._id founder) adminId ;;
         Ok (match assignment with Some _ => true | None => false end)
     end)
    (fun error => Ok false).
End Lookups.

(** The check against a database whose lookups answer. *)
Definition isAssigned (db : DB) (adminId founderId : ObjectId) : Result bool :=
  isAdminAssignedToFounder
    (fun userId => Ok (Founder_findOne_userId db userId))
    (fun founder_id adminId => Ok (Assignment_findOne (assignments db) founder_id adminId))
    adminId founderId.

(** One row of [getAssignedFounders]: the projection keeps the edge's
    admin and date and the founder's user id, name, email, company and
    industry. *)
Record AssignedFounder := mkAssignedFounder {
  af_adminId : ObjectId;
  af_founderId : ObjectId;
  af_assignedAt : Date;
  af_name : string;
  af_email : string;
  af_companyName : string;
  af_industry : option string
}.

(** [getAssignedFounders(adminId)] without the post counts (the posts
    collection is outside this development); the lookup of the admin casts
    the id. *)
Definition getAssignedFounders `{ObjectIds} (db : DB) (adminId : ObjectId)
  : Result (list AssignedFounder) :=
  _ <- castObjectId "userId" adminId ;;
  match Admin_findOne_userId db adminId with
  | None => Err (AppError "Admin not found" 404)
  | Some _ =>
      match User_findById db adminId with
      | None => Err (AppError "Invalid admin ID" 400)
      | Some adminUser =>
          if negb (UserRole_eqb (User.role adminUser) Role.admin)
          then Err (AppError "Invalid admin ID" 400)
          else
            Ok (flat_map
                  (fun a =>
                     flat_map
                       (fun f =>
                          map (fun user =>
                                 mkAssignedFounder (Assignment.adminId a)
                                   (Founder.userId f) (Assignment.assignedAt a)
                                   (User.name user) (User.email user)
                                   (Founder.companyName f) (Founder.industry f))
                              (filter (fun u => User._id u =? Founder.userId f) (users db)))
                       (filter (fun f => Founder._id f =? Assignment.founderId a)
                               (founders db)))
                  (filter (fun a => Assignment.adminId a =? User._id adminUser)
                          (assignments db)))
      end
  end.

(** [getFounderByUserId(userId)] *)
Definition getFounderByUserId (db : DB) (userId : ObjectId) : option Founder.t :=
  Founder_findOne_userId db userId.

(** [deleteAssignment(adminId, founderId)]: the lookup of the admin casts
    the admin id, the lookup of the founder the founder id; the lookup
    of the edge is given the admin id, cast before, and the id of the
    founder document. *)
Definition deleteAssignment `{ObjectIds} (db : DB) (adminId founderId : ObjectId)
  : DB * Result unit :=
  match castObjectId "userId" adminId with
  | Err e => (db, Err e)
  | Ok _ =>
      match Admin_findOne_userId db adminId with
      | None => (db, Err (AppError "Admin not found" 404))
      | Some _ =>
          match castObjectId "userId" founderId with
          | Err e => (db, Err e)
          | Ok _ =>
              match Founder_findOne_userId db founderId with
              | None => (db, Err (AppError "Founder not found" 404))
              | Some founder =>
                  match Assignment_findOne (assignments db) (Founder._id founder) adminId with
                  | None => (db, Err (AppError "Assignment not found" 404))
                  | Some _ =>
                      (set_assignments db
                         (Assignment_deleteOne (assignments db) (Founder._id founder)
                            adminId),
                       Ok tt)
                  end
              end
          end
      end
  end.

End AssignmentService.

(** ** JavaScript numbers and strings *)

Module JS.

Definition number := float.

(** The number of an integer; exact for magnitudes up to 2^53, which
    covers array lengths and the integer results of [Math.round]. *)
Definition ofZ (z : Z) : number :=
  if (z <? 0)%Z
  then PrimFloat.opp (PrimFloat.of_uint63 (Uint63.of_Z (- z)))
  else PrimFloat.of_uint63 (Uint63.of_Z z).

Definition ofNat (n : nat) : number := ofZ (Z.of_nat n).

(** [Math.round(x)]: NaN, the infinities and the zeros are returned as they
    are, and so is a finite number with a non-negative exponent (an
    integer); otherwise, for x = ±m·2^e with e < 0, the integer
    floor(x + 1/2) computed exactly, with the sign of x kept on a zero
    result. *)
Definition Math_round (x : number) : number :=
  match Prim2SF x with
  | S754_finite s m e =>
      if (0 <=? e)%Z then x
      else
        let d := Z.pow_pos 2 (Z.to_pos (- e)) in
        let n := if s then (- Z.pos m)%Z else Z.pos m in
        let r := ((2 * n + d) / (2 * d))%Z in
        if (r =? 0)%Z
        then (if s then PrimFloat.opp PrimFloat.zero else PrimFloat.zero)
        else ofZ r
  | _ => x
  end.

(** [Math.max(a, b)]: NaN if either is NaN; +0 is larger than -0. *)
Definition Math_max (a b : number) : number :=
  if PrimFloat.is_nan a || PrimFloat.is_nan b then PrimFloat.nan
  else if PrimFloat.ltb a b then b
  else if PrimFloat.ltb b a then a
  else if PrimFloat.get_sign a then b else a.

(** [x || 0] on a number: 0, -0 and NaN are falsy. *)
Definition orZero (x : number) : number :=
  if PrimFloat.is_nan x || PrimFloat.eqb x PrimFloat.zero then PrimFloat.zero else x.

Definition isDigit (c : ascii) : bool :=
  (48 <=? nat_of_ascii c)%nat && (nat_of_ascii c <=? 57)%nat.

(** [/^\d{4}-\d{2}$/.test(s)] *)
Definition testMonthFormat (s : string) : bool :=
  match s with
  | String y1 (String y2 (String y3 (String y4 (String h (String m1 (String m2 EmptyString)))))) =>
      isDigit y1 && isDigit y2 && isDigit y3 && isDigit y4
      && Ascii.eqb h "-"%char
      && isDigit m1 && isDigit m2
  | _ => false
  end.

(** [String.prototype.trim] removes the white space and the line
    terminators of ECMAScript at both ends: U+0009 to U+000D, U+0020,
    U+00A0, U+1680, U+2000 to U+200A, U+2028, U+2029, U+202F, U+205F,
    U+3000 and U+FEFF. A string is the sequence of the bytes of its UTF-8
    form, in which these characters take one, two or three bytes. *)
Definition isSpace1 (a : nat) : bool :=
  ((9 <=? a)%nat && (a <=? 13)%nat) || (a =? 32)%nat.

Definition isSpace2 (a b : nat) : bool :=
  (a =? 194)%nat && (b =? 160)%nat.

Definition isSpace3 (a b c : nat) : bool :=
  ((a =? 225)%nat && (b =? 154)%nat && (c =? 128)%nat)
  || ((a =? 226)%nat && (b =? 128)%nat
      && (((128 <=? c)%nat && (c <=? 138)%nat)
          || (c =? 168)%nat || (c =? 169)%nat || (c =? 175)%nat))
  || ((a =? 226)%nat && (b =? 129)%nat && (c =? 159)%nat)
  || ((a =? 227)%nat && (b =? 128)%nat && (c =? 128)%nat)
  || ((a =? 239)%nat && (b =? 187)%nat && (c =? 191)%nat).

Fixpoint trimStart (s : string) : string :=
  match s with
  | String c1 s1 =>
      if isSpace1 (nat_of_ascii c1) then trimStart s1
      else
        match s1 with
        | String c2 s2 =>
            if isSpace2 (nat_of_ascii c1) (nat_of_ascii c2) then trimStart s2
            else
              match s2 with
              | String c3 s3 =>
                  if isSpace3 (nat_of_ascii c1) (nat_of_ascii c2) (nat_of_ascii c3)
                  then trimStart s3
                  else s
              | EmptyString => s
              end
        | EmptyString => s
        end
  | EmptyString => EmptyString
  end.

(** The bytes of a string from the last to the first, and the white space
    at the front of a string read that way. *)
Fixpoint reverseOnto (s acc : string) : string :=
  match s with
  | String c s' => reverseOnto s' (String c acc)
  | EmptyString => acc
  end.

Definition reverse (s : string) : string := reverseOnto s EmptyString.

Fixpoint trimStartReversed (s : string) : string :=
  match s with
  | String c1 s1 =>
      if isSpace1 (nat_of_ascii c1) then trimStartReversed s1
      else
        match s1 with
        | String c2 s2 =>
            if isSpace2 (nat_of_ascii c2) (nat_of_ascii c1) then trimStartReversed s2
            else
              match s2 with
              | String c3 s3 =>
                  if isSpace3 (nat_of_ascii c3) (nat_of_ascii c2) (nat_of_ascii c1)
                  then trimStartReversed s3
                  else s
              | EmptyString => s
              end
        | EmptyString => s
        end
  | EmptyString => EmptyString
  end.

Definition trimEnd (s : string) : string := reverse (trimStartReversed (reverse s)).

Definition trim (s : string) : string := trimEnd (trimStart s).

End JS.

(** ** The FounderMetrics collection (models/FounderMetrics.ts) *)

(** [FounderMetrics.findOne({ founderId, month })] *)
Definition FounderMetrics_findOne (l : list FounderMetrics.t) (founderId : ObjectId)
    (month : string) : option FounderMetrics.t :=
  find (fun m => (FounderMetrics.founderId m =? founderId) && (FounderMetrics.month m =? month)) l.

(** A path of type Number holds no NaN (the cast refuses it) and passes
    [min: [0, ...]] when it is not below 0. *)
Definition validNumberMin0 (x : JS.number) : bool :=
  negb (PrimFloat.is_nan x) && negb (PrimFloat.ltb x PrimFloat.zero).

(** The validation mongoose runs before a document is written: the month
    against [match], the three counters against the cast and [min]. *)
Definition FounderMetrics_validate (m : FounderMetrics.t) : Result unit :=
  if negb (JS.testMonthFormat (FounderMetrics.month m)) then Err (ValidationError "month")
  else if negb (validNumberMin0 (FounderMetrics.totalPosts m))
  then Err (ValidationError "totalPosts")
  else if negb (validNumberMin0 (FounderMetrics.totalImpressions m))
  then Err (ValidationError "totalImpressions")
  else if negb (validNumberMin0 (FounderMetrics.totalCommentOutreach m))
  then Err (ValidationError "totalCommentOutreach")
  else Ok tt.

(** What [doc.save()] takes for a change of a stored document: mongoose
    marks a path modified when the value set is not the one the document
    held, numbers compared with [===], ids by their string, the notes after
    the trim of the schema; the timestamps option moves [updatedAt] on a
    save only when a path is modified. *)
Definition optionString_eqb (a b : option string) : bool :=
  match a, b with
  | Some x, Some y => x =? y
  | None, None => true
  | _, _ => false
  end.

Definition FounderMetrics_isModified (doc : FounderMetrics.t) (uploadedBy : ObjectId)
    (totalPosts totalImpressions totalCommentOutreach : JS.number) (notes : option string)
  : bool :=
  negb (PrimFloat.eqb (FounderMetrics.totalPosts doc) totalPosts
        && PrimFloat.eqb (FounderMetrics.totalImpressions doc) totalImpressions
        && PrimFloat.eqb (FounderMetrics.totalCommentOutreach doc) totalCommentOutreach
        && optionString_eqb (FounderMetrics.notes doc) notes
        && (FounderMetrics.uploadedBy doc =? uploadedBy)).

(** The write of [doc.save()]: the stored document with the id of [doc]
    becomes [doc]. *)
Fixpoint FounderMetrics_updateOne (l : list FounderMetrics.t) (doc : FounderMetrics.t)
  : list FounderMetrics.t :=
  match l with
  | [] => []
  | m :: l' =>
      if FounderMetrics._id m =? FounderMetrics._id doc
      then doc :: l'
      else m :: FounderMetrics_updateOne l' doc
  end.

(** The insert of [FounderMetrics.create(...)]: refused with error 11000 when
    the id or the (founderId, month) pair of the unique index is taken. *)
Definition FounderMetrics_insertOne (l : list FounderMetrics.t) (doc : FounderMetrics.t)
  : Result (list FounderMetrics.t) :=
  if existsb (fun m => FounderMetrics._id m =? FounderMetrics._id doc) l
  then Err (MongoServerError 11000)
  else
    match FounderMetrics_findOne l (FounderMetrics.founderId doc) (FounderMetrics.month doc) with
    | Some _ => Err (MongoServerError 11000)
    | None => Ok (l ++ [doc])
    end.

(** [FounderMetrics.deleteOne({ _id })]: the collection without the first
    document of that id, and [deletedCount]. *)
Fixpoint FounderMetrics_deleteOne (l : list FounderMetrics.t) (id : ObjectId)
  : list FounderMetrics.t * nat :=
  match l with
  | [] => ([], 0%nat)
  | m :: l' =>
      if FounderMetrics._id m =? id
      then (l', 1%nat)
      else let '(rest, deletedCount) := FounderMetrics_deleteOne l' id in
           (m :: rest, deletedCount)
  end.

(** [FounderMetrics.findById(id)] *)
Definition FounderMetrics_findById (l : list FounderMetrics.t) (id : ObjectId)
  : option FounderMetrics.t :=
  find (fun m => FounderMetrics._id m =? id) l.

(** Sorting, as a query's [sort] and as [Array.prototype.sort] with a
    consistent comparator do it: stable, [before y x] telling that [y] goes
    strictly before [x]. *)
Fixpoint insertBy {A : Type} (before : A -> A -> bool) (x : A) (l : list A) : list A :=
  match l with
  | [] => [x]
  | y :: l' => if before y x then y :: insertBy before x l' else x :: l
  end.

Definition sortBy {A : Type} (before : A -> A -> bool) (l : list A) : list A :=
  fold_right (insertBy before) [] l.

(** ** services/metricsService.ts *)

Module MetricsService.

Record MetricsData := mkMetricsData {
  totalPosts : JS.number;
  totalImpressions : JS.number;
  totalCommentOutreach : JS.number;
  notes : option string
}.

(** [uploadMetrics(founderId, uploaderId, month, data)]; [newId] is the id
    a created document receives and [now] the time of the write. The schema
    trims the notes; the timestamps option keeps [createdAt] and moves
    [updatedAt] on a save that modifies the document. *)
Definition uploadMetrics (db : DB) (founderId uploaderId : ObjectId) (month : string)
    (data : MetricsData) (newId : ObjectId) (now : Date)
  : DB * Result FounderMetrics.t :=
  match FounderMetrics_findOne (foundermetrics db) founderId month with
  | Some existingMetrics =>
      let existingMetrics :=
        FounderMetrics.mk
          (FounderMetrics._id existingMetrics)
          (FounderMetrics.founderId existingMetrics)
          uploaderId
          (FounderMetrics.month existingMetrics)
          (totalPosts data)
          (totalImpressions data)
          (totalCommentOutreach data)
          (option_map JS.trim (notes data))
          (FounderMetrics.createdAt existingMetrics)
          (if FounderMetrics_isModified existingMetrics uploaderId
                (totalPosts data) (totalImpressions data) (totalCommentOutreach data)
                (option_map JS.trim (notes data))
           then now
           else FounderMetrics.updatedAt existingMetrics) in
      match FounderMetrics_validate existingMetrics with
      | Err e => (db, Err e)
      | Ok _ =>
          (set_foundermetrics db
             (FounderMetrics_updateOne (foundermetrics db) existingMetrics),
           Ok existingMetrics)
      end
  | None =>
      let metrics :=
        FounderMetrics.mk newId founderId uploaderId month
          (totalPosts data) (totalImpressions data) (totalCommentOutreach data)
          (option_map JS.trim (notes data)) now now in
      match FounderMetrics_validate metrics with
      | Err e => (db, Err e)
      | Ok _ =>
          match FounderMetrics_insertOne (foundermetrics db) metrics with
          | Err e => (db, Err e)
          | Ok l => (set_foundermetrics db l, Ok metrics)
          end
      end
  end.

(** Insertion of a document into a list sorted by month, descending. *)
Fixpoint insertByMonthDesc (m : FounderMetrics.t) (l : list FounderMetrics.t)
  : list FounderMetrics.t :=
  match l with
  | [] => [m]
  | x :: l' =>
      if String.ltb (FounderMetrics.month m) (FounderMetrics.month x)
      then x :: insertByMonthDesc m l'
      else m :: l
  end.

Definition sortByMonthDesc (l : list FounderMetrics.t) : list FounderMetrics.t :=
  fold_right insertByMonthDesc [] l.

(** [getFounderMetrics(founderId)]: the founder's documents, latest month
    first, each with its populated uploader; [find({ founderId })] casts
    the id. *)
Definition getFounderMetrics `{ObjectIds} (db : DB) (founderId : ObjectId)
  : Result (list (FounderMetrics.t * option User.t)) :=
  _ <- castObjectId "founderId" founderId ;;
  Ok (map (fun m => (m, User_findById db (FounderMetrics.uploadedBy m)))
        (sortByMonthDesc
           (filter (fun m => FounderMetrics.founderId m =? founderId) (foundermetrics db)))).

(** [getFounderMonthlyMetrics(founderId, month)] *)
Definition getFounderMonthlyMetrics (db : DB) (founderId : ObjectId) (month : string)
  : option (FounderMetrics.t * option User.t) :=
  option_map (fun m => (m, User_findById db (FounderMetrics.uploadedBy m)))
    (FounderMetrics_findOne (foundermetrics db) founderId month).

(** A document with its populated uploader and, when
    [enhanceMetricsWithFounderDetails] found the user the founder id names,
    that user's name. *)
Record EnhancedMetrics := mkEnhancedMetrics {
  metric : FounderMetrics.t;
  uploadedBy : option User.t;
  founder : option string
}.

(** [sort({ month: -1, founderId: 1 })] *)
Definition monthDescFounderAsc (y x : FounderMetrics.t) : bool :=
  String.ltb (FounderMetrics.month x) (FounderMetrics.month y)
  || ((FounderMetrics.month x =? FounderMetrics.month y)
      && String.ltb (FounderMetrics.founderId y) (FounderMetrics.founderId x)).

(** [enhanceMetricsWithFounderDetails(metrics)] on populated documents: the
    user of id [metric.founderId] is looked up, and looked up again by its
    own id, for its name. *)
Definition enhanceMetricsWithFounderDetails (db : DB) (metrics : list FounderMetrics.t)
  : list EnhancedMetrics :=
  map (fun metric =>
         mkEnhancedMetrics metric (User_findById db (FounderMetrics.uploadedBy metric))
           (match User_findById db (FounderMetrics.founderId metric) with
            | None => None
            | Some founder =>
                match User_findById db (User._id founder) with
                | None => None
                | Some user => Some (User.name user)
                end
            end))
      metrics.

(** [getAdminMetrics(adminId, assignedFounderIds)] *)
Definition getAdminMetrics (db : DB) (adminId : ObjectId) (assignedFounderIds : list ObjectId)
  : list EnhancedMetrics :=
  enhanceMetricsWithFounderDetails db
    (sortBy monthDescFounderAsc
       (filter (fun m => existsb (fun id => id =? FounderMetrics.founderId m) assignedFounderIds)
               (foundermetrics db))).

(** [getAllMetrics()] *)
Definition getAllMetrics (db : DB) : list EnhancedMetrics :=
  enhanceMetricsWithFounderDetails db (sortBy monthDescFounderAsc (foundermetrics db)).

(** [getMetricsById(metricsId)] *)
Definition getMetricsById (db : DB) (metricsId : ObjectId)
  : option (FounderMetrics.t * option User.t) :=
  option_map (fun m => (m, User_findById db (FounderMetrics.uploadedBy m)))
    (FounderMetrics_findById (foundermetrics db) metricsId).

(** [deleteMetrics(metricsId)] *)
Definition deleteMetrics (db : DB) (metricsId : ObjectId) : DB * Result string :=
  let '(rest, deletedCount) := FounderMetrics_deleteOne (foundermetrics db) metricsId in
  if (deletedCount =? 0)%nat
  then (db, Err (AppError "Metrics not found" 404))
  else (set_foundermetrics db rest, Ok "Metrics deleted successfully").

End MetricsService.

(** ** middlewares/permissions.ts *)

(** [permissions.canAccessFounderContent(req, userId, userRole)], with
    [founderId] the route parameter [req.params.founderId]. *)
Definition canAccessFounderContent (db : DB) (founderId userId : ObjectId)
    (userRole : UserRole) : bool :=
  match userRole with
  | Role.super_admin => true
  | Role.founder => founderId =? userId
  | Role.admin =>
      match Assignment_findOne (assignments db) founderId userId with
      | Some _ => true
      | None => false
      end
  end.

(** ** controllers/metricsController.ts *)

Module metricsController.

(** The fields of [req.body] the upload reads; [None] is [undefined]. *)
Record Body := mkBody {
  month : option string;
  totalPosts : option JS.number;
  totalImpressions : option JS.number;
  totalCommentOutreach : option JS.number;
  notes : option string
}.

(** The admin branch shared by the upload and the read: the founder must
    be among the founders [getAssignedFounders] lists for the admin. *)
Definition checkAssigned `{ObjectIds} (db : DB) (userId founderId : ObjectId)
    (message : string)
  : Result unit :=
  assignments <- AssignmentService.getAssignedFounders db userId ;;
  let assignedFounderIds := map AssignmentService.af_founderId assignments in
  if negb (existsb (fun id => id =? founderId) assignedFounderIds)
  then Err (AppError message 403)
  else Ok tt.

(** [uploadMetrics]: [founderId] is [req.params.founderId], [userId] and
    [userRole] come from the authenticated request. *)
Definition uploadMetrics `{ObjectIds} (db : DB) (userId : ObjectId) (userRole : UserRole)
    (founderId : ObjectId) (body : Body) (newId : ObjectId) (now : Date)
  : DB * Result FounderMetrics.t :=
  match month body, totalPosts body, totalImpressions body, totalCommentOutreach body with
  | Some month, Some totalPosts, Some totalImpressions, Some totalCommentOutreach =>
      if month =? ""
      then (db, Err (AppError
             "Please provide month, totalPosts, totalImpressions, and totalCommentOutreach" 400))
      else if negb (JS.testMonthFormat month)
      then (db, Err (AppError "Month must be in format YYYY-MM" 400))
      else
        match (match userRole with
               | Role.admin =>
                   checkAssigned db userId founderId
                     "You can only upload metrics for founders assigned to you"
               | _ => Ok tt
               end) with
        | Err e => (db, Err e)
        | Ok _ =>
            MetricsService.uploadMetrics db founderId userId month
              (MetricsService.mkMetricsData totalPosts totalImpressions
                 totalCommentOutreach (notes body))
              newId now
        end
  | _, _, _, _ =>
      (db, Err (AppError
         "Please provide month, totalPosts, totalImpressions, and totalCommentOutreach" 400))
  end.

(** [getFounderMetrics]: an error the service throws goes to the error
    handler as it is. *)
Definition getFounderMetrics `{ObjectIds} (db : DB) (userId : ObjectId)
    (userRole : UserRole) (founderId : ObjectId)
  : Result (list (FounderMetrics.t * option User.t)) :=
  _ <- match userRole with
       | Role.founder =>
           match AssignmentService.getFounderByUserId db userId with
           | None => Err (AppError "You can only view your own metrics" 403)
           | Some founder =>
               if negb (Founder.userId founder =? founderId)
               then Err (AppError "You can only view your own metrics" 403)
               else Ok tt
           end
       | Role.admin =>
           checkAssigned db userId founderId
             "You can only view metrics for founders assigned to you"
       | Role.super_admin => Ok tt
       end ;;
  MetricsService.getFounderMetrics db founderId.

(** [getFounderMonthlyMetrics]: [founderId] and [month] are the route
    parameters. *)
Definition getFounderMonthlyMetrics `{ObjectIds} (db : DB) (userId : ObjectId)
    (userRole : UserRole) (founderId : ObjectId) (month : string)
  : Result (FounderMetrics.t * option User.t) :=
  if negb (JS.testMonthFormat month)
  then Err (AppError "Month must be in format YYYY-MM" 400)
  else
    _ <- match userRole with
         | Role.founder =>
             match AssignmentService.getFounderByUserId db userId with
             | None => Err (AppError "You can only view your own metrics" 403)
             | Some founder =>
                 if negb (Founder._id founder =? founderId)
                 then Err (AppError "You can only view your own metrics" 403)
                 else Ok tt
             end
         | Role.admin =>
             checkAssigned db userId founderId
               "You can only view metrics for founders assigned to you"
         | Role.super_admin => Ok tt
         end ;;
    match MetricsService.getFounderMonthlyMetrics db founderId month with
    | None => Err (AppError "Metrics not found for the specified month" 404)
    | Some metrics => Ok metrics
    end.

(** [getAdminMetrics] *)
Definition getAdminMetrics `{ObjectIds} (db : DB) (adminId : ObjectId) (userRole : UserRole)
  : Result (list MetricsService.EnhancedMetrics) :=
  if negb (UserRole_eqb userRole Role.admin)
  then Err (AppError "Only admins can access this endpoint" 403)
  else
    assignments <- AssignmentService.getAssignedFounders db adminId ;;
    let founderIds := map AssignmentService.af_founderId assignments in
    Ok (MetricsService.getAdminMetrics db adminId founderIds).

(** [getAllMetrics] *)
Definition getAllMetrics (db : DB) (userRole : UserRole)
  : Result (list MetricsService.EnhancedMetrics) :=
  if negb (UserRole_eqb userRole Role.super_admin)
  then Err (AppError "Only super admins can access this endpoint" 403)
  else Ok (MetricsService.getAllMetrics db).

End metricsController.

(** ** middlewares/authorize.ts, middlewares/auth.ts and routes/metricsRoutes.ts *)

Definition roleName (userRole : option UserRole) : string :=
  match userRole with
  | Some Role.super_admin => "super-admin"
  | Some Role.admin => "admin"
  | Some Role.founder => "founder"
  | None => "undefined"
  end.

(** [authorize(...roles)]; [None] is a request without a role. *)
Definition authorize (roles : list UserRole) (userRole : option UserRole) : Result unit :=
  match userRole with
  | Some role =>
      if existsb (UserRole_eqb role) roles then Ok tt
      else Err (AppError ("Role " ++ roleName userRole
                          ++ " is not authorized to access this route") 403)
  | None =>
      Err (AppError ("Role " ++ roleName userRole
                     ++ " is not authorized to access this route") 403)
  end.

Module auth.

(** [authorize(...roles)] of middlewares/auth.ts, the one the routes import:
    the same test, another message. *)
Definition authorize (roles : list UserRole) (userRole : option UserRole) : Result unit :=
  match userRole with
  | Some role =>
      if existsb (UserRole_eqb role) roles then Ok tt
      else Err (AppError "Not authorized to access this route" 403)
  | None => Err (AppError "Not authorized to access this route" 403)
  end.

End auth.

Module metricsRoutes.

(** [POST /founders/:founderId], after [protect] has set the user:
    [authorize('admin', 'super-admin')], then the controller. *)
Definition postFounderMetrics `{ObjectIds} (db : DB) (userId : ObjectId) (userRole : UserRole)
    (founderId : ObjectId) (body : metricsController.Body) (newId : ObjectId) (now : Date)
  : DB * Result FounderMetrics.t :=
  match auth.authorize [Role.admin; Role.super_admin] (Some userRole) with
  | Err e => (db, Err e)
  | Ok _ => metricsController.uploadMetrics db userId userRole founderId body newId now
  end.

End metricsRoutes.

(** [FounderMetrics.distinct('founderId', filter)]: the founder ids of the
    matching documents, each once. *)
Definition FounderMetrics_distinct_founderId (l : list FounderMetrics.t) : list ObjectId :=
  nodup string_dec (map FounderMetrics.founderId l).

(** [Founder.findById(id).populate('userId', 'name')] read the way the
    dashboards read it: the user's name when the user is there, the company
    name or 'Unknown'. *)
Definition populatedName (db : DB) (founder : Founder.t) : string :=
  match User_findById db (Founder.userId founder) with
  | Some user => User.name user
  | None => "Unknown"
  end.

Definition companyOrUnknown (founder : Founder.t) : string :=
  if Founder.companyName founder =? "" then "Unknown" else Founder.companyName founder.

(** ** services/adminDashboardService.ts *)

Module AdminDashboardService.

(** [Assignment.find({ adminId }).populate('founderId').lean()] followed by
    the map to [founderId._id]: a reference that populates to [null] makes
    the map throw, as [typeof null] is ['object']. *)
Fixpoint founderIdsOf (db : DB) (l : list Assignment.t) : Result (list ObjectId) :=
  match l with
  | [] => Ok []
  | assignment :: rest =>
      match Founder_findById db (Assignment.founderId assignment) with
      | None => Err TypeError
      | Some founder =>
          ids <- founderIdsOf db rest ;;
          Ok (Founder._id founder :: ids)
      end
  end.

Definition assignedFounderIds (db : DB) (adminId : ObjectId) : Result (list ObjectId) :=
  founderIdsOf db (filter (fun a => Assignment.adminId a =? adminId) (assignments db)).

Record MetricsCompletionRate := mkMetricsCompletionRate {
  percentage : JS.number;
  completedCount : nat;
  totalAssigned : nat
}.

(** The founders of the scope that have a document for the month. *)
Definition foundersWithCurrentMonthMetrics (db : DB) (assignedFounderIds : list ObjectId)
    (currentMonth : string) : list ObjectId :=
  FounderMetrics_distinct_founderId
    (filter (fun m => existsb (fun id => id =? FounderMetrics.founderId m) assignedFounderIds
                      && (FounderMetrics.month m =? currentMonth))
            (foundermetrics db)).

(** The [metricsCompletionRate] entry of [getAdminDashboardStats(adminId)];
    [currentMonth] is the month key of the current date. *)
Definition metricsCompletionRate (db : DB) (adminId : ObjectId) (currentMonth : string)
  : Result MetricsCompletionRate :=
  assignedFounderIds <- assignedFounderIds db adminId ;;
  let assignedFoundersCount := List.length assignedFounderIds in
  let foundersWithCurrentMonthMetrics :=
    foundersWithCurrentMonthMetrics db assignedFounderIds currentMonth in
  let metricsCompletionRate :=
    if (0 <? assignedFoundersCount)%nat
    then JS.Math_round
           (PrimFloat.mul
              (PrimFloat.div (JS.ofNat (List.length foundersWithCurrentMonthMetrics))
                             (JS.ofNat assignedFoundersCount))
              100%float)
    else 0%float in
  Ok (mkMetricsCompletionRate metricsCompletionRate
        (List.length foundersWithCurrentMonthMetrics) assignedFoundersCount).

(** The growth expression of the performance highlights,
    [previous > 0 ? Math.round(((current - previous) / previous) * 100) : 0]. *)
Definition growth (current previous : JS.number) : JS.number :=
  if PrimFloat.ltb 0%float previous
  then JS.Math_round
         (PrimFloat.mul (PrimFloat.div (PrimFloat.sub current previous) previous) 100%float)
  else 0%float.

Record PerformanceHighlight := mkPerformanceHighlight {
  id : ObjectId;
  founderName : string;
  companyName : string;
  impressionsGrowth : JS.number;
  engagementGrowth : JS.number;
  month : string
}.

(** The loop of [getAdminRecentActivities] that pushes the highlights, one
    founder of the scope after the other. *)
Fixpoint pushedHighlights (db : DB) (currentMonth prevMonth : string)
    (assignedFounderIds : list ObjectId) : list PerformanceHighlight :=
  match assignedFounderIds with
  | [] => []
  | founderId :: rest =>
      let others := pushedHighlights db currentMonth prevMonth rest in
      match FounderMetrics_findOne (foundermetrics db) founderId currentMonth,
            FounderMetrics_findOne (foundermetrics db) founderId prevMonth with
      | Some currentMonthMetric, Some prevMonthMetric =>
          let impressionsGrowth :=
            growth (FounderMetrics.totalImpressions currentMonthMetric)
                   (FounderMetrics.totalImpressions prevMonthMetric) in
          let engagementGrowth :=
            growth (FounderMetrics.totalCommentOutreach currentMonthMetric)
                   (FounderMetrics.totalCommentOutreach prevMonthMetric) in
          if PrimFloat.ltb 20%float impressionsGrowth
             || PrimFloat.ltb 20%float engagementGrowth
          then
            let founder := Founder_findById db founderId in
            mkPerformanceHighlight
              (FounderMetrics._id currentMonthMetric)
              (match founder with
               | Some founder => populatedName db founder
               | None => "Unknown"
               end)
              (match founder with
               | Some founder =>
                   match User_findById db (Founder.userId founder) with
                   | Some _ => companyOrUnknown founder
                   | None => "Unknown"
                   end
               | None => "Unknown"
               end)
              impressionsGrowth engagementGrowth
              (FounderMetrics.month currentMonthMetric)
            :: others
          else others
      | _, _ => others
      end
  end.

(** The sort key of a highlight,
    [Math.max(impressionsGrowth, engagementGrowth)]. *)
Definition maxGrowth (h : PerformanceHighlight) : JS.number :=
  JS.Math_max (impressionsGrowth h) (engagementGrowth h).

(** The comparator of the sort, [(a, b) => Math.max(b...) - Math.max(a...)]:
    [a] goes before [b] when it is below 0. *)
Definition compareHighlights (a b : PerformanceHighlight) : JS.number :=
  PrimFloat.sub (maxGrowth b) (maxGrowth a).

Definition highlightBefore (a b : PerformanceHighlight) : bool :=
  PrimFloat.ltb (compareHighlights a b) 0%float.

(** The field [performanceHighlights] of what [getAdminRecentActivities]
    returns: the highlights pushed, sorted by the comparator, and of these
    [slice(0, 5)]. *)
Definition performanceHighlights (db : DB) (currentMonth prevMonth : string)
    (assignedFounderIds : list ObjectId) : list PerformanceHighlight :=
  firstn 5 (sortBy highlightBefore
              (pushedHighlights db currentMonth prevMonth assignedFounderIds)).

Record MetricsNeedingAttention := mkMetricsNeedingAttention {
  attentionCount : nat;
  attentionPercentage : JS.number
}.

(** [FounderMetrics.distinct('founderId', { founderId: { $in }, createdAt:
    { $gte: thirtyDaysAgo } })] *)
Definition recentlyUpdatedFounderIds (db : DB) (assignedFounderIds : list ObjectId)
    (thirtyDaysAgo : Date) : list ObjectId :=
  FounderMetrics_distinct_founderId
    (filter (fun m => existsb (fun id => id =? FounderMetrics.founderId m) assignedFounderIds
                      && (thirtyDaysAgo <=? FounderMetrics.createdAt m)%Z)
            (foundermetrics db)).

(** The assigned founders without a document created since
    [thirtyDaysAgo]. *)
Definition foundersNeedingAttention (db : DB) (assignedFounderIds : list ObjectId)
    (thirtyDaysAgo : Date) : list ObjectId :=
  filter (fun id =>
            negb (existsb (fun updatedId => updatedId =? id)
                    (recentlyUpdatedFounderIds db assignedFounderIds thirtyDaysAgo)))
         assignedFounderIds.

(** The [metricsNeedingAttention] entry of [getAdminDashboardStats(adminId)];
    [thirtyDaysAgo] is the date thirty days before the call. *)
Definition metricsNeedingAttention (db : DB) (adminId : ObjectId) (thirtyDaysAgo : Date)
  : Result MetricsNeedingAttention :=
  assignedFounderIds <- assignedFounderIds db adminId ;;
  let assignedFoundersCount := List.length assignedFounderIds in
  let foundersNeedingAttention :=
    List.length (foundersNeedingAttention db assignedFounderIds thirtyDaysAgo) in
  Ok (mkMetricsNeedingAttention foundersNeedingAttention
        (if (0 <? assignedFoundersCount)%nat
         then JS.Math_round
                (PrimFloat.mul
                   (PrimFloat.div (JS.ofNat foundersNeedingAttention)
                                  (JS.ofNat assignedFoundersCount))
                   100%float)
         else 0%float)).

Record UpcomingDeadline := mkUpcomingDeadline {
  deadlineId : ObjectId;
  deadlineFounderName : string;
  deadlineCompanyName : string;
  deadlineMonth : string;
  daysLeft : Z
}.

(** The assigned founders without a document for the current month. *)
Definition foundersWithoutCurrentMetrics (db : DB) (assignedFounderIds : list ObjectId)
    (currentMonth : string) : list ObjectId :=
  filter (fun id =>
            negb (existsb (fun metricId => metricId =? id)
                    (foundersWithCurrentMonthMetrics db assignedFounderIds currentMonth)))
         assignedFounderIds.

(** The [upcomingDeadlines] of [getAdminRecentActivities(adminId)], over the
    assigned founder ids; [daysLeftInMonth] is [getDaysLeftInMonth()]. *)
Definition upcomingDeadlines (db : DB) (assignedFounderIds : list ObjectId)
    (currentMonth : string) (daysLeftInMonth : Z) : list UpcomingDeadline :=
  flat_map
    (fun founderId =>
       match Founder_findById db founderId with
       | Some founder =>
           [mkUpcomingDeadline (Founder._id founder)
              (populatedName db founder)
              (match User_findById db (Founder.userId founder) with
               | Some _ => companyOrUnknown founder
               | None => "Unknown"
               end)
              currentMonth daysLeftInMonth]
       | None => []
       end)
    (foundersWithoutCurrentMetrics db assignedFounderIds currentMonth).

(** Sum of a counter over documents,
    [metrics.reduce((sum, metric) => sum + (metric.counter || 0), 0)]. *)
Definition sumOf (counter : FounderMetrics.t -> JS.number) (metrics : list FounderMetrics.t)
  : JS.number :=
  fold_left (fun sum metric => PrimFloat.add sum (JS.orZero (counter metric))) metrics 0%float.

Record MetricsTrend := mkMetricsTrend {
  trendMonth : string;
  trendTotalImpressions : JS.number;
  trendTotalEngagement : JS.number;
  trendTotalPosts : JS.number;
  trendMetricsCount : nat;
  avgImpressions : JS.number;
  avgEngagement : JS.number;
  avgPosts : JS.number
}.

Definition average (total : JS.number) (metricsCount : nat) : JS.number :=
  if (0 <? metricsCount)%nat
  then JS.Math_round (PrimFloat.div total (JS.ofNat metricsCount))
  else 0%float.

(** The [metricsTrends] series of [getAdminGraphData(adminId)], over the
    assigned founder ids and the month keys the caller generated. *)
Definition metricsTrends (db : DB) (assignedFounderIds : list ObjectId) (months : list string)
  : list MetricsTrend :=
  map (fun month =>
         let metrics :=
           filter (fun m => existsb (fun id => id =? FounderMetrics.founderId m)
                              assignedFounderIds
                            && (FounderMetrics.month m =? month))
                  (foundermetrics db) in
         let totalImpressions := sumOf FounderMetrics.totalImpressions metrics in
         let totalEngagement := sumOf FounderMetrics.totalCommentOutreach metrics in
         let totalPosts := sumOf FounderMetrics.totalPosts metrics in
         let metricsCount := List.length metrics in
         mkMetricsTrend month totalImpressions totalEngagement totalPosts metricsCount
           (average totalImpressions metricsCount)
           (average totalEngagement metricsCount)
           (average totalPosts metricsCount))
      months.

End AdminDashboardService.

(** ** The super-admin dashboard (class DashboardService) *)

Module DashboardService.

Record UpcomingMilestone := mkUpcomingMilestone {
  id : ObjectId;
  founderName : string;
  companyName : string;
  currentPosts : JS.number;
  milestone : JS.number;
  postsAway : JS.number
}.

Definition milestones : list JS.number := [100%float; 500%float; 1000%float].

(** [founderMetrics.reduce((sum, metric) => sum + (metric.totalPosts || 0), 0)]
    over [FounderMetrics.find({ founderId: founder._id })]. *)
Definition lifetimePosts (db : DB) (founder_id : ObjectId) : JS.number :=
  fold_left
    (fun sum metric => PrimFloat.add sum (JS.orZero (FounderMetrics.totalPosts metric)))
    (filter (fun m => FounderMetrics.founderId m =? founder_id) (foundermetrics db))
    0%float.

(** The inner loop with its [break]: the first milestone the total is
    below and at most 10 away from. *)
Fixpoint approaching (totalPosts : JS.number) (milestones : list JS.number)
  : option JS.number :=
  match milestones with
  | [] => None
  | milestone :: rest =>
      if PrimFloat.ltb totalPosts milestone
         && PrimFloat.leb (PrimFloat.sub milestone 10%float) totalPosts
      then Some milestone
      else approaching totalPosts rest
  end.

(** What one founder adds to [upcomingMilestones]. *)
Definition milestoneEntries (db : DB) (founder : Founder.t) : list UpcomingMilestone :=
  let totalPosts := lifetimePosts db (Founder._id founder) in
  match approaching totalPosts milestones with
  | Some milestone =>
      [mkUpcomingMilestone (Founder._id founder) (populatedName db founder)
         (companyOrUnknown founder) totalPosts milestone
         (PrimFloat.sub milestone totalPosts)]
  | None => []
  end.

(** The [upcomingMilestones] of [getRecentActivities()]. *)
Definition upcomingMilestones (db : DB) : list UpcomingMilestone :=
  flat_map (milestoneEntries db) (founders db).

(** The [metricsCompletionRate] series of [getGraphData()], over the month
    keys the caller generated. *)
Definition completionRate (db : DB) (month : string) : JS.number :=
  let allFoundersCount := List.length (founders db) in
  let foundersWithMetrics :=
    FounderMetrics_distinct_founderId
      (filter (fun m => FounderMetrics.month m =? month) (foundermetrics db)) in
  if (0 <? allFoundersCount)%nat
  then JS.Math_round
         (PrimFloat.mul
            (PrimFloat.div (JS.ofNat (List.length foundersWithMetrics))
                           (JS.ofNat allFoundersCount))
            100%float)
  else 0%float.

Definition metricsCompletionRate (db : DB) (months : list string)
  : list (string * JS.number) :=
  map (fun month => (month, completionRate db month)) months.

Record GrowthTrend := mkGrowthTrend {
  growthMonth : string;
  totalPosts : JS.number;
  totalImpressions : JS.number;
  totalCommentOutreach : JS.number;
  metricsCount : nat
}.

(** The [platformGrowthTrends] series of [getGraphData()]. *)
Definition platformGrowthTrends (db : DB) (months : list string) : list GrowthTrend :=
  map (fun month =>
         let metrics := filter (fun m => FounderMetrics.month m =? month) (foundermetrics db) in
         mkGrowthTrend month
           (AdminDashboardService.sumOf FounderMetrics.totalPosts metrics)
           (AdminDashboardService.sumOf FounderMetrics.totalImpressions metrics)
           (AdminDashboardService.sumOf FounderMetrics.totalCommentOutreach metrics)
           (List.length metrics))
      months.

Record AdminRequiringAttention := mkAdminRequiringAttention {
  adminId : ObjectId;
  adminName : string;
  adminEmail : string;
  assignedFoundersCount : nat;
  lastUploadDate : option Date
}.

(** The ids of the admins that uploaded since [thirtyDaysAgo],
    [FounderMetrics.find({ createdAt: { $gte } }).distinct('uploadedBy')]. *)
Definition recentlyActiveAdminIds (db : DB) (thirtyDaysAgo : Date) : list ObjectId :=
  nodup string_dec
    (map FounderMetrics.uploadedBy
       (filter (fun m => (thirtyDaysAgo <=? FounderMetrics.createdAt m)%Z) (foundermetrics db))).

(** The [adminsRequiringAttention] of [getRecentActivities()]: the admins
    without a recent upload, each with the number of its assignments, the
    busiest first. *)
Definition adminsRequiringAttention (db : DB) (thirtyDaysAgo : Date)
  : list AdminRequiringAttention :=
  let allAdmins := filter (fun u => UserRole_eqb (User.role u) Role.admin) (users db) in
  let recentlyActiveAdminIdStrings := recentlyActiveAdminIds db thirtyDaysAgo in
  let adminsRequiringAttention :=
    filter (fun admin =>
              negb (existsb (fun id => id =? User._id admin) recentlyActiveAdminIdStrings))
           allAdmins in
  let adminAssignments :=
    filter (fun a => existsb (fun admin => User._id admin =? Assignment.adminId a)
                       adminsRequiringAttention)
           (assignments db) in
  sortBy (fun y x => (assignedFoundersCount x <? assignedFoundersCount y)%nat)
    (map (fun admin =>
            mkAdminRequiringAttention (User._id admin) (User.name admin) (User.email admin)
              (List.length
                 (filter (fun a => Assignment.adminId a =? User._id admin) adminAssignments))
              None)
         adminsRequiringAttention).

End DashboardService.

(** ** services/reportService.ts: the month of a report *)

Module ReportService.

(** [/^\d{4}-(0[1-9]|1[0-2])$/.test(month)], the test of [uploadReport] and
    of the report schema. *)
Definition testMonth (s : string) : bool :=
  match s with
  | String y1 (String y2 (String y3 (String y4 (String h (String m1 (String m2 EmptyString)))))) =>
      JS.isDigit y1 && JS.isDigit y2 && JS.isDigit y3 && JS.isDigit y4
      && Ascii.eqb h "-"%char
      && ((Ascii.eqb m1 "0"%char
           && (49 <=? nat_of_ascii m2)%nat && (nat_of_ascii m2 <=? 57)%nat)
          || (Ascii.eqb m1 "1"%char
              && (48 <=? nat_of_ascii m2)%nat && (nat_of_ascii m2 <=? 50)%nat))
  | _ => false
  end.

End ReportService.

(** ** middlewares/permissions.ts: the other handlers *)

(** [permissions.canManageContent(req, userId, userRole)]; [founderId] is
    [req.params.founderId], [None] on a route without that parameter, and
    the empty string is falsy like [undefined]. *)
Definition canManageContent (db : DB) (founderId : option ObjectId) (userId : ObjectId)
    (userRole : UserRole) : bool :=
  match userRole with
  | Role.super_admin => true
  | Role.admin =>
      match founderId with
      | Some founderId =>
          if founderId =? "" then true
          else
            match Assignment_findOne (assignments db) founderId userId with
            | Some _ => true
            | None => false
            end
      | None => true
      end
  | Role.founder => false
  end.

(** [permissions.canManageUsers(req, userId, userRole)] *)
Definition canManageUsers (userRole : UserRole) : bool :=
  UserRole_eqb userRole Role.super_admin.

(** [checkPermission(permissionKey)], with the handler of the key applied
    to the request; [None] is an [undefined] [req.userId] or
    [req.userRole]. *)
Definition checkPermission (permission : ObjectId -> UserRole -> bool)
    (userId : option ObjectId) (userRole : option UserRole) : Result unit :=
  match userId, userRole with
  | Some userId, Some userRole =>
      if userId =? "" then Err (AppError "Not authenticated" 401)
      else if negb (permission userId userRole)
      then Err (AppError "You do not have permission to perform this action" 403)
      else Ok tt
  | _, _ => Err (AppError "Not authenticated" 401)
  end.

(** ** services/userService.ts: creating founders and admins *)

Module UserService.

Record RegisterFounderData := mkRegisterFounderData {
  founderName : string;
  founderEmail : string;
  founderPassword : string;
  companyName : string;
  industry : option string
}.

Record RegisterAdminData := mkRegisterAdminData {
  adminName : string;
  adminEmail : string;
  adminPassword : string;
  bio : option string
}.

(** [User.findOne({ email })] *)
Definition User_findOne_email (l : list User.t) (email : string) : option User.t :=
  find (fun u => User.email u =? email) l.

(** The inserts of [Model.create([doc], { session })]: refused with error
    11000 when the id or the key of the unique index is taken. *)
Definition User_insertOne (l : list User.t) (doc : User.t) : Result (list User.t) :=
  if existsb (fun u => User._id u =? User._id doc) l
     || existsb (fun u => User.email u =? User.email doc) l
  then Err (MongoServerError 11000)
  else Ok (l ++ [doc]).

Definition Founder_insertOne (l : list Founder.t) (doc : Founder.t) : Result (list Founder.t) :=
  if existsb (fun f => Founder._id f =? Founder._id doc) l
     || existsb (fun f => Founder.userId f =? Founder.userId doc) l
  then Err (MongoServerError 11000)
  else Ok (l ++ [doc]).

Definition Admin_insertOne (l : list Admin.t) (doc : Admin.t) : Result (list Admin.t) :=
  if existsb (fun a => Admin._id a =? Admin._id doc) l
     || existsb (fun a => Admin.userId a =? Admin.userId doc) l
  then Err (MongoServerError 11000)
  else Ok (l ++ [doc]).

(** The validation mongoose runs on a document before the insert (required
    paths, lengths, the pattern of the email, the length of the password)
    is left open: the definitions and their properties hold for every
    validation. *)
Section Schemas.
Variable User_validate : User.t -> string -> Result unit.
Variable Founder_validate : Founder.t -> Result unit.
Variable Admin_validate : Admin.t -> option string -> Result unit.

(** [createFounder(userData)]; [newUserId] and [newFounderId] are the ids
    the two created documents receive. Both inserts run in the session, and
    the commit installs them together. *)
Definition createFounder (db : DB) (userData : RegisterFounderData)
    (newUserId newFounderId : ObjectId) : DB * Result (User.t * Founder.t) :=
  match User_findOne_email (users db) (founderEmail userData) with
  | Some _ => (db, Err (AppError "User already exists" 400))
  | None =>
      let user :=
        User.mk newUserId (JS.trim (founderName userData)) (founderEmail userData)
          Role.founder in
      match (_ <- User_validate user (founderPassword userData) ;;
             User_insertOne (users db) user) with
      | Err error => (db, Err error)
      | Ok sessionUsers =>
          let founder :=
            Founder.mk newFounderId (User._id user) (JS.trim (companyName userData))
              (option_map JS.trim (industry userData)) in
          match (_ <- Founder_validate founder ;;
                 Founder_insertOne (founders db) founder) with
          | Err error => (db, Err error)
          | Ok sessionFounders =>
              (mkDB sessionUsers sessionFounders (admins db) (assignments db)
                 (foundermetrics db),
               Ok (user, founder))
          end
      end
  end.

(** [createAdmin(userData)] *)
Definition createAdmin (db : DB) (userData : RegisterAdminData)
    (newUserId newAdminId : ObjectId) : DB * Result (User.t * Admin.t) :=
  match User_findOne_email (users db) (adminEmail userData) with
  | Some _ => (db, Err (AppError "User already exists" 400))
  | None =>
      let user :=
        User.mk newUserId (JS.trim (adminName userData)) (adminEmail userData)
          Role.admin in
      match (_ <- User_validate user (adminPassword userData) ;;
             User_insertOne (users db) user) with
      | Err error => (db, Err error)
      | Ok sessionUsers =>
          let admin := Admin.mk newAdminId (User._id user) in
          match (_ <- Admin_validate admin (bio userData) ;;
                 Admin_insertOne (admins db) admin) with
          | Err error => (db, Err error)
          | Ok sessionAdmins =>
              (mkDB sessionUsers (founders db) sessionAdmins (assignments db)
                 (foundermetrics db),
               Ok (user, admin))
          end
      end
  end.
End Schemas.

End UserService.

(** ** Vocabulary of the statements *)

(** The edge [assignAdminsToFounder] inserts for one admin id. *)
Definition edge (founder_id assignedBy : ObjectId) (now : Date) (adminId : ObjectId)
  : Assignment.t :=
  Assignment.mk founder_id adminId assignedBy now.

(** [true] when no id of [ids] is in [seen] or occurs twice. *)
Fixpoint allFresh (seen ids : list ObjectId) : bool :=
  match ids with
  | [] => true
  | a :: rest => negb (existsb (fun b => b =? a) seen) && allFresh (seen ++ [a]) rest
  end.

(** An id that exists and has the admin role: it is an ObjectId, it has an
    Admin document and a user whose role is ['admin']. *)
Definition isValidAdminId `{ObjectIds} (db : DB) (adminId : ObjectId) : bool :=
  ObjectId_isValid adminId
  && match Admin_findOne_userId db adminId, User_findById db adminId with
     | Some _, Some user => UserRole_eqb (User.role user) Role.admin
     | _, _ => false
     end.

(** The edges of a founder document, in stored order. *)
Definition edgesOf (db : DB) (founder_id : ObjectId) : list Assignment.t :=
  filter (fun a => Assignment.founderId a =? founder_id) (assignments db).

(** What identifies an edge apart from the time it was written. *)
Definition edgeKey (a : Assignment.t) : ObjectId * ObjectId * ObjectId :=
  (Assignment.founderId a, Assignment.adminId a, Assignment.assignedBy a).

(** The unique indexes the schemas declare on the profile collections and
    the primary key of the users. *)
Definition uniqueProfiles (db : DB) : Prop :=
  NoDup (map User._id (users db))
  /\ NoDup (map Admin.userId (admins db))
  /\ NoDup (map Founder.userId (founders db)).

(** Every founder profile belongs to a user ([createFounder] writes the two
    in one transaction and nothing deletes a user). *)
Definition foundersHaveUsers (db : DB) : Prop :=
  forall f, In f (founders db) -> exists user, User_findById db (Founder.userId f) = Some user.

(** The documents of one (founder, month) pair. *)
Definition sameKey (founderId : ObjectId) (month : string) (m : FounderMetrics.t) : bool :=
  (FounderMetrics.founderId m =? founderId) && (FounderMetrics.month m =? month).

Definition metricsKey (m : FounderMetrics.t) : ObjectId * string :=
  (FounderMetrics.founderId m, FounderMetrics.month m).

(** The primary key and the unique index on (founderId, month) of the
    metrics collection. *)
Definition metricsIndexes (db : DB) : Prop :=
  NoDup (map FounderMetrics._id (foundermetrics db))
  /\ NoDup (map metricsKey (foundermetrics db)).


(** The month key as the specification words it: a four-digit year, a
    hyphen, and a two-digit month whose value is between 01 and 12. *)
Definition validMonthKey (s : string) : bool :=
  match s with
  | String y1 (String y2 (String y3 (String y4 (String h (String m1 (String m2 EmptyString)))))) =>
      JS.isDigit y1 && JS.isDigit y2 && JS.isDigit y3 && JS.isDigit y4
      && Ascii.eqb h "-"%char
      && JS.isDigit m1 && JS.isDigit m2
      && let v := ((nat_of_ascii m1 - 48) * 10 + (nat_of_ascii m2 - 48))%nat in
         (1 <=? v)%nat && (v <=? 12)%nat
  | _ => false
  end.

(** The stored document after an upload found it: its id, key and creation
    date stay, counters, notes and uploader are the uploaded ones, and the
    date of the last update is that of the upload when the upload changed
    one of them. *)
Definition overwritten (old : FounderMetrics.t) (uploaderId : ObjectId)
    (data : MetricsService.MetricsData) (now : Date) : FounderMetrics.t :=
  FounderMetrics.mk (FounderMetrics._id old) (FounderMetrics.founderId old) uploaderId
    (FounderMetrics.month old)
    (MetricsService.totalPosts data) (MetricsService.totalImpressions data)
    (MetricsService.totalCommentOutreach data)
    (option_map JS.trim (MetricsService.notes data))
    (FounderMetrics.createdAt old)
    (if FounderMetrics_isModified old uploaderId
          (MetricsService.totalPosts data) (MetricsService.totalImpressions data)
          (MetricsService.totalCommentOutreach data)
          (option_map JS.trim (MetricsService.notes data))
     then now
     else FounderMetrics.updatedAt old).

(** The document an upload creates when it found none. *)
Definition created (newId founderId uploaderId : ObjectId) (month : string)
    (data : MetricsService.MetricsData) (now : Date) : FounderMetrics.t :=
  FounderMetrics.mk newId founderId uploaderId month
    (MetricsService.totalPosts data) (MetricsService.totalImpressions data)
    (MetricsService.totalCommentOutreach data)
    (option_map JS.trim (MetricsService.notes data)) now now.

(** The order of the numbers: a number that is not NaN has a rank, a triple
    of integers (class, exponent, mantissa, the last two negated below
    zero), and the comparisons of two numbers are the lexicographic
    comparisons of their ranks. *)
Definition rank (x : spec_float) : option (Z * Z * Z) :=
  match x with
  | S754_nan => None
  | S754_infinity true => Some (-2, 0, 0)%Z
  | S754_infinity false => Some (2, 0, 0)%Z
  | S754_zero _ => Some (0, 0, 0)%Z
  | S754_finite true m e => Some (-1, - e, - Z.pos m)%Z
  | S754_finite false m e => Some (1, e, Z.pos m)%Z
  end.

Definition numberRank (x : JS.number) : option (Z * Z * Z) := rank (Prim2SF x).

Definition lexLt (a b : Z * Z * Z) : Prop :=
  let '(a1, a2, a3) := a in
  let '(b1, b2, b3) := b in
  (a1 < b1 \/ (a1 = b1 /\ (a2 < b2 \/ (a2 = b2 /\ a3 < b3))))%Z.

(** Stored impressions and outreach counters that are finite numbers. *)
Definition finiteCounters (db : DB) : Prop :=
  forall m, In m (foundermetrics db) ->
    PrimFloat.is_finite (FounderMetrics.totalImpressions m) = true
    /\ PrimFloat.is_finite (FounderMetrics.totalCommentOutreach m) = true.

(** The completion rate as the specification words it, for a scope of
    founder ids: the founders of the scope with a document of the month
    over the founders of the scope, as a rounded percentage, and 0 for an
    empty scope. *)
Definition hasRecord (db : DB) (month : string) (founder_id : ObjectId) : bool :=
  existsb (fun m => (FounderMetrics.founderId m =? founder_id)
                    && (FounderMetrics.month m =? month))
          (foundermetrics db).

Definition specCompletionRate (db : DB) (scope : list ObjectId) (month : string)
  : JS.number :=
  match scope with
  | [] => 0%float
  | _ =>
      JS.Math_round
        (PrimFloat.mul
           (PrimFloat.div (JS.ofNat (List.length (filter (hasRecord db month) scope)))
                          (JS.ofNat (List.length scope)))
           100%float)
  end.

(** The pair of the unique index of the assignments. *)
Definition assignmentKey (a : Assignment.t) : ObjectId * ObjectId :=
  (Assignment.founderId a, Assignment.adminId a).

Definition assignmentIndex (db : DB) : Prop :=
  NoDup (map assignmentKey (assignments db)).

(** Every stored document passes the validation of its schema. *)
Definition storedValid (db : DB) : Prop :=
  forall m, In m (foundermetrics db) -> FounderMetrics_validate m = Ok tt.

(** [without a ids]: the ids other than [a]. *)
Definition without (a : ObjectId) (ids : list ObjectId) : list ObjectId :=
  filter (fun b => negb (b =? a)) ids.

(** The assignment check as a test on a document: the admin is assigned
    to the founder the document is filed under. *)
Definition assignedTo (db : DB) (adminId : ObjectId) (m : FounderMetrics.t) : bool :=
  match AssignmentService.isAssigned db adminId (FounderMetrics.founderId m) with
  | Ok b => b
  | Err _ => false
  end.

(** [notAfter a b]: in the order of [sort({ month: -1, founderId: 1 })],
    [b] does not go strictly before [a]. *)
Definition notAfter (a b : FounderMetrics.t) : Prop :=
  MetricsService.monthDescFounderAsc b a = false.

(** The unique index on the email of the users. *)
Definition uniqueEmails (db : DB) : Prop := NoDup (map User.email (users db)).

(** Every edge points to a founder document. *)
Definition edgesHaveFounders (db : DB) : Prop :=
  forall a, In a (assignments db) -> Founder_findById db (Assignment.founderId a) <> None.

(** No founder document carries the id of a user, as ids generated for
    different documents differ. *)
Definition profileIdsApart (db : DB) : Prop :=
  forall f u, In f (founders db) -> In u (users db) -> Founder._id f <> User._id u.

(** The primary key of the founder documents. *)
Definition founderIdsUnique (db : DB) : Prop := NoDup (map Founder._id (founders db)).

(** ** A sample database

    One super-admin, two admins, two founders; admin A1 manages founder F1.
    The metrics m1, m2 are filed under the founder's user id, as the upload
    route files them; d1, d2, d3 are filed under the id of the founder
    document, where the dashboards look for them. *)

Definition sampleMetrics (id : ObjectId) (founderId : ObjectId) (month : string)
    (posts impressions outreach : JS.number) : FounderMetrics.t :=
  FounderMetrics.mk id founderId "A1" month posts impressions outreach None 100%Z 100%Z.

Definition sampleDB : DB :=
  mkDB
    [ User.mk "S1" "Root" "root@example.com" Role.super_admin;
      User.mk "A1" "Ada" "ada@example.com" Role.admin;
      User.mk "A2" "Alan" "alan@example.com" Role.admin;
      User.mk "F1" "Fay" "fay@example.com" Role.founder;
      User.mk "F2" "Finn" "finn@example.com" Role.founder ]
    [ Founder.mk "fd1" "F1" "Acme" None; Founder.mk "fd2" "F2" "" None ]
    [ Admin.mk "ad1" "A1"; Admin.mk "ad2" "A2" ]
    [ Assignment.mk "fd1" "A1" "S1" 50%Z ]
    [ sampleMetrics "m1" "F1" "2025-05" 40%float 100%float 10%float;
      sampleMetrics "m2" "F1" "2025-06" 55%float 120%float 10%float;
      sampleMetrics "d1" "fd1" "2025-05" 40%float 100%float 10%float;
      sampleMetrics "d2" "fd1" "2025-06" 55%float 125%float 10%float;
      sampleMetrics "d3" "fd2" "2025-06" 90%float 30%float 0%float ].

(** A database whose founder document fd1 has impressions of Infinity for
    two months, as the body [{"totalImpressions": 1e999, ...}] uploads
    them, and an outreach that grows from 10 to 15. *)
Definition infinityDB : DB :=
  mkDB [ User.mk "F1" "Fay" "fay@example.com" Role.founder ]
       [ Founder.mk "fd1" "F1" "Acme" None ]
       []
       []
       [ sampleMetrics "i1" "fd1" "2025-05" 40%float PrimFloat.infinity 10%float;
         sampleMetrics "i2" "fd1" "2025-06" 55%float PrimFloat.infinity 15%float ].

(** Four founders with lifetime totals of 89, 90, 95 and 100 posts. *)
Definition milestoneDB : DB :=
  mkDB [ User.mk "U89" "Una" "una@example.com" Role.founder;
         User.mk "U90" "Udo" "udo@example.com" Role.founder;
         User.mk "U95" "Uri" "uri@example.com" Role.founder;
         User.mk "U100" "Ute" "ute@example.com" Role.founder ]
       [ Founder.mk "g89" "U89" "Kilo" None; Founder.mk "g90" "U90" "Lima" None;
         Founder.mk "g95" "U95" "Mike" None; Founder.mk "g100" "U100" "Nova" None ]
       []
       []
       [ sampleMetrics "p1" "g89" "2025-05" 89%float 0%float 0%float;
         sampleMetrics "p2" "g90" "2025-05" 50%float 0%float 0%float;
         sampleMetrics "p3" "g90" "2025-06" 40%float 0%float 0%float;
         sampleMetrics "p4" "g95" "2025-06" 95%float 0%float 0%float;
         sampleMetrics "p5" "g100" "2025-06" 100%float 0%float 0%float ].

(** Seven founders with documents for May and June: the impressions grow
    from 100 to 130, 150, 125, 180, 121, 160 and 110, the outreach stays. *)
Definition growthDB : DB :=
  mkDB []
       [ Founder.mk "h1" "V1" "One" None; Founder.mk "h2" "V2" "Two" None;
         Founder.mk "h3" "V3" "Three" None; Founder.mk "h4" "V4" "Four" None;
         Founder.mk "h5" "V5" "Five" None; Founder.mk "h6" "V6" "Six" None;
         Founder.mk "h7" "V7" "Seven" None ]
       []
       []
       [ sampleMetrics "a1" "h1" "2025-05" 1%float 100%float 10%float;
         sampleMetrics "a2" "h2" "2025-05" 1%float 100%float 10%float;
         sampleMetrics "a3" "h3" "2025-05" 1%float 100%float 10%float;
         sampleMetrics "a4" "h4" "2025-05" 1%float 100%float 10%float;
         sampleMetrics "a5" "h5" "2025-05" 1%float 100%float 10%float;
         sampleMetrics "a6" "h6" "2025-05" 1%float 100%float 10%float;
         sampleMetrics "a7" "h7" "2025-05" 1%float 100%float 10%float;
         sampleMetrics "b1" "h1" "2025-06" 1%float 130%float 10%float;
         sampleMetrics "b2" "h2" "2025-06" 1%float 150%float 10%float;
         sampleMetrics "b3" "h3" "2025-06" 1%float 125%float 10%float;
         sampleMetrics "b4" "h4" "2025-06" 1%float 180%float 10%float;
         sampleMetrics "b5" "h5" "2025-06" 1%float 121%float 10%float;
         sampleMetrics "b6" "h6" "2025-06" 1%float 160%float 10%float;
         sampleMetrics "b7" "h7" "2025-06" 1%float 110%float 10%float ].

(** A request body with the four required fields. *)
Definition sampleBody (month : string) (posts impressions outreach : JS.number)
  : metricsController.Body :=
  metricsController.mkBody (Some month) (Some posts) (Some impressions) (Some outreach) None.

(** A database where the founder document of user U1 carries the user's own
    id. *)
Definition sharedIdDB : DB :=
  mkDB [ User.mk "U1" "Uma" "uma@example.com" Role.founder ]
       [ Founder.mk "U1" "U1" "Umbra" None ]
       []
       []
       [ sampleMetrics "k1" "U1" "2025-06" 7%float 70%float 1%float ].

(** The ids of the sample databases are short names made of letters and
    digits. The examples are stated for a test that takes such names for
    ObjectIds and refuses the empty string and every string with another
    character, ["not-an-id"] for one. *)
Definition isLetterOrDigit (c : ascii) : bool :=
  let n := nat_of_ascii c in
  ((48 <=? n)%nat && (n <=? 57)%nat)
  || ((65 <=? n)%nat && (n <=? 90)%nat)
  || ((97 <=? n)%nat && (n <=? 122)%nat).

Fixpoint lettersAndDigits (s : string) : bool :=
  match s with
  | EmptyString => true
  | String c s' => isLetterOrDigit c && lettersAndDigits s'
  end.

Definition sampleObjectIds : ObjectIds :=
  {| ObjectId_isValid := fun s => negb (s =? "") && lettersAndDigits s |}.

(** Validations that accept every document, for the examples. *)
Definition acceptUser (_ : User.t) (_ : string) : Result unit := Ok tt.
Definition acceptFounder (_ : Founder.t) : Result unit := Ok tt.
Definition acceptAdmin (_ : Admin.t) (_ : option string) : Result unit := Ok tt.

(** * Properties *)

(** ** Lists of documents *)

Section ListFacts.
Context {A : Type}.
Variable key : A -> string.

Lemma find_key_In (k : string) (l : list A) (x : A) :
  find (fun y => key y =? k) l = Some x -> In x l /\ key x = k.
Proof.
  intros H. apply find_some in H. destruct H as [Hin Hk].
  apply String.eqb_eq in Hk. auto.
Qed.

Lemma find_key_None (k : string) (l : list A) :
  find (fun y => key y =? k) l = None <-> ~ In k (map key l).
Proof.
  induction l as [|y l IH]; simpl.
  - tauto.
  - destruct (String.eqb_spec (key y) k) as [E|E].
    + split; [discriminate | intros H; exfalso; apply H; auto].
    + rewrite IH. split; [intros H [H'|H']; [congruence | auto] | tauto].
Qed.

Lemma filter_key_not_In (k : string) (l : list A) :
  ~ In k (map key l) -> filter (fun y => key y =? k) l = [].
Proof.
  induction l as [|y l IH]; simpl; intros H; [reflexivity|].
  destruct (String.eqb_spec (key y) k) as [E|E].
  - exfalso. apply H. auto.
  - apply IH. tauto.
Qed.

(** Under a unique index on [key], the matches of a key are the one
    document [findOne] returns. *)
Lemma filter_key_unique (k : string) (l : list A) (x : A) :
  NoDup (map key l) ->
  find (fun y => key y =? k) l = Some x ->
  filter (fun y => key y =? k) l = [x].
Proof.
  induction l as [|y l IH]; simpl; intros Hnd Hf; [discriminate|].
  inversion Hnd as [|? ? Hnotin Hnd']; subst.
  destruct (String.eqb_spec (key y) k) as [E|E].
  - inversion Hf; subst. f_equal. apply filter_key_not_In. assumption.
  - apply IH; assumption.
Qed.
End ListFacts.

(** ** Sorting *)

Section Sorting.
Context {A : Type}.
Variable before : A -> A -> bool.

Lemma insertBy_Permutation (x : A) (l : list A) : Permutation (insertBy before x l) (x :: l).
Proof.
  induction l as [|y l IH]; simpl; [apply Permutation_refl|].
  destruct (before y x); [|apply Permutation_refl].
  eapply Permutation_trans; [apply perm_skip; exact IH | apply perm_swap].
Qed.

Lemma sortBy_Permutation (l : list A) : Permutation (sortBy before l) l.
Proof.
  induction l as [|x l IH]; simpl; [apply Permutation_refl|].
  eapply Permutation_trans; [apply insertBy_Permutation | apply perm_skip; exact IH].
Qed.

Hypothesis before_asym : forall x y, before x y = true -> before y x = false.
Hypothesis notBefore_trans :
  forall x y z, before y x = false -> before z y = false -> before z x = false.

Lemma insertBy_sorted (x : A) (l : list A) :
  Sorted.StronglySorted (fun a b => before b a = false) l ->
  Sorted.StronglySorted (fun a b => before b a = false) (insertBy before x l).
Proof.
  induction l as [|y l IH]; simpl; intros Hs.
  - constructor; constructor.
  - inversion Hs as [|? ? Hs' Hall]; subst.
    destruct (before y x) eqn:E.
    + constructor; [apply IH; assumption|].
      apply (Permutation_Forall (Permutation_sym (insertBy_Permutation x l))).
      constructor; [apply before_asym; assumption | assumption].
    + constructor; [assumption|]. constructor; [assumption|].
      rewrite Forall_forall in Hall |- *. intros z Hz.
      apply (notBefore_trans x y z); [assumption | apply Hall; assumption].
Qed.

Lemma sortBy_sorted (l : list A) :
  Sorted.StronglySorted (fun a b => before b a = false) (sortBy before l).
Proof.
  induction l as [|x l IH]; simpl; [constructor | apply insertBy_sorted; assumption].
Qed.
End Sorting.

(** ** The assignment collection *)

Lemma existsb_eqb_In (a : string) (l : list string) :
  existsb (fun b => b =? a) l = true <-> In a l.
Proof.
  rewrite existsb_exists. split.
  - intros [x [Hin Hx]]. apply String.eqb_eq in Hx. subst. assumption.
  - intros H. exists a. split; [assumption | apply String.eqb_refl].
Qed.

Lemma allFresh_NoDup (seen ids : list ObjectId) :
  allFresh seen ids = true <-> (NoDup ids /\ forall a, In a ids -> ~ In a seen).
Proof.
  revert seen. induction ids as [|a ids IH]; intros seen; simpl.
  - split; [intros _; split; [constructor | intros ? []] | reflexivity].
  - rewrite andb_true_iff, negb_true_iff, IH. split.
    + intros [Hs [Hnd Hd]]. split.
      * constructor; [|assumption]. intros Hin. apply (Hd a Hin).
        apply in_or_app. right. left. reflexivity.
      * intros b [<-|Hb].
        -- intros Hin. apply existsb_eqb_In in Hin. congruence.
        -- intros Hin. apply (Hd b Hb). apply in_or_app. left. assumption.
    + intros [Hnd Hd]. inversion Hnd as [|? ? Hnotin Hnd']; subst. repeat split.
      * destruct (existsb (fun b => b =? a) seen) eqn:E; [|reflexivity].
        apply existsb_eqb_In in E. exfalso. apply (Hd a); auto.
      * assumption.
      * intros b Hb Hin. apply in_app_or in Hin. destruct Hin as [Hin|[<-|[]]].
        -- apply (Hd b); auto.
        -- contradiction.
  Qed.

Lemma Assignment_findOne_app (l1 l2 : list Assignment.t) (f a : ObjectId) :
  Assignment_findOne (l1 ++ l2) f a =
  match Assignment_findOne l1 f a with
  | Some x => Some x
  | None => Assignment_findOne l2 f a
  end.
Proof.
  unfold Assignment_findOne. induction l1 as [|x l1 IH]; simpl; [reflexivity|].
  destruct ((Assignment.founderId x =? f) && (Assignment.adminId x =? a)); auto.
Qed.

Lemma Assignment_findOne_deleted (l : list Assignment.t) (f a : ObjectId) :
  Assignment_findOne (Assignment_deleteMany l f) f a = None.
Proof.
  unfold Assignment_findOne, Assignment_deleteMany.
  induction l as [|x l IH]; simpl; [reflexivity|].
  destruct (String.eqb_spec (Assignment.founderId x) f) as [E|E]; simpl; [assumption|].
  destruct (String.eqb_spec (Assignment.founderId x) f); [contradiction|]. simpl. assumption.
Qed.

Lemma Assignment_findOne_edges (f by_ : ObjectId) (now : Date) (ids : list ObjectId)
    (a : ObjectId) :
  Assignment_findOne (map (edge f by_ now) ids) f a =
  if existsb (fun b => b =? a) ids then Some (edge f by_ now a) else None.
Proof.
  unfold Assignment_findOne. induction ids as [|b ids IH]; simpl; [reflexivity|].
  rewrite String.eqb_refl. simpl.
  destruct (String.eqb_spec b a) as [E|E]; simpl; [subst; reflexivity | assumption].
Qed.

(** The ordered insert of the fresh edges of a founder after the edges
    already inserted in the same call: it goes through exactly when no admin
    id repeats. *)
Lemma Assignment_insertMany_edges (base : list Assignment.t) (f by_ : ObjectId)
    (now : Date) (ids seen : list ObjectId) :
  (forall a, Assignment_findOne base f a = None) ->
  Assignment_insertMany (base ++ map (edge f by_ now) seen) (map (edge f by_ now) ids) =
  if allFresh seen ids
  then Ok (base ++ map (edge f by_ now) (seen ++ ids))
  else Err (MongoServerError 11000).
Proof.
  intros Hbase. revert seen. induction ids as [|a ids IH]; intros seen; simpl.
  - rewrite app_nil_r. reflexivity.
  - rewrite Assignment_findOne_app, Hbase, Assignment_findOne_edges.
    destruct (existsb (fun b => b =? a) seen); simpl; [reflexivity|].
    rewrite <- app_assoc.
    change (map (edge f by_ now) seen ++ [edge f by_ now a])
      with (map (edge f by_ now) seen ++ map (edge f by_ now) [a]).
    rewrite <- map_app, IH, <- app_assoc. reflexivity.
Qed.

(** The transaction body in closed form. *)
Lemma replaceInSession_spec (l : list Assignment.t) (f : ObjectId)
    (ids : list ObjectId) (by_ : ObjectId) (now : Date) :
  AssignmentService.replaceInSession l f ids by_ now =
  if allFresh [] ids
  then Ok (Assignment_deleteMany l f ++ map (edge f by_ now) ids)
  else Err (MongoServerError 11000).
Proof.
  unfold AssignmentService.replaceInSession.
  destruct ids as [|a ids]; [simpl; rewrite app_nil_r; reflexivity|].
  change (0 <? List.length _)%nat with true. cbv iota.
  pose proof (Assignment_insertMany_edges (Assignment_deleteMany l f) f by_ now
                (a :: ids) [] (Assignment_findOne_deleted l f)) as H.
  simpl map at 1 in H. rewrite app_nil_r in H. exact H.
Qed.

Lemma validateAdminIds_Ok {oid : ObjectIds} (db : DB) (ids : list ObjectId) :
  AssignmentService.validateAdminIds db ids = Ok tt <->
  forallb (isValidAdminId db) ids = true.
Proof.
  induction ids as [|a ids IH]; simpl; [tauto|].
  unfold isValidAdminId at 1, castObjectId.
  destruct (ObjectId_isValid a); simpl; [|split; discriminate].
  destruct (Admin_findOne_userId db a); [|split; discriminate].
  destruct (User_findById db a) as [u|]; [|split; discriminate].
  destruct (UserRole_eqb (User.role u) Role.admin); simpl; [assumption | split; discriminate].
Qed.

(** What a valid admin id stands for. *)
Lemma isValidAdminId_true {oid : ObjectIds} (db : DB) (a : ObjectId) :
  isValidAdminId db a = true <->
  ObjectId_isValid a = true
  /\ exists ad u,
       Admin_findOne_userId db a = Some ad
       /\ User_findById db a = Some u
       /\ User.role u = Role.admin.
Proof.
  unfold isValidAdminId. rewrite andb_true_iff. split.
  - intros [Hc Hv]. split; [exact Hc|].
    destruct (Admin_findOne_userId db a) as [ad|]; [|discriminate].
    destruct (User_findById db a) as [u|]; [|discriminate].
    exists ad, u. repeat split. destruct (User.role u); try discriminate. reflexivity.
  - intros (Hc & ad & u & -> & -> & ->). split; [exact Hc | reflexivity].
Qed.

(** The error of the validation loop: the cast error of an id that is no
    ObjectId, or 404 or 400. *)
Lemma validateAdminIds_Err {oid : ObjectIds} (db : DB) (ids : list ObjectId) (e : Error) :
  AssignmentService.validateAdminIds db ids = Err e ->
  (e = CastError "userId" /\ exists a, In a ids /\ ObjectId_isValid a = false)
  \/ ((isNotFound e = true \/ isInvalidRole e = true)
      /\ exists a, In a ids /\ ObjectId_isValid a = true /\ isValidAdminId db a = false).
Proof.
  induction ids as [|a ids IH]; simpl; [discriminate|].
  assert (Hrest : AssignmentService.validateAdminIds db ids = Err e ->
                  (e = CastError "userId"
                   /\ exists b, (a = b \/ In b ids) /\ ObjectId_isValid b = false)
                  \/ ((isNotFound e = true \/ isInvalidRole e = true)
                      /\ exists b, (a = b \/ In b ids)
                                   /\ ObjectId_isValid b = true /\ isValidAdminId db b = false)).
  { intros Hv. destruct (IH Hv) as [(He & b & Hb & Hc)|(He & b & Hb & Hc)];
      [left | right]; (split; [exact He | exists b; auto]). }
  unfold castObjectId, isValidAdminId in *.
  destruct (ObjectId_isValid a) eqn:Hc.
  - destruct (Admin_findOne_userId db a) eqn:Had.
    + destruct (User_findById db a) as [u|] eqn:Hu.
      * destruct (UserRole_eqb (User.role u) Role.admin) eqn:Hr; [exact Hrest|].
        intros Hv; inversion Hv; right; split; [auto|]. exists a.
        rewrite Hc, Had, Hu, Hr. auto.
      * intros Hv; inversion Hv; right; split; [auto|]. exists a. rewrite Hc, Had, Hu. auto.
    + intros Hv; inversion Hv; right; split; [auto|]. exists a. rewrite Hc, Had. auto.
  - intros Hv; inversion Hv. left. split; [reflexivity|]. exists a. auto.
Qed.

(** Over ObjectIds the validation loop fails with 404 or 400 only. *)
Lemma validateAdminIds_Err_status {oid : ObjectIds} (db : DB) (ids : list ObjectId)
    (e : Error) :
  forallb ObjectId_isValid ids = true ->
  AssignmentService.validateAdminIds db ids = Err e ->
  isNotFound e = true \/ isInvalidRole e = true.
Proof.
  intros Hall Hv. rewrite forallb_forall in Hall.
  destruct (validateAdminIds_Err db ids e Hv) as [(_ & a & Hin & Hc)|[He _]]; [|exact He].
  rewrite (Hall a Hin) in Hc. discriminate.
Qed.

(** The outcome of a successful call: the founder document found, and the
    collection after the commit. *)
Lemma assignAdminsToFounder_Ok {oid : ObjectIds} (db db' : DB) (founderId : ObjectId)
    (adminIds : list ObjectId) (assignedBy : ObjectId) (now : Date) :
  AssignmentService.assignAdminsToFounder db founderId adminIds assignedBy now = (db', Ok tt) ->
  exists founder,
    Founder_findOne_userId db founderId = Some founder
    /\ forallb (isValidAdminId db) adminIds = true
    /\ NoDup adminIds
    /\ db' = set_assignments db
               (Assignment_deleteMany (assignments db) (Founder._id founder)
                ++ map (edge (Founder._id founder) assignedBy now) adminIds).
Proof.
  unfold AssignmentService.assignAdminsToFounder, castObjectId.
  destruct (ObjectId_isValid founderId); [|discriminate].
  destruct (Founder_findOne_userId db founderId) as [f|]; [|discriminate].
  destruct (User_findById db founderId) as [u|]; [|discriminate].
  destruct (negb (UserRole_eqb (User.role u) Role.founder)); [discriminate|].
  destruct (AssignmentService.validateAdminIds db adminIds) as [[]|e] eqn:Hv; [|discriminate].
  rewrite replaceInSession_spec.
  destruct (allFresh [] adminIds) eqn:Hfresh; [|discriminate].
  intros H. inversion H; subst. exists f. repeat split.
  - apply validateAdminIds_Ok. assumption.
  - apply allFresh_NoDup in Hfresh. tauto.
Qed.

Lemma assignAdminsToFounder_Ok_cast {oid : ObjectIds} (db db' : DB) (founderId : ObjectId)
    (adminIds : list ObjectId) (assignedBy : ObjectId) (now : Date) :
  AssignmentService.assignAdminsToFounder db founderId adminIds assignedBy now = (db', Ok tt) ->
  ObjectId_isValid founderId = true.
Proof.
  unfold AssignmentService.assignAdminsToFounder, castObjectId.
  destruct (ObjectId_isValid founderId); [reflexivity | discriminate].
Qed.

(** A founder with a founder-role user, found under an ObjectId, and a
    duplicate-free list of valid admin ids make the call succeed. *)
Lemma assignAdminsToFounder_succeeds {oid : ObjectIds} (db : DB) (founderId : ObjectId)
    (adminIds : list ObjectId) (assignedBy : ObjectId) (now : Date)
    (founder : Founder.t) (founderUser : User.t) :
  ObjectId_isValid founderId = true ->
  Founder_findOne_userId db founderId = Some founder ->
  User_findById db founderId = Some founderUser ->
  User.role founderUser = Role.founder ->
  forallb (isValidAdminId db) adminIds = true ->
  NoDup adminIds ->
  AssignmentService.assignAdminsToFounder db founderId adminIds assignedBy now =
  (set_assignments db
     (Assignment_deleteMany (assignments db) (Founder._id founder)
      ++ map (edge (Founder._id founder) assignedBy now) adminIds),
   Ok tt).
Proof.
  intros Hc Hf Hu Hr Hv Hnd. unfold AssignmentService.assignAdminsToFounder, castObjectId.
  rewrite Hc, Hf, Hu, Hr. simpl.
  apply validateAdminIds_Ok in Hv. rewrite Hv, replaceInSession_spec.
  assert (Hfresh : allFresh [] adminIds = true)
    by (apply allFresh_NoDup; split; [assumption | intros ? ? []]).
  rewrite Hfresh. reflexivity.
Qed.

Lemma edgesOf_replaced (db : DB) (f by_ : ObjectId) (now : Date) (ids : list ObjectId) :
  edgesOf (set_assignments db
             (Assignment_deleteMany (assignments db) f ++ map (edge f by_ now) ids)) f
  = map (edge f by_ now) ids.
Proof.
  unfold edgesOf, Assignment_deleteMany. simpl. rewrite filter_app.
  replace (filter _ (filter _ (assignments db))) with (@nil Assignment.t).
  - simpl. induction ids as [|a ids IH]; simpl; [reflexivity|].
    rewrite String.eqb_refl. f_equal. assumption.
  - induction (assignments db) as [|x l IH]; simpl; [reflexivity|].
    destruct (String.eqb_spec (Assignment.founderId x) f) as [E|E]; simpl; [assumption|].
    destruct (String.eqb_spec (Assignment.founderId x) f); [contradiction | assumption].
Qed.

Lemma getAssignedAdmins_rows {oid : ObjectIds} (db : DB) (f by_ : ObjectId) (now : Date)
    (ids : list ObjectId) :
  uniqueProfiles db ->
  forallb (isValidAdminId db) ids = true ->
  map AssignmentService.adminId
    (flat_map
       (fun a =>
          flat_map
            (fun _ : Admin.t =>
               map (fun user =>
                      AssignmentService.mkAdminDetails (Assignment.adminId a)
                        (User.name user) (User.email user))
                   (filter (fun u => User._id u =? Assignment.adminId a) (users db)))
            (filter (fun ad => Admin.userId ad =? Assignment.adminId a) (admins db)))
       (map (edge f by_ now) ids))
  = ids.
Proof.
  intros (Hu & Ha & _). induction ids as [|a ids IH]; simpl; [reflexivity|].
  rewrite andb_true_iff. intros [Hv Hrest].
  apply isValidAdminId_true in Hv. destruct Hv as (_ & ad & u & Had & Hus & _).
  rewrite (filter_key_unique Admin.userId a (admins db) ad Ha Had).
  rewrite (filter_key_unique User._id a (users db) u Hu Hus).
  simpl. f_equal. apply IH. assumption.
Qed.

(** C1. A founder with a founder-role user, known under an id that is an
    ObjectId, and a set of valid admin ids: the replacement succeeds;
    afterwards the founder's stored edges are one edge per admin of the
    set, [getAssignedAdmins] lists exactly the set, every admin of the set
    is assigned, and an admin that had an edge before and is not in the set
    is no longer assigned. *)
Theorem replaceAssignments_exact {oid : ObjectIds} (db : DB) (founderId : ObjectId)
    (adminIds : list ObjectId) (assignedBy : ObjectId) (now : Date)
    (founder : Founder.t) (founderUser : User.t) :
  uniqueProfiles db ->
  ObjectId_isValid founderId = true ->
  Founder_findOne_userId db founderId = Some founder ->
  User_findById db founderId = Some founderUser ->
  User.role founderUser = Role.founder ->
  forallb (isValidAdminId db) adminIds = true ->
  NoDup adminIds ->
  exists db',
    AssignmentService.assignAdminsToFounder db founderId adminIds assignedBy now = (db', Ok tt)
    /\ edgesOf db' (Founder._id founder)
       = map (edge (Founder._id founder) assignedBy now) adminIds
    /\ (exists l, AssignmentService.getAssignedAdmins db' founderId = Ok l
                  /\ Permutation (map AssignmentService.adminId l) adminIds)
    /\ (forall a, In a adminIds -> AssignmentService.isAssigned db' a founderId = Ok true)
    /\ (forall prior,
          In prior (map Assignment.adminId (edgesOf db (Founder._id founder))) ->
          ~ In prior adminIds ->
          AssignmentService.isAssigned db' prior founderId = Ok false).
Proof.
  intros Huniq Hc Hf Hu Hr Hv Hnd.
  eexists. split; [eapply assignAdminsToFounder_succeeds; eassumption|].
  set (db' := set_assignments db _).
  assert (Hedges : edgesOf db' (Founder._id founder)
                   = map (edge (Founder._id founder) assignedBy now) adminIds)
    by apply edgesOf_replaced.
  assert (Hf' : Founder_findOne_userId db' founderId = Some founder) by exact Hf.
  assert (Hfind : forall a,
             Assignment_findOne (assignments db') (Founder._id founder) a
             = if existsb (fun b => b =? a) adminIds
               then Some (edge (Founder._id founder) assignedBy now a) else None).
  { intros a. unfold db'. simpl.
    rewrite Assignment_findOne_app, Assignment_findOne_deleted.
    apply Assignment_findOne_edges. }
  split; [exact Hedges|]. split; [|split].
  - unfold AssignmentService.getAssignedAdmins, castObjectId. rewrite Hc. cbn [bindR].
    rewrite Hf'. eexists. split; [reflexivity|].
    fold (edgesOf db' (Founder._id founder)). rewrite Hedges.
    change (users db') with (users db). change (admins db') with (admins db).
    rewrite getAssignedAdmins_rows by assumption. apply Permutation_refl.
  - intros a Hin. unfold AssignmentService.isAssigned, AssignmentService.isAdminAssignedToFounder.
    rewrite Hf'. simpl. rewrite Hfind.
    apply existsb_eqb_In in Hin. rewrite Hin. reflexivity.
  - intros prior _ Hnot.
    unfold AssignmentService.isAssigned, AssignmentService.isAdminAssignedToFounder.
    rewrite Hf'. simpl. rewrite Hfind.
    destruct (existsb (fun b => b =? prior) adminIds) eqn:E; [|reflexivity].
    apply existsb_eqb_In in E. contradiction.
Qed.

(** The validation loop stops at the first id that is no ObjectId with the
    cast error of [Admin.findOne]. *)
Lemma validateAdminIds_cast {oid : ObjectIds} (db : DB) (valid : list ObjectId)
    (a : ObjectId) (rest : list ObjectId) :
  forallb (isValidAdminId db) valid = true ->
  ObjectId_isValid a = false ->
  AssignmentService.validateAdminIds db (valid ++ a :: rest) = Err (CastError "userId").
Proof.
  intros Hvalid Ha. induction valid as [|v valid IH]; simpl.
  - unfold castObjectId. rewrite Ha. reflexivity.
  - simpl in Hvalid. apply andb_true_iff in Hvalid. destruct Hvalid as [Hv Hvalid].
    apply isValidAdminId_true in Hv. destruct Hv as (Hc & ad & u & Had & Hu & Hr).
    unfold castObjectId. rewrite Hc, Had, Hu, Hr. simpl. apply IH. exact Hvalid.
Qed.

(** C2. The replacement and an admin id that does not exist or does not
    have the admin role. Every call that throws returns the database it was
    given, the failure inside the transaction included, so the edge set of
    the founder is the one before the call. An admin id that fails the
    validation makes the call throw; the error is 404 or 400 when the
    founder id and the admin ids are ObjectIds. When the first admin id
    that fails is no ObjectId, the error is the cast error of
    [Admin.findOne], which has no status code and is neither of the two;
    so is the error for a founder id that is no ObjectId. *)
Theorem replaceAssignments_all_or_nothing {oid : ObjectIds} (db : DB) (founderId : ObjectId)
    (adminIds : list ObjectId) (assignedBy : ObjectId) (now : Date) :
  (forall db' e,
      AssignmentService.assignAdminsToFounder db founderId adminIds assignedBy now
      = (db', Err e) ->
      db' = db)
  /\ ((exists a, In a adminIds /\ isValidAdminId db a = false) ->
      exists e,
        AssignmentService.assignAdminsToFounder db founderId adminIds assignedBy now
        = (db, Err e)
        /\ (ObjectId_isValid founderId = true ->
            forallb ObjectId_isValid adminIds = true ->
            isNotFound e = true \/ isInvalidRole e = true))
  /\ (forall founder founderUser valid a rest,
        ObjectId_isValid founderId = true ->
        Founder_findOne_userId db founderId = Some founder ->
        User_findById db founderId = Some founderUser ->
        User.role founderUser = Role.founder ->
        adminIds = valid ++ a :: rest ->
        forallb (isValidAdminId db) valid = true ->
        ObjectId_isValid a = false ->
        AssignmentService.assignAdminsToFounder db founderId adminIds assignedBy now
        = (db, Err (CastError "userId")))
  /\ (ObjectId_isValid founderId = false ->
      AssignmentService.assignAdminsToFounder db founderId adminIds assignedBy now
      = (db, Err (CastError "userId")))
  /\ isNotFound (CastError "userId") = false
  /\ isInvalidRole (CastError "userId") = false.
Proof.
  split; [|split; [|split; [|split; [|split; reflexivity]]]].
  - unfold AssignmentService.assignAdminsToFounder.
    destruct (castObjectId "userId" founderId); [|intros ? ? H; inversion H; auto].
    destruct (Founder_findOne_userId db founderId) as [f|];
      [|intros ? ? H; inversion H; auto].
    destruct (User_findById db founderId) as [u|]; [|intros ? ? H; inversion H; auto].
    destruct (negb (UserRole_eqb (User.role u) Role.founder));
      [intros ? ? H; inversion H; auto|].
    destruct (AssignmentService.validateAdminIds db adminIds) as [[]|e];
      [|intros ? ? H; inversion H; auto].
    destruct (AssignmentService.replaceInSession _ _ _ _ _);
      intros ? ? H; inversion H; auto.
  - intros (a & Hin & Hbad).
    unfold AssignmentService.assignAdminsToFounder, castObjectId.
    destruct (ObjectId_isValid founderId);
      [|eexists; split; [reflexivity | discriminate]].
    destruct (Founder_findOne_userId db founderId) as [f|];
      [|eexists; split; [reflexivity | auto]].
    destruct (User_findById db founderId) as [u|];
      [|eexists; split; [reflexivity | auto]].
    destruct (negb (UserRole_eqb (User.role u) Role.founder));
      [eexists; split; [reflexivity | auto]|].
    destruct (AssignmentService.validateAdminIds db adminIds) as [[]|e] eqn:Hv.
    + apply validateAdminIds_Ok in Hv. rewrite forallb_forall in Hv.
      rewrite (Hv a Hin) in Hbad. discriminate.
    + exists e. split; [reflexivity|]. intros _ Hall.
      eapply validateAdminIds_Err_status; eassumption.
  - intros f u valid a rest Hc Hf Hu Hr -> Hvalid Ha.
    unfold AssignmentService.assignAdminsToFounder, castObjectId.
    rewrite Hc, Hf, Hu, Hr. simpl.
    rewrite (validateAdminIds_cast db valid a rest Hvalid Ha). reflexivity.
  - intros Hc. unfold AssignmentService.assignAdminsToFounder, castObjectId.
    rewrite Hc. reflexivity.
Qed.

(** Whatever the call returns, the collections it does not own and the
    edges of the other founders are as before. *)
Lemma assignAdminsToFounder_outcome {oid : ObjectIds} (db : DB) (founderId : ObjectId)
    (adminIds : list ObjectId) (assignedBy : ObjectId) (now : Date) :
  (exists e, AssignmentService.assignAdminsToFounder db founderId adminIds assignedBy now
             = (db, Err e)
             /\ forall now', AssignmentService.assignAdminsToFounder db founderId adminIds
                               assignedBy now' = (db, Err e))
  \/ (exists founder,
        Founder_findOne_userId db founderId = Some founder
        /\ forall now',
             AssignmentService.assignAdminsToFounder db founderId adminIds assignedBy now'
             = (set_assignments db
                  (Assignment_deleteMany (assignments db) (Founder._id founder)
                   ++ map (edge (Founder._id founder) assignedBy now') adminIds),
                Ok tt)).
Proof.
  unfold AssignmentService.assignAdminsToFounder, castObjectId.
  destruct (ObjectId_isValid founderId); [|left; eauto].
  destruct (Founder_findOne_userId db founderId) as [f|]; [|left; eauto].
  destruct (User_findById db founderId) as [u|]; [|left; eauto].
  destruct (negb (UserRole_eqb (User.role u) Role.founder)); [left; eauto|].
  destruct (AssignmentService.validateAdminIds db adminIds) as [[]|e]; [|left; eauto].
  destruct (allFresh [] adminIds) eqn:Hfresh.
  - right. exists f. split; [reflexivity|]. intros now'.
    rewrite replaceInSession_spec, Hfresh. reflexivity.
  - left. exists (MongoServerError 11000).
    split; [|intros now']; rewrite replaceInSession_spec, Hfresh; reflexivity.
Qed.

Lemma validateAdminIds_set_assignments {oid : ObjectIds} (db : DB) (l : list Assignment.t)
    (ids : list ObjectId) :
  AssignmentService.validateAdminIds (set_assignments db l) ids
  = AssignmentService.validateAdminIds db ids.
Proof.
  induction ids as [|a ids IH]; simpl; [reflexivity|].
  change (Admin_findOne_userId (set_assignments db l) a) with (Admin_findOne_userId db a).
  change (User_findById (set_assignments db l) a) with (User_findById db a).
  rewrite IH. reflexivity.
Qed.

Lemma Assignment_deleteMany_app (l1 l2 : list Assignment.t) (f : ObjectId) :
  Assignment_deleteMany (l1 ++ l2) f = Assignment_deleteMany l1 f ++ Assignment_deleteMany l2 f.
Proof. apply filter_app. Qed.

Lemma Assignment_deleteMany_idem (l : list Assignment.t) (f : ObjectId) :
  Assignment_deleteMany (Assignment_deleteMany l f) f = Assignment_deleteMany l f.
Proof.
  unfold Assignment_deleteMany. induction l as [|x l IH]; simpl; [reflexivity|].
  destruct (negb (Assignment.founderId x =? f)) eqn:E; simpl; [rewrite E, IH|]; auto.
Qed.

Lemma Assignment_deleteMany_edges (f by_ : ObjectId) (now : Date) (ids : list ObjectId) :
  Assignment_deleteMany (map (edge f by_ now) ids) f = [].
Proof.
  unfold Assignment_deleteMany. induction ids as [|a ids IH]; simpl; [reflexivity|].
  rewrite String.eqb_refl. simpl. assumption.
Qed.

(** C8. Calling the replacement a second time with the same founder, admin
    ids and caller returns the same result as the first call and leaves the
    same edges: the collection after the second call differs from the one
    after the first at most in the dates of the founder's edges, and is the
    same collection when the two calls carry the same date. *)
Theorem replaceAssignments_idempotent {oid : ObjectIds} (db : DB) (founderId : ObjectId)
    (adminIds : list ObjectId) (assignedBy : ObjectId) (now1 now2 : Date) :
  let once := AssignmentService.assignAdminsToFounder db founderId adminIds assignedBy now1 in
  let twice :=
    AssignmentService.assignAdminsToFounder (fst once) founderId adminIds assignedBy now2 in
  snd twice = snd once
  /\ map edgeKey (assignments (fst twice)) = map edgeKey (assignments (fst once))
  /\ (forall founder_id,
        map edgeKey (edgesOf (fst twice) founder_id)
        = map edgeKey (edgesOf (fst once) founder_id))
  /\ (now1 = now2 -> fst twice = fst once).
Proof.
  intros once twice.
  assert (Hkey : forall f by_ n1 n2 (ids : list ObjectId),
             map edgeKey (map (edge f by_ n1) ids) = map edgeKey (map (edge f by_ n2) ids)).
  { intros. rewrite !map_map. reflexivity. }
  assert (Hfilter : forall (l1 l2 : list Assignment.t) g,
             map edgeKey l1 = map edgeKey l2 ->
             map edgeKey (filter (fun a => Assignment.founderId a =? g) l1)
             = map edgeKey (filter (fun a => Assignment.founderId a =? g) l2)).
  { induction l1 as [|x l1 IH]; intros [|y l2] g H; simpl in *; try discriminate; auto.
    inversion H as [[H1 H2 H3 H4]]. rewrite H1.
    destruct (Assignment.founderId y =? g); simpl; [f_equal; [unfold edgeKey; congruence|]|];
      apply IH; assumption. }
  destruct (assignAdminsToFounder_outcome db founderId adminIds assignedBy now1)
    as [(e & H1 & Hall) | (f & Hf & Hall)].
  - subst once twice. rewrite H1. simpl. rewrite (Hall now2). simpl. auto.
  - assert (Honce : once = (set_assignments db
                 (Assignment_deleteMany (assignments db) (Founder._id f)
                  ++ map (edge (Founder._id f) assignedBy now1) adminIds), Ok tt))
      by apply Hall.
    set (db1 := set_assignments db _) in Honce.
    destruct (assignAdminsToFounder_outcome db1 founderId adminIds assignedBy now2)
      as [(e & H2 & _) | (f' & Hf' & Hall')].
    + exfalso. unfold AssignmentService.assignAdminsToFounder in H2.
      change (Founder_findOne_userId db1 founderId) with (Founder_findOne_userId db founderId) in H2.
      change (User_findById db1 founderId) with (User_findById db founderId) in H2.
      assert (Hv : AssignmentService.validateAdminIds db1 adminIds
                   = AssignmentService.validateAdminIds db adminIds)
        by apply validateAdminIds_set_assignments.
      rewrite Hv in H2.
      pose proof (Hall now2) as H0. unfold AssignmentService.assignAdminsToFounder in H0.
      unfold castObjectId in H0, H2.
      destruct (ObjectId_isValid founderId); [|discriminate].
      destruct (Founder_findOne_userId db founderId); [|discriminate].
      destruct (User_findById db founderId); [|discriminate].
      destruct (negb _); [discriminate|].
      destruct (AssignmentService.validateAdminIds db adminIds); [|discriminate].
      rewrite replaceInSession_spec in H0, H2.
      destruct (allFresh [] adminIds); discriminate.
    + change (Founder_findOne_userId db1 founderId) with (Founder_findOne_userId db founderId) in Hf'.
      assert (f' = f) by congruence. subst f'.
      assert (Htwice : twice = (set_assignments db1
                 (Assignment_deleteMany (assignments db1) (Founder._id f)
                  ++ map (edge (Founder._id f) assignedBy now2) adminIds), Ok tt)).
      { subst twice. rewrite Honce. apply Hall'. }
      assert (Hdel : Assignment_deleteMany (assignments db1) (Founder._id f)
                     = Assignment_deleteMany (assignments db) (Founder._id f)).
      { unfold db1. simpl.
        rewrite Assignment_deleteMany_app, Assignment_deleteMany_idem,
          Assignment_deleteMany_edges, app_nil_r. reflexivity. }
      rewrite Htwice, Honce. cbn [fst snd set_assignments assignments]. rewrite Hdel.
      assert (Hmap : map edgeKey
                (Assignment_deleteMany (assignments db) (Founder._id f) ++
                 map (edge (Founder._id f) assignedBy now2) adminIds)
              = map edgeKey
                (Assignment_deleteMany (assignments db) (Founder._id f) ++
                 map (edge (Founder._id f) assignedBy now1) adminIds)).
      { rewrite !map_app. f_equal. apply Hkey. }
      split; [reflexivity|]. split; [exact Hmap|]. split.
      * intros g. unfold edgesOf. simpl. apply Hfilter. exact Hmap.
      * intros ->. reflexivity.
Qed.

(** ** The assignment check *)

(** C10. Whatever the two lookups do, answer or throw, the check returns a
    boolean and throws nothing: [true] when the founder document is found
    and the edge is found, [false] in every other case, a missing founder
    and a failing lookup included. *)
Theorem isAdminAssignedToFounder_total
    (Founder_findOne : ObjectId -> Result (option Founder.t))
    (Assignment_findOne' : ObjectId -> ObjectId -> Result (option Assignment.t))
    (adminId founderId : ObjectId) :
  AssignmentService.isAdminAssignedToFounder Founder_findOne Assignment_findOne'
    adminId founderId
  = Ok (match Founder_findOne founderId with
        | Ok (Some founder) =>
            match Assignment_findOne' (Founder._id founder) adminId with
            | Ok (Some _) => true
            | Ok None => false
            | Err _ => false
            end
        | Ok None => false
        | Err _ => false
        end).
Proof.
  unfold AssignmentService.isAdminAssignedToFounder, tryCatch, bindR.
  destruct (Founder_findOne founderId) as [[f|]|e]; try reflexivity.
  destruct (Assignment_findOne' (Founder._id f) adminId) as [[x|]|e]; reflexivity.
Qed.

Lemma isAssigned_eq (db : DB) (adminId founderId : ObjectId) :
  AssignmentService.isAssigned db adminId founderId
  = Ok (match Founder_findOne_userId db founderId with
        | Some founder =>
            match Assignment_findOne (assignments db) (Founder._id founder) adminId with
            | Some _ => true
            | None => false
            end
        | None => false
        end).
Proof.
  unfold AssignmentService.isAssigned, AssignmentService.isAdminAssignedToFounder. simpl.
  destruct (Founder_findOne_userId db founderId) as [f|]; [simpl|reflexivity].
  destruct (Assignment_findOne (assignments db) (Founder._id f) adminId); reflexivity.
Qed.

(** ** Reading a founder's metrics *)

Lemma NoDup_key_inj {A : Type} (key : A -> string) (l : list A) (x y : A) :
  NoDup (map key l) -> In x l -> In y l -> key x = key y -> x = y.
Proof.
  induction l as [|z l IH]; simpl; intros Hnd Hx Hy E; [contradiction|].
  inversion Hnd as [|? ? Hnotin Hnd']; subst.
  destruct Hx as [<-|Hx], Hy as [<-|Hy]; auto.
  - exfalso. apply Hnotin. rewrite E. apply in_map. assumption.
  - exfalso. apply Hnotin. rewrite <- E. apply in_map. assumption.
Qed.

(** The founders [getAssignedFounders] lists for an admin are the founders
    the assignment check accepts, when the admin has its profile, founder
    profiles are unique per user and each has its user. *)
Lemma getAssignedFounders_isAssigned {oid : ObjectIds} (db : DB) (adminId founderId : ObjectId) :
  uniqueProfiles db ->
  foundersHaveUsers db ->
  isValidAdminId db adminId = true ->
  exists rows,
    AssignmentService.getAssignedFounders db adminId = Ok rows
    /\ AssignmentService.isAssigned db adminId founderId
       = Ok (existsb (fun id => id =? founderId) (map AssignmentService.af_founderId rows)).
Proof.
  intros (_ & _ & Hfu) Husers Hadmin. apply isValidAdminId_true in Hadmin.
  destruct Hadmin as (Hc & ad & au & Had & Hau & Hrole).
  unfold AssignmentService.getAssignedFounders, castObjectId.
  rewrite Hc, Had, Hau, Hrole. simpl. eexists. split; [reflexivity|].
  rewrite isAssigned_eq. f_equal.
  apply (find_key_In User._id) in Hau. destruct Hau as [_ Hauid]. rewrite Hauid.
  match goal with |- ?lhs = ?rhs => destruct rhs eqn:Hrows end.
  - apply existsb_exists in Hrows. destruct Hrows as (id & Hin & Hid).
    apply String.eqb_eq in Hid. subst id.
    apply in_map_iff in Hin. destruct Hin as (row & Hrow & Hin).
    apply in_flat_map in Hin. destruct Hin as (a & Ha & Hin).
    apply in_flat_map in Hin. destruct Hin as (g & Hg & Hin).
    apply in_map_iff in Hin. destruct Hin as (u & Hu & _).
    subst row. simpl in Hrow.
    apply filter_In in Ha. destruct Ha as [Ha Haid]. apply String.eqb_eq in Haid.
    apply filter_In in Hg. destruct Hg as [Hg Hgid]. apply String.eqb_eq in Hgid.
    destruct (Founder_findOne_userId db founderId) as [f|] eqn:Hf.
    + apply (find_key_In Founder.userId) in Hf. destruct Hf as [Hf Hfk].
      assert (g = f)
        by (apply (NoDup_key_inj Founder.userId (founders db)); [assumption .. | congruence]).
      subst g.
      destruct (Assignment_findOne (assignments db) (Founder._id f) adminId) eqn:Hfind;
        [reflexivity|].
      exfalso. unfold Assignment_findOne in Hfind.
      apply (find_none _ _ Hfind) in Ha. rewrite Hgid, Haid, !String.eqb_refl in Ha.
      discriminate.
    + exfalso. apply (find_key_None Founder.userId) in Hf. apply Hf.
      rewrite <- Hrow. apply in_map. assumption.
  - destruct (Founder_findOne_userId db founderId) as [f|] eqn:Hf; [|reflexivity].
    destruct (Assignment_findOne (assignments db) (Founder._id f) adminId) as [a|] eqn:Hfind;
      [|reflexivity].
    exfalso. apply find_some in Hfind. destruct Hfind as [Ha Hk].
    apply andb_true_iff in Hk. destruct Hk as [Hk1 Hk2].
    apply String.eqb_eq in Hk1. apply String.eqb_eq in Hk2.
    apply (find_key_In Founder.userId) in Hf. destruct Hf as [Hf Hfk].
    destruct (Husers f Hf) as [founderUser Hfuser].
    apply (find_key_In User._id) in Hfuser. destruct Hfuser as [Hfin Hfid].
    assert (Hex : existsb (fun id => id =? founderId)
              (map AssignmentService.af_founderId
                 (flat_map
                    (fun a =>
                       flat_map
                         (fun f =>
                            map (fun user =>
                                   AssignmentService.mkAssignedFounder (Assignment.adminId a)
                                     (Founder.userId f) (Assignment.assignedAt a)
                                     (User.name user) (User.email user)
                                     (Founder.companyName f) (Founder.industry f))
                                (filter (fun u => User._id u =? Founder.userId f) (users db)))
                         (filter (fun f => Founder._id f =? Assignment.founderId a)
                                 (founders db)))
                    (filter (fun a => Assignment.adminId a =? adminId) (assignments db))))
             = true).
    { apply existsb_exists. exists founderId. split; [|apply String.eqb_refl].
      apply in_map_iff.
      exists (AssignmentService.mkAssignedFounder (Assignment.adminId a) (Founder.userId f)
                (Assignment.assignedAt a) (User.name founderUser) (User.email founderUser)
                (Founder.companyName f) (Founder.industry f)).
      split; [exact Hfk|].
      apply in_flat_map. exists a. split.
      - apply filter_In. split; [assumption | rewrite Hk2; apply String.eqb_refl].
      - apply in_flat_map. exists f. split.
        + apply filter_In. split; [assumption | rewrite Hk1; apply String.eqb_refl].
        + apply in_map_iff. exists founderUser. split; [reflexivity|].
          apply filter_In. split; [assumption | rewrite Hfid; apply String.eqb_refl]. }
    rewrite Hex in Hrows. discriminate.
Qed.

Lemma sampleDB_unique : uniqueProfiles sampleDB.
Proof.
  unfold uniqueProfiles. simpl.
  repeat split; repeat (constructor; [simpl; intuition discriminate|]); constructor.
Defined.

Lemma sampleDB_foundersHaveUsers : foundersHaveUsers sampleDB.
Proof.
  intros f [<-|[<-|[]]]; eexists; reflexivity.
Defined.

(** C3. Reading a founder's metrics through [getFounderMetrics]. The
    read of the service answers for every founder id that is an ObjectId
    and throws the cast error of [find] for every other string. An admin
    with its profile is let through to the read exactly when the assignment
    check accepts the pair, and is answered 403 otherwise; a founder actor
    that gets an answer asked for its own id, is let through when it has
    its profile, and is answered 403 for every other id; a super-admin is
    let through for every target and is never answered 403. Who is let
    through gets what the read gives: the rows, for a founder id that is an
    ObjectId. The permission
    [canAccessFounderContent] decides the same way for a super-admin and a
    founder; for an admin it looks for an edge whose founder id is the route
    parameter itself. The unique indexes and the pairing of founder
    profiles with users are assumed, as the schemas and [createFounder]
    maintain them. *)
Theorem metrics_reads_scoped {oid : ObjectIds} (db : DB) (adminId founderId : ObjectId) :
  uniqueProfiles db ->
  foundersHaveUsers db ->
  isValidAdminId db adminId = true ->
  (forall target,
      ObjectId_isValid target = true ->
      exists rows, MetricsService.getFounderMetrics db target = Ok rows)
  /\ (forall target,
        ObjectId_isValid target = false ->
        MetricsService.getFounderMetrics db target = Err (CastError "founderId"))
  /\ (AssignmentService.isAssigned db adminId founderId = Ok true ->
      metricsController.getFounderMetrics db adminId Role.admin founderId
      = MetricsService.getFounderMetrics db founderId
      /\ (ObjectId_isValid founderId = true ->
          exists rows,
            metricsController.getFounderMetrics db adminId Role.admin founderId = Ok rows))
  /\ (AssignmentService.isAssigned db adminId founderId = Ok false ->
      exists message,
        metricsController.getFounderMetrics db adminId Role.admin founderId
        = Err (AppError message 403))
  /\ (forall actor target rows,
        metricsController.getFounderMetrics db actor Role.founder target = Ok rows ->
        target = actor)
  /\ (forall actor profile,
        Founder_findOne_userId db actor = Some profile ->
        metricsController.getFounderMetrics db actor Role.founder actor
        = MetricsService.getFounderMetrics db actor
        /\ (ObjectId_isValid actor = true ->
            exists rows,
              metricsController.getFounderMetrics db actor Role.founder actor = Ok rows))
  /\ (forall actor target,
        target <> actor ->
        exists message,
          metricsController.getFounderMetrics db actor Role.founder target
          = Err (AppError message 403))
  /\ (forall actor target,
        metricsController.getFounderMetrics db actor Role.super_admin target
        = MetricsService.getFounderMetrics db target
        /\ (ObjectId_isValid target = true ->
            exists rows,
              metricsController.getFounderMetrics db actor Role.super_admin target
              = Ok rows))
  /\ (forall actor target e,
        metricsController.getFounderMetrics db actor Role.super_admin target = Err e ->
        isForbidden e = false)
  /\ (forall actor target, canAccessFounderContent db target actor Role.super_admin = true)
  /\ (forall actor target,
        canAccessFounderContent db target actor Role.founder = true <-> target = actor)
  /\ (forall actor target,
        canAccessFounderContent db target actor Role.admin = true <->
        exists a, In a (assignments db)
                  /\ Assignment.founderId a = target /\ Assignment.adminId a = actor).
Proof.
  intros Huniq Husers Hadmin.
  destruct (getAssignedFounders_isAssigned db adminId founderId Huniq Husers Hadmin)
    as (rows & Hrows & Hassigned).
  assert (Hfounder : forall actor target,
             metricsController.getFounderMetrics db actor Role.founder target
             = match Founder_findOne_userId db actor with
               | Some _ =>
                   if actor =? target
                   then MetricsService.getFounderMetrics db target
                   else Err (AppError "You can only view your own metrics" 403)
               | None => Err (AppError "You can only view your own metrics" 403)
               end).
  { intros actor target. unfold metricsController.getFounderMetrics,
      AssignmentService.getFounderByUserId.
    destruct (Founder_findOne_userId db actor) as [p|] eqn:Hp; [|reflexivity].
    apply (find_key_In Founder.userId) in Hp. destruct Hp as [_ ->].
    destruct (actor =? target); reflexivity. }
  assert (Hread : forall target,
             ObjectId_isValid target = true ->
             exists rows, MetricsService.getFounderMetrics db target = Ok rows).
  { intros target Hc. unfold MetricsService.getFounderMetrics, castObjectId.
    rewrite Hc. eexists. reflexivity. }
  split; [exact Hread|].
  split; [|split; [|split; [|split; [|split; [|split; [|split; [|split;
    [|split; [|split]]]]]]]]].
  - intros target Hc. unfold MetricsService.getFounderMetrics, castObjectId.
    rewrite Hc. reflexivity.
  - intros H. rewrite Hassigned in H. injection H as Hex.
    assert (Hlet : metricsController.getFounderMetrics db adminId Role.admin founderId
                   = MetricsService.getFounderMetrics db founderId).
    { unfold metricsController.getFounderMetrics, metricsController.checkAssigned.
      rewrite Hrows. cbn [bindR]. rewrite Hex. reflexivity. }
    split; [exact Hlet|]. intros Hc. rewrite Hlet. apply Hread. exact Hc.
  - intros H. rewrite Hassigned in H. inversion H as [Hex].
    unfold metricsController.getFounderMetrics, metricsController.checkAssigned.
    rewrite Hrows. cbn [bindR]. rewrite Hex. simpl. eexists. reflexivity.
  - intros actor target rs. rewrite Hfounder.
    destruct (Founder_findOne_userId db actor); [|discriminate].
    destruct (String.eqb_spec actor target); [auto | discriminate].
  - intros actor p Hp.
    assert (Hlet : metricsController.getFounderMetrics db actor Role.founder actor
                   = MetricsService.getFounderMetrics db actor)
      by (rewrite Hfounder, Hp, String.eqb_refl; reflexivity).
    split; [exact Hlet|]. intros Hc. rewrite Hlet. apply Hread. exact Hc.
  - intros actor target Hne. rewrite Hfounder.
    destruct (Founder_findOne_userId db actor); [|eexists; reflexivity].
    destruct (String.eqb_spec actor target); [congruence | eexists; reflexivity].
  - intros actor target. split; [reflexivity | apply Hread].
  - intros actor target e. unfold metricsController.getFounderMetrics,
      MetricsService.getFounderMetrics, castObjectId. cbn [bindR].
    destruct (ObjectId_isValid target); cbn [bindR]; intros H; inversion H. reflexivity.
  - intros actor target. reflexivity.
  - intros actor target. simpl. apply String.eqb_eq.
  - intros actor target. unfold canAccessFounderContent, Assignment_findOne. split.
    + destruct (find _ (assignments db)) as [a|] eqn:E; [|discriminate].
      intros _. apply find_some in E. destruct E as [Hin Hk].
      apply andb_true_iff in Hk. destruct Hk as [Hk1 Hk2].
      apply String.eqb_eq in Hk1. apply String.eqb_eq in Hk2. exists a. auto.
    + intros (a & Hin & Hf & Ha).
      destruct (find _ (assignments db)) as [x|] eqn:E; [reflexivity|].
      apply (find_none _ _ E) in Hin. rewrite Hf, Ha, !String.eqb_refl in Hin. discriminate.
Qed.

(** The examples on the sample databases are stated for the sample test of
    ObjectIds. *)
Section SampleReads.
#[local] Existing Instance sampleObjectIds.

Lemma metrics_reads_scoped_witness :
  AssignmentService.isAssigned sampleDB "A1" "F1" = Ok true
  /\ (exists rows,
        metricsController.getFounderMetrics sampleDB "A1" Role.admin "F1" = Ok rows)
  /\ AssignmentService.isAssigned sampleDB "A2" "F1" = Ok false
  /\ (exists message,
        metricsController.getFounderMetrics sampleDB "A2" Role.admin "F1"
        = Err (AppError message 403))
  /\ (exists message,
        metricsController.getFounderMetrics sampleDB "F2" Role.founder "F1"
        = Err (AppError message 403))
  /\ metricsController.getFounderMetrics sampleDB "S1" Role.super_admin "not-an-id"
     = Err (CastError "founderId").
Proof.
  pose proof (metrics_reads_scoped sampleDB "A1" "F1"
                sampleDB_unique sampleDB_foundersHaveUsers eq_refl) as H1.
  pose proof (metrics_reads_scoped sampleDB "A2" "F1"
                sampleDB_unique sampleDB_foundersHaveUsers eq_refl) as H2.
  destruct H1 as (_ & Hcast & Hyes & _).
  destruct H2 as (_ & _ & _ & Hno & _ & _ & Hother & Hsuper & _).
  split; [reflexivity|]. split; [apply Hyes; reflexivity|].
  split; [reflexivity|]. split; [apply Hno; reflexivity|].
  split; [apply Hother; discriminate|].
  rewrite (proj1 (Hsuper "S1" "not-an-id")). apply Hcast. reflexivity.
Defined.

End SampleReads.

(** ** The metrics collection *)

Lemma sameKey_iff (F : ObjectId) (M : string) (m : FounderMetrics.t) :
  sameKey F M m = true <-> metricsKey m = (F, M).
Proof.
  unfold sameKey, metricsKey. rewrite andb_true_iff, !String.eqb_eq.
  split; [intros [-> ->]; reflexivity | intros H; inversion H; auto].
Qed.

Lemma filter_sameKey_nil (F : ObjectId) (M : string) (l : list FounderMetrics.t) :
  ~ In (F, M) (map metricsKey l) -> filter (sameKey F M) l = [].
Proof.
  induction l as [|m l IH]; simpl; intros H; [reflexivity|].
  destruct (sameKey F M m) eqn:E.
  - apply sameKey_iff in E. exfalso. apply H. auto.
  - apply IH. tauto.
Qed.

Lemma find_sameKey_None (F : ObjectId) (M : string) (l : list FounderMetrics.t) :
  find (sameKey F M) l = None -> ~ In (F, M) (map metricsKey l).
Proof.
  induction l as [|m l IH]; simpl; [tauto|].
  destruct (sameKey F M m) eqn:E; [discriminate|].
  intros H [H'|H']; [|exact (IH H H')].
  apply sameKey_iff in H'. congruence.
Qed.

(** The document [findOne] returns splits the collection; under the
    indexes, no other document has its key or its id. *)
Lemma find_sameKey_split (F : ObjectId) (M : string) (l : list FounderMetrics.t)
    (old : FounderMetrics.t) :
  NoDup (map FounderMetrics._id l) ->
  NoDup (map metricsKey l) ->
  find (sameKey F M) l = Some old ->
  exists l1 l2,
    l = l1 ++ old :: l2
    /\ sameKey F M old = true
    /\ ~ In (F, M) (map metricsKey l1) /\ ~ In (F, M) (map metricsKey l2)
    /\ ~ In (FounderMetrics._id old) (map FounderMetrics._id l1).
Proof.
  induction l as [|m l IH]; simpl; intros Hid Hkey Hfind; [discriminate|].
  inversion Hid as [|? ? Hidm Hid']; inversion Hkey as [|? ? Hkeym Hkey']; subst.
  destruct (sameKey F M m) eqn:E.
  - inversion Hfind; subst. exists [], l. simpl. repeat split; auto.
    apply sameKey_iff in E. rewrite <- E. assumption.
  - destruct (IH Hid' Hkey' Hfind) as (l1 & l2 & -> & Hold & H1 & H2 & H3).
    exists (m :: l1), l2. simpl. repeat split; auto.
    + intros [H|H]; [|auto]. apply sameKey_iff in H. congruence.
    + intros [H|H]; [|auto]. apply Hidm. rewrite H, map_app. apply in_or_app.
      right. left. reflexivity.
Qed.

Lemma FounderMetrics_updateOne_split (l1 l2 : list FounderMetrics.t)
    (old doc : FounderMetrics.t) :
  ~ In (FounderMetrics._id old) (map FounderMetrics._id l1) ->
  FounderMetrics._id doc = FounderMetrics._id old ->
  FounderMetrics_updateOne (l1 ++ old :: l2) doc = l1 ++ doc :: l2.
Proof.
  intros Hnot Hid. induction l1 as [|m l1 IH]; simpl.
  - rewrite Hid, String.eqb_refl. reflexivity.
  - simpl in Hnot. rewrite Hid.
    destruct (String.eqb_spec (FounderMetrics._id m) (FounderMetrics._id old)) as [E|E];
      [exfalso; auto|].
    f_equal. apply IH. tauto.
Qed.

Lemma filter_sameKey_split (F : ObjectId) (M : string) (l1 l2 : list FounderMetrics.t)
    (doc : FounderMetrics.t) :
  ~ In (F, M) (map metricsKey l1) -> ~ In (F, M) (map metricsKey l2) ->
  sameKey F M doc = true ->
  filter (sameKey F M) (l1 ++ doc :: l2) = [doc].
Proof.
  intros H1 H2 Hdoc. rewrite filter_app. simpl. rewrite Hdoc.
  rewrite (filter_sameKey_nil F M l1 H1), (filter_sameKey_nil F M l2 H2). reflexivity.
Qed.

Lemma NoDup_map_replace {A B : Type} (g : A -> B) (l1 l2 : list A) (x y : A) :
  g y = g x -> NoDup (map g (l1 ++ x :: l2)) -> NoDup (map g (l1 ++ y :: l2)).
Proof.
  intros E. rewrite !map_app. simpl. rewrite E. auto.
Qed.

Lemma NoDup_map_snoc {A B : Type} (g : A -> B) (l : list A) (x : A) :
  NoDup (map g l) -> ~ In (g x) (map g l) -> NoDup (map g (l ++ [x])).
Proof.
  intros Hnd Hnot. rewrite map_app. simpl.
  apply NoDup_app; auto.
  - constructor; [intros [] | constructor].
  - intros b Hb [<-|[]]. contradiction.
Qed.



Lemma filter_singleton_find {A : Type} (P : A -> bool) (l : list A) (r : A) :
  filter P l = [r] -> find P l = Some r.
Proof.
  induction l as [|x l IH]; simpl; [discriminate|].
  destruct (P x); [intros H; inversion H; reflexivity | assumption].
Qed.


Lemma sampleDB_indexes : metricsIndexes sampleDB.
Proof.
  unfold metricsIndexes. simpl.
  split; repeat (constructor; [simpl; intuition discriminate|]); constructor.
Defined.


(** ** The month key of an upload *)


Lemma validMonthKey_testMonthFormat (s : string) :
  validMonthKey s = true -> JS.testMonthFormat s = true.
Proof.
  destruct s as [|y1 [|y2 [|y3 [|y4 [|h [|m1 [|m2 [|c s]]]]]]]]; simpl; try discriminate.
  rewrite !andb_true_iff. tauto.
Qed.


Section SampleMonths.
#[local] Existing Instance sampleObjectIds.


(** The upload of "2025-13" on the sample database: no month key of the
    specification, and accepted and written. *)
Lemma month_2025_13_accepted :
  validMonthKey "2025-13" = false
  /\ metricsController.uploadMetrics sampleDB "S1" Role.super_admin "F1"
       (metricsController.mkBody (Some "2025-13") (Some 5%float) (Some 9%float)
          (Some 1%float) None) "m3" 200%Z
     = (set_foundermetrics sampleDB
          (foundermetrics sampleDB
           ++ [FounderMetrics.mk "m3" "F1" "S1" "2025-13" 5%float 9%float 1%float None
                 200%Z 200%Z]),
        Ok (FounderMetrics.mk "m3" "F1" "S1" "2025-13" 5%float 9%float 1%float None
              200%Z 200%Z)).
Proof. split; reflexivity. Qed.

End SampleMonths.

(** ** The order of JavaScript numbers *)

Lemma SFcompare_rank (x y : spec_float) (a b : Z * Z * Z) :
  rank x = Some a -> rank y = Some b ->
  match SFcompare x y with
  | Some Lt => lexLt a b
  | Some Eq => a = b
  | Some Gt => lexLt b a
  | None => False
  end.
Proof.
  destruct x as [sx|sx| |sx mx ex], y as [sy|sy| |sy my ey]; simpl;
    try discriminate;
    try destruct sx; try destruct sy; simpl;
    intros Ha Hb; inversion Ha; inversion Hb; subst; simpl; try lia; try reflexivity.
  - destruct (Z.compare_spec ex ey); simpl; try lia. subst.
    change (Pos.compare_cont Eq mx my) with (Pos.compare mx my).
    destruct (Pos.compare_spec mx my); simpl; try lia. subst; reflexivity.
  - destruct (Z.compare_spec ex ey); simpl; try lia. subst.
    change (Pos.compare_cont Eq mx my) with (Pos.compare mx my).
    destruct (Pos.compare_spec mx my); simpl; try lia. subst; reflexivity.
Qed.

Lemma SFcompare_nan (x y : spec_float) :
  rank x = None \/ rank y = None -> SFcompare x y = None.
Proof.
  destruct x as [sx|sx| |sx mx ex], y as [sy|sy| |sy my ey]; simpl;
    try destruct sx; try destruct sy; simpl; intros [H|H]; try discriminate; reflexivity.
Qed.

Ltac lex_solve :=
  repeat match goal with
         | k : (Z * Z * Z)%type |- _ => destruct k as [[? ?] ?]
         end;
  unfold lexLt in *;
  repeat match goal with
         | H : (_, _, _) = (_, _, _) |- _ => inversion H; clear H
         end;
  subst; try lia.

Lemma ltb_rank (x y : JS.number) (a b : Z * Z * Z) :
  numberRank x = Some a -> numberRank y = Some b ->
  (PrimFloat.ltb x y = true <-> lexLt a b).
Proof.
  intros Ha Hb. rewrite FloatAxioms.ltb_spec. unfold SFltb.
  pose proof (SFcompare_rank _ _ _ _ Ha Hb) as H.
  destruct (SFcompare (Prim2SF x) (Prim2SF y)) as [[| |]|]; try contradiction;
    split; intros H'; try discriminate; try reflexivity; try assumption;
    exfalso; lex_solve.
Qed.

Lemma leb_rank (x y : JS.number) (a b : Z * Z * Z) :
  numberRank x = Some a -> numberRank y = Some b ->
  (PrimFloat.leb x y = true <-> lexLt a b \/ a = b).
Proof.
  intros Ha Hb. rewrite FloatAxioms.leb_spec. unfold SFleb.
  pose proof (SFcompare_rank _ _ _ _ Ha Hb) as H.
  destruct (SFcompare (Prim2SF x) (Prim2SF y)) as [[| |]|]; try contradiction;
    split; intros H'; try discriminate; try reflexivity; auto;
    exfalso; destruct H'; lex_solve.
Qed.

Lemma ltb_nan (x y : JS.number) :
  numberRank x = None \/ numberRank y = None -> PrimFloat.ltb x y = false.
Proof.
  intros H. rewrite FloatAxioms.ltb_spec. unfold SFltb. rewrite (SFcompare_nan _ _ H). reflexivity.
Qed.

Lemma leb_nan (x y : JS.number) :
  numberRank x = None \/ numberRank y = None -> PrimFloat.leb x y = false.
Proof.
  intros H. rewrite FloatAxioms.leb_spec. unfold SFleb. rewrite (SFcompare_nan _ _ H). reflexivity.
Qed.

Lemma is_nan_rank (x : JS.number) :
  PrimFloat.is_nan x = false <-> exists a, numberRank x = Some a.
Proof.
  unfold PrimFloat.is_nan. rewrite negb_false_iff, FloatAxioms.eqb_spec. unfold SFeqb, numberRank.
  destruct (rank (Prim2SF x)) as [a|] eqn:Hr.
  - pose proof (SFcompare_rank _ _ _ _ Hr Hr) as H.
    destruct (SFcompare (Prim2SF x) (Prim2SF x)) as [[| |]|]; try contradiction;
      split; intros H'; eauto; exfalso; lex_solve.
  - rewrite (SFcompare_nan _ _ (or_introl Hr)). split; [discriminate | intros [a Ha]; discriminate].
Qed.

Lemma rank_20 : numberRank 20%float = Some (1, -48, 5629499534213120)%Z.
Proof. vm_compute. reflexivity. Qed.
Lemma rank_90 : numberRank 90%float = Some (1, -46, 6333186975989760)%Z.
Proof. vm_compute. reflexivity. Qed.
Lemma rank_100 : numberRank 100%float = Some (1, -46, 7036874417766400)%Z.
Proof. vm_compute. reflexivity. Qed.
Lemma rank_490 : numberRank 490%float = Some (1, -44, 8620171161763840)%Z.
Proof. vm_compute. reflexivity. Qed.
Lemma rank_500 : numberRank 500%float = Some (1, -44, 8796093022208000)%Z.
Proof. vm_compute. reflexivity. Qed.
Lemma rank_990 : numberRank 990%float = Some (1, -43, 8708132091985920)%Z.
Proof. vm_compute. reflexivity. Qed.
Lemma rank_1000 : numberRank 1000%float = Some (1, -43, 8796093022208000)%Z.
Proof. vm_compute. reflexivity. Qed.

(** A number at or above [c2] is not below a [c1] that is at most [c2]. *)
Lemma leb_ltb_false (c1 c2 t : JS.number) (k1 k2 : Z * Z * Z) :
  numberRank c1 = Some k1 -> numberRank c2 = Some k2 ->
  lexLt k1 k2 \/ k1 = k2 ->
  PrimFloat.leb c2 t = true -> PrimFloat.ltb t c1 = false.
Proof.
  intros H1 H2 H12 Hle.
  destruct (numberRank t) as [k|] eqn:Hk.
  - apply (leb_rank c2 t _ _ H2 Hk) in Hle.
    destruct (PrimFloat.ltb t c1) eqn:E; [|reflexivity].
    apply (ltb_rank t c1 _ _ Hk H1) in E. exfalso.
    destruct H12, Hle; lex_solve.
  - apply ltb_nan. left. assumption.
Qed.

(** ** Rounding never yields NaN

    The rounding step of the binary64 operations returns NaN only on a
    negative mantissa, which no operation feeds it. *)

Section RoundingNotNaN.
Variables prec emax : Z.

Lemma shr_1_nonneg (mrs : shr_record) :
  (0 <= shr_m mrs)%Z -> (0 <= shr_m (shr_1 mrs))%Z.
Proof.
  destruct mrs as [m r s]. simpl. destruct m as [|[p|p|]|[p|p|]]; simpl; lia.
Qed.

Lemma iter_pos_shr_1_nonneg (p : positive) (mrs : shr_record) :
  (0 <= shr_m mrs)%Z -> (0 <= shr_m (iter_pos shr_1 p mrs))%Z.
Proof.
  revert mrs. induction p as [p IH|p IH|]; intros mrs H; simpl.
  - apply IH, IH, shr_1_nonneg, H.
  - apply IH, IH, H.
  - apply shr_1_nonneg, H.
Qed.

Lemma shr_fexp_nonneg (m e : Z) (l : location) :
  (0 <= m)%Z -> (0 <= shr_m (fst (shr_fexp prec emax m e l)))%Z.
Proof.
  intros H. unfold shr_fexp, shr.
  assert (H0 : (0 <= shr_m (shr_record_of_loc m l))%Z)
    by (destruct l as [|[| |]]; simpl; exact H).
  destruct (fexp prec emax (Zdigits2 m + e) - e)%Z; simpl; try exact H0.
  apply iter_pos_shr_1_nonneg, H0.
Qed.

Lemma round_nearest_even_nonneg (m : Z) (l : location) :
  (0 <= m)%Z -> (0 <= round_nearest_even m l)%Z.
Proof.
  intros H. destruct l as [|[| |]]; simpl; try lia. destruct (Z.even m); lia.
Qed.

Lemma binary_round_aux_not_nan (sx : bool) (mx ex : Z) (lx : location) :
  (0 <= mx)%Z -> binary_round_aux prec emax sx mx ex lx <> S754_nan.
Proof.
  intros H. unfold binary_round_aux.
  pose proof (shr_fexp_nonneg mx ex lx H) as H1.
  destruct (shr_fexp prec emax mx ex lx) as [mrs' e']. simpl in H1.
  pose proof (shr_fexp_nonneg (round_nearest_even (shr_m mrs') (loc_of_shr_record mrs'))
                e' loc_Exact (round_nearest_even_nonneg _ _ H1)) as H2.
  destruct (shr_fexp prec emax _ e' loc_Exact) as [mrs'' e'']. simpl in H2.
  destruct (shr_m mrs'') as [|m|m]; try discriminate; [|lia].
  destruct (e'' <=? emax - prec)%Z; discriminate.
Qed.

Lemma binary_normalize_not_nan (m e : Z) (szero : bool) :
  binary_normalize prec emax m e szero <> S754_nan.
Proof.
  unfold binary_normalize, binary_round.
  destruct m as [|m|m]; [discriminate| |];
    destruct (shl_align _ _ _) as [mz ez]; apply binary_round_aux_not_nan; lia.
Qed.

Lemma SFmul_not_nan (x y : spec_float) (sy : bool) (my : positive) (ey : Z) :
  x <> S754_nan -> y = S754_finite sy my ey -> SFmul prec emax x y <> S754_nan.
Proof.
  intros Hx ->. destruct x as [s|s| |s m e]; simpl; try discriminate; [contradiction|].
  apply binary_round_aux_not_nan. lia.
Qed.

Lemma SFdiv_not_nan (x y : spec_float) (sy : bool) (my : positive) (ey : Z) :
  x <> S754_nan -> y = S754_finite sy my ey -> SFdiv prec emax x y <> S754_nan.
Proof.
  intros Hx ->. destruct x as [s|s| |s m e]; simpl; try discriminate; [contradiction|].
  unfold SFdiv_core_binary.
  set (m' := match _ with Z0 => Z.pos m | Zpos _ => _ | Zneg _ => 0%Z end).
  assert (Hm' : (0 <= m')%Z).
  { unfold m'. destruct (_ - _ - _)%Z; try lia. apply Z.shiftl_nonneg. lia. }
  pose proof (Z_div_mod m' (Z.pos my) ltac:(lia)) as Hdiv.
  destruct (Z.div_eucl m' (Z.pos my)) as [q r].
  apply binary_round_aux_not_nan. nia.
Qed.

Lemma SFsub_not_nan (x y : spec_float) (sy : bool) (my : positive) (ey : Z) :
  x <> S754_nan -> y = S754_finite sy my ey -> SFsub prec emax x y <> S754_nan.
Proof.
  intros Hx ->. destruct x as [s|s| |s m e]; simpl; try discriminate; [contradiction|].
  apply binary_normalize_not_nan.
Qed.
End RoundingNotNaN.

Lemma is_nan_Prim2SF (x : JS.number) :
  PrimFloat.is_nan x = false <-> Prim2SF x <> S754_nan.
Proof.
  rewrite is_nan_rank. unfold numberRank. split.
  - intros [a Ha] E. rewrite E in Ha. discriminate.
  - intros H. destruct (Prim2SF x) as [s|s| |s m e]; try destruct s; simpl; eauto.
    contradiction.
Qed.

Lemma is_finite_positive (x : JS.number) :
  PrimFloat.is_finite x = true -> PrimFloat.ltb 0%float x = true ->
  exists m e, Prim2SF x = S754_finite false m e.
Proof.
  unfold PrimFloat.is_finite, PrimFloat.is_infinity.
  rewrite negb_true_iff, orb_false_iff. intros [_ Hinf] Hpos.
  rewrite FloatAxioms.eqb_spec, FloatAxioms.abs_spec in Hinf. rewrite FloatAxioms.ltb_spec in Hpos.
  change (Prim2SF infinity) with (S754_infinity false) in Hinf.
  change (Prim2SF 0%float) with (S754_zero false) in Hpos.
  destruct (Prim2SF x) as [s|s| |s m e]; try discriminate.
  destruct s; [discriminate | eauto].
Qed.

Lemma ofZ_not_nan (z : Z) : Prim2SF (JS.ofZ z) <> S754_nan.
Proof.
  unfold JS.ofZ. destruct (z <? 0)%Z.
  - rewrite FloatAxioms.opp_spec, FloatAxioms.of_uint63_spec.
    pose proof (binary_normalize_not_nan prec emax (Uint63.to_Z (Uint63.of_Z (- z))) 0 false) as H.
    destruct (binary_normalize _ _ _ _ _); try discriminate. contradiction.
  - rewrite FloatAxioms.of_uint63_spec. apply binary_normalize_not_nan.
Qed.

Lemma Math_round_not_nan (x : JS.number) :
  Prim2SF x <> S754_nan -> Prim2SF (JS.Math_round x) <> S754_nan.
Proof.
  intros H. unfold JS.Math_round.
  destruct (Prim2SF x) as [s|s| |s m e] eqn:E; try (rewrite E; exact H).
  destruct (0 <=? e)%Z; [rewrite E; discriminate|].
  match goal with |- context [if ?c then _ else JS.ofZ ?r] => destruct c end.
  - destruct s; vm_compute; discriminate.
  - apply ofZ_not_nan.
Qed.

(** The growth of a counter over a finite previous total is a number. *)
Lemma growth_not_nan (current previous : JS.number) :
  PrimFloat.is_nan current = false ->
  PrimFloat.is_finite previous = true ->
  PrimFloat.is_nan (AdminDashboardService.growth current previous) = false.
Proof.
  intros Hc Hp. unfold AdminDashboardService.growth.
  destruct (PrimFloat.ltb 0%float previous) eqn:Hpos; [|reflexivity].
  destruct (is_finite_positive previous Hp Hpos) as (m & e & Hprev).
  apply is_nan_Prim2SF in Hc. apply is_nan_Prim2SF. apply Math_round_not_nan.
  rewrite FloatAxioms.mul_spec. unfold SF64mul.
  eapply SFmul_not_nan; [|vm_compute; reflexivity].
  rewrite FloatAxioms.div_spec. unfold SF64div.
  eapply SFdiv_not_nan; [|exact Hprev].
  rewrite FloatAxioms.sub_spec. unfold SF64sub.
  eapply SFsub_not_nan; [exact Hc | exact Hprev].
Qed.

(** ** Milestones *)

Lemma approaching_eq (t : JS.number) :
  DashboardService.approaching t DashboardService.milestones =
  if PrimFloat.ltb t 100%float && PrimFloat.leb 90%float t then Some 100%float
  else if PrimFloat.ltb t 500%float && PrimFloat.leb 490%float t then Some 500%float
  else if PrimFloat.ltb t 1000%float && PrimFloat.leb 990%float t then Some 1000%float
  else None.
Proof. reflexivity. Qed.

Lemma window_500 (t : JS.number) :
  PrimFloat.leb 490%float t = true -> PrimFloat.ltb t 100%float = false.
Proof.
  apply (leb_ltb_false 100%float 490%float t _ _ rank_100 rank_490). left. unfold lexLt. lia.
Qed.

Lemma window_1000 (t : JS.number) :
  PrimFloat.leb 990%float t = true ->
  PrimFloat.ltb t 100%float = false /\ PrimFloat.ltb t 500%float = false.
Proof.
  intros H. split.
  - revert H. apply (leb_ltb_false 100%float 990%float t _ _ rank_100 rank_990).
    left. unfold lexLt. lia.
  - revert H. apply (leb_ltb_false 500%float 990%float t _ _ rank_500 rank_990).
    left. unfold lexLt. lia.
Qed.

Lemma In_milestones (m : JS.number) :
  In m DashboardService.milestones <-> m = 100%float \/ m = 500%float \/ m = 1000%float.
Proof. unfold DashboardService.milestones. simpl. intuition. Qed.

Lemma approaching_iff (t m : JS.number) :
  DashboardService.approaching t DashboardService.milestones = Some m <->
  In m DashboardService.milestones
  /\ PrimFloat.ltb t m = true
  /\ PrimFloat.leb (PrimFloat.sub m 10%float) t = true.
Proof.
  rewrite approaching_eq, In_milestones. split.
  - destruct (PrimFloat.ltb t 100%float && PrimFloat.leb 90%float t) eqn:E1.
    { intros H; inversion H; subst. apply andb_true_iff in E1. tauto. }
    destruct (PrimFloat.ltb t 500%float && PrimFloat.leb 490%float t) eqn:E2.
    { intros H; inversion H; subst. apply andb_true_iff in E2. tauto. }
    destruct (PrimFloat.ltb t 1000%float && PrimFloat.leb 990%float t) eqn:E3.
    { intros H; inversion H; subst. apply andb_true_iff in E3. tauto. }
    discriminate.
  - intros ([->| [->| ->]] & Hlt & Hle).
    + change (PrimFloat.sub 100 10)%float with 90%float in Hle. rewrite Hlt, Hle. reflexivity.
    + change (PrimFloat.sub 500 10)%float with 490%float in Hle.
      rewrite (window_500 t Hle), Hlt, Hle. reflexivity.
    + change (PrimFloat.sub 1000 10)%float with 990%float in Hle.
      destruct (window_1000 t Hle) as [H1 H2]. rewrite H1, H2, Hlt, Hle. reflexivity.
Qed.

Lemma approaching_smallest (t m m' : JS.number) :
  DashboardService.approaching t DashboardService.milestones = Some m ->
  In m' DashboardService.milestones ->
  PrimFloat.ltb m' m = true ->
  PrimFloat.ltb t m' = false.
Proof.
  intros H Hm' Hlt. apply approaching_iff in H. destruct H as (Hm & _ & Hle).
  apply In_milestones in Hm. apply In_milestones in Hm'.
  destruct Hm as [->| [->| ->]], Hm' as [->| [->| ->]];
    try (vm_compute in Hlt; discriminate).
  - apply window_500. exact Hle.
  - apply window_1000. exact Hle.
  - apply window_1000. exact Hle.
Qed.

Lemma milestoneEntries_id (db : DB) (founder : Founder.t) (e : DashboardService.UpcomingMilestone) :
  In e (DashboardService.milestoneEntries db founder) ->
  DashboardService.id e = Founder._id founder
  /\ DashboardService.currentPosts e = DashboardService.lifetimePosts db (Founder._id founder)
  /\ DashboardService.approaching (DashboardService.currentPosts e) DashboardService.milestones
     = Some (DashboardService.milestone e)
  /\ DashboardService.postsAway e
     = PrimFloat.sub (DashboardService.milestone e) (DashboardService.currentPosts e).
Proof.
  unfold DashboardService.milestoneEntries.
  destruct (DashboardService.approaching _ _) as [m|] eqn:E; simpl; [|contradiction].
  intros [<-|[]]. simpl. auto.
Qed.

Lemma milestoneEntries_filter (db : DB) (founder : Founder.t) (l : list Founder.t) :
  NoDup (map Founder._id l) -> In founder l ->
  filter (fun e => DashboardService.id e =? Founder._id founder)
         (flat_map (DashboardService.milestoneEntries db) l)
  = DashboardService.milestoneEntries db founder.
Proof.
  assert (Hall : forall g (b : bool),
             (Founder._id g =? Founder._id founder) = b ->
             filter (fun e => DashboardService.id e =? Founder._id founder)
                    (DashboardService.milestoneEntries db g)
             = if b then DashboardService.milestoneEntries db g else []).
  { intros g b Hb. unfold DashboardService.milestoneEntries.
    destruct (DashboardService.approaching _ _); simpl; [|destruct b; reflexivity].
    rewrite Hb. destruct b; reflexivity. }
  assert (Hnone : forall l',
             ~ In (Founder._id founder) (map Founder._id l') ->
             filter (fun e => DashboardService.id e =? Founder._id founder)
                    (flat_map (DashboardService.milestoneEntries db) l') = []).
  { induction l' as [|g l' IH]; simpl; intros Hnot; [reflexivity|].
    rewrite filter_app, IH by tauto.
    rewrite (Hall g false); [reflexivity|]. apply String.eqb_neq. tauto. }
  induction l as [|g l IH]; simpl; intros Hnd Hin; [contradiction|].
  inversion Hnd as [|? ? Hnotin Hnd']; subst. rewrite filter_app.
  destruct Hin as [->|Hin].
  - rewrite (Hall founder true) by apply String.eqb_refl.
    rewrite Hnone by assumption. apply app_nil_r.
  - rewrite IH by assumption.
    rewrite (Hall g false); [reflexivity|]. apply String.eqb_neq.
    intros E. apply Hnotin. rewrite E. apply in_map. assumption.
Qed.

(** C6. The milestone reported for a lifetime total is the one milestone
    of 100, 500, 1000 that the total is below and at most 10 away from, the
    distance 10 included; every smaller milestone is then reached. A
    founder whose total is in the window of a milestone is reported exactly
    once, for that milestone, with its total and the distance to the
    milestone; a founder whose total is in no window is not reported. A
    total of 95 is reported for 100 with 5 to go, a total of 90 is reported
    for 100 with 10 to go, totals of 89 and of 100 are not reported. *)
Theorem milestone_proximity :
  (forall t m,
      DashboardService.approaching t DashboardService.milestones = Some m <->
      In m DashboardService.milestones
      /\ PrimFloat.ltb t m = true
      /\ PrimFloat.leb (PrimFloat.sub m 10%float) t = true)
  /\ (forall t m m',
        DashboardService.approaching t DashboardService.milestones = Some m ->
        In m' DashboardService.milestones ->
        PrimFloat.ltb m' m = true ->
        PrimFloat.ltb t m' = false)
  /\ (forall db founder m,
        NoDup (map Founder._id (founders db)) ->
        In founder (founders db) ->
        In m DashboardService.milestones ->
        PrimFloat.ltb (DashboardService.lifetimePosts db (Founder._id founder)) m = true ->
        PrimFloat.leb (PrimFloat.sub m 10%float)
          (DashboardService.lifetimePosts db (Founder._id founder)) = true ->
        filter (fun e => DashboardService.id e =? Founder._id founder)
               (DashboardService.upcomingMilestones db)
        = [DashboardService.mkUpcomingMilestone (Founder._id founder)
             (populatedName db founder) (companyOrUnknown founder)
             (DashboardService.lifetimePosts db (Founder._id founder)) m
             (PrimFloat.sub m (DashboardService.lifetimePosts db (Founder._id founder)))])
  /\ (forall db founder,
        NoDup (map Founder._id (founders db)) ->
        In founder (founders db) ->
        (forall m,
            In m DashboardService.milestones ->
            PrimFloat.ltb (DashboardService.lifetimePosts db (Founder._id founder)) m
            && PrimFloat.leb (PrimFloat.sub m 10%float)
                 (DashboardService.lifetimePosts db (Founder._id founder)) = false) ->
        filter (fun e => DashboardService.id e =? Founder._id founder)
               (DashboardService.upcomingMilestones db)
        = [])
  /\ (forall db founder,
        (List.length (DashboardService.milestoneEntries db founder) <= 1)%nat)
  /\ (forall db founder e,
        In e (DashboardService.milestoneEntries db founder) ->
        DashboardService.id e = Founder._id founder
        /\ DashboardService.currentPosts e
           = DashboardService.lifetimePosts db (Founder._id founder)
        /\ DashboardService.approaching (DashboardService.currentPosts e)
             DashboardService.milestones
           = Some (DashboardService.milestone e)
        /\ DashboardService.postsAway e
           = PrimFloat.sub (DashboardService.milestone e) (DashboardService.currentPosts e))
  /\ (forall db founder,
        NoDup (map Founder._id (founders db)) ->
        In founder (founders db) ->
        filter (fun e => DashboardService.id e =? Founder._id founder)
               (DashboardService.upcomingMilestones db)
        = DashboardService.milestoneEntries db founder)
  /\ DashboardService.approaching 95%float DashboardService.milestones = Some 100%float
  /\ PrimFloat.sub 100%float 95%float = 5%float
  /\ DashboardService.approaching 90%float DashboardService.milestones = Some 100%float
  /\ PrimFloat.sub 100%float 90%float = 10%float
  /\ DashboardService.approaching 89%float DashboardService.milestones = None
  /\ DashboardService.approaching 100%float DashboardService.milestones = None.
Proof.
  split; [exact approaching_iff|]. split; [exact approaching_smallest|].
  split.
  { intros db founder m Hnd Hin Hm Hlt Hle. unfold DashboardService.upcomingMilestones.
    rewrite milestoneEntries_filter by assumption.
    unfold DashboardService.milestoneEntries.
    rewrite (proj2 (approaching_iff _ m) (conj Hm (conj Hlt Hle))). reflexivity. }
  split.
  { intros db founder Hnd Hin Hout. unfold DashboardService.upcomingMilestones.
    rewrite milestoneEntries_filter by assumption.
    unfold DashboardService.milestoneEntries.
    destruct (DashboardService.approaching _ _) as [m|] eqn:E; [|reflexivity].
    apply approaching_iff in E. destruct E as (Hm & Hlt & Hle).
    specialize (Hout m Hm). rewrite Hlt, Hle in Hout. discriminate. }
  split.
  { intros db founder. unfold DashboardService.milestoneEntries.
    destruct (DashboardService.approaching _ _); simpl; lia. }
  split; [exact milestoneEntries_id|].
  split.
  { intros db founder Hnd Hin. unfold DashboardService.upcomingMilestones.
    apply milestoneEntries_filter; assumption. }
  repeat split; reflexivity.
Qed.

Lemma milestoneDB_ids : NoDup (map Founder._id (founders milestoneDB)).
Proof.
  simpl. repeat (constructor; [simpl; intuition discriminate|]). constructor.
Defined.

(** The four totals on a database: the founders at 90 and at 95 are
    reported, once each, those at 89 and at 100 are not. *)
Lemma milestone_proximity_witness :
  DashboardService.upcomingMilestones milestoneDB
  = [ DashboardService.mkUpcomingMilestone "g90" "Udo" "Lima" 90%float 100%float 10%float;
      DashboardService.mkUpcomingMilestone "g95" "Uri" "Mike" 95%float 100%float 5%float ]
  /\ filter (fun e => DashboardService.id e =? "g95")
       (DashboardService.upcomingMilestones milestoneDB)
     = [DashboardService.mkUpcomingMilestone "g95" "Uri" "Mike" 95%float 100%float 5%float]
  /\ filter (fun e => DashboardService.id e =? "g100")
       (DashboardService.upcomingMilestones milestoneDB) = []
  /\ filter (fun e => DashboardService.id e =? "g89")
       (DashboardService.upcomingMilestones milestoneDB) = []
  /\ DashboardService.approaching 95%float DashboardService.milestones <> Some 500%float.
Proof.
  destruct milestone_proximity as (Hiff & _ & Hin & Hout & _).
  split; [reflexivity|]. split; [|split; [|split]].
  - exact (eq_trans
             (Hin milestoneDB (Founder.mk "g95" "U95" "Mike" None) 100%float milestoneDB_ids
                ltac:(simpl; auto) ltac:(simpl; auto) eq_refl eq_refl)
             eq_refl).
  - apply (Hout milestoneDB (Founder.mk "g100" "U100" "Nova" None) milestoneDB_ids);
      [simpl; auto|].
    intros m [<-|[<-|[<-|[]]]]; reflexivity.
  - apply (Hout milestoneDB (Founder.mk "g89" "U89" "Kilo" None) milestoneDB_ids);
      [simpl; auto|].
    intros m [<-|[<-|[<-|[]]]]; reflexivity.
  - intros H. apply Hiff in H. destruct H as (_ & _ & H).
    vm_compute in H. discriminate.
Defined.

(** C6 as stated fails at a lifetime total of 90: the founder is reported,
    for the milestone 100, with 10 posts to go. *)
Lemma milestone_90_reported :
  DashboardService.lifetimePosts sampleDB "fd2" = 90%float
  /\ DashboardService.milestoneEntries sampleDB (Founder.mk "fd2" "F2" "" None)
     = [DashboardService.mkUpcomingMilestone "fd2" "Finn" "Unknown" 90%float 100%float 10%float]
  /\ In (DashboardService.mkUpcomingMilestone "fd2" "Finn" "Unknown" 90%float 100%float 10%float)
        (DashboardService.upcomingMilestones sampleDB).
Proof. repeat split; try reflexivity. simpl. auto. Qed.

(** ** Growth and performance highlights *)

(** Between two numbers, the larger one exceeds 20 exactly when one of them
    does. *)
Lemma Math_max_gt_20 (a b : JS.number) :
  PrimFloat.is_nan a = false -> PrimFloat.is_nan b = false ->
  PrimFloat.ltb 20%float (JS.Math_max a b)
  = PrimFloat.ltb 20%float a || PrimFloat.ltb 20%float b.
Proof.
  intros Ha Hb. unfold JS.Math_max. rewrite Ha, Hb. simpl.
  apply is_nan_rank in Ha. apply is_nan_rank in Hb.
  destruct Ha as [ka Hka], Hb as [kb Hkb].
  pose proof (ltb_rank a b _ _ Hka Hkb) as Hab.
  pose proof (ltb_rank b a _ _ Hkb Hka) as Hba.
  pose proof (ltb_rank 20%float a _ _ rank_20 Hka) as H20a.
  pose proof (ltb_rank 20%float b _ _ rank_20 Hkb) as H20b.
  destruct (PrimFloat.ltb a b), (PrimFloat.ltb b a), (PrimFloat.get_sign a),
    (PrimFloat.ltb 20%float a), (PrimFloat.ltb 20%float b);
    try reflexivity; exfalso;
    repeat match goal with
           | H : true = true <-> _ |- _ => apply proj1 in H; specialize (H eq_refl)
           | H : false = true <-> ?P |- _ =>
               assert (~ P) by (intros HP; apply H in HP; discriminate); clear H
           end;
    lex_solve.
Qed.

Lemma pushedHighlights_In (db : DB) (currentMonth prevMonth : string)
    (ids : list ObjectId) (h : AdminDashboardService.PerformanceHighlight) :
  In h (AdminDashboardService.pushedHighlights db currentMonth prevMonth ids) ->
  exists founderId cur prev,
    In founderId ids
    /\ FounderMetrics_findOne (foundermetrics db) founderId currentMonth = Some cur
    /\ FounderMetrics_findOne (foundermetrics db) founderId prevMonth = Some prev
    /\ AdminDashboardService.id h = FounderMetrics._id cur
    /\ AdminDashboardService.impressionsGrowth h
       = AdminDashboardService.growth (FounderMetrics.totalImpressions cur)
           (FounderMetrics.totalImpressions prev)
    /\ AdminDashboardService.engagementGrowth h
       = AdminDashboardService.growth (FounderMetrics.totalCommentOutreach cur)
           (FounderMetrics.totalCommentOutreach prev)
    /\ PrimFloat.ltb 20%float (AdminDashboardService.impressionsGrowth h)
       || PrimFloat.ltb 20%float (AdminDashboardService.engagementGrowth h) = true.
Proof.
  induction ids as [|founderId ids IH]; simpl; [contradiction|].
  assert (Hrest : In h (AdminDashboardService.pushedHighlights db currentMonth prevMonth ids) ->
                  exists founderId0 cur prev,
                    (founderId = founderId0 \/ In founderId0 ids)
                    /\ FounderMetrics_findOne (foundermetrics db) founderId0 currentMonth = Some cur
                    /\ FounderMetrics_findOne (foundermetrics db) founderId0 prevMonth = Some prev
                    /\ AdminDashboardService.id h = FounderMetrics._id cur
                    /\ AdminDashboardService.impressionsGrowth h
                       = AdminDashboardService.growth (FounderMetrics.totalImpressions cur)
                           (FounderMetrics.totalImpressions prev)
                    /\ AdminDashboardService.engagementGrowth h
                       = AdminDashboardService.growth (FounderMetrics.totalCommentOutreach cur)
                           (FounderMetrics.totalCommentOutreach prev)
                    /\ PrimFloat.ltb 20%float (AdminDashboardService.impressionsGrowth h)
                       || PrimFloat.ltb 20%float (AdminDashboardService.engagementGrowth h) = true).
  { intros H. destruct (IH H) as (f & c & p & Hf & Hrest). exists f, c, p. auto. }
  destruct (FounderMetrics_findOne (foundermetrics db) founderId currentMonth) as [cur|] eqn:Hc;
    [|exact Hrest].
  destruct (FounderMetrics_findOne (foundermetrics db) founderId prevMonth) as [prev|] eqn:Hp;
    [|exact Hrest].
  match goal with
  | |- In h (if ?c then _ else _) -> _ => destruct c eqn:Hsig; [|exact Hrest]
  end.
  intros [<-|H]; [|exact (Hrest H)].
  exists founderId, cur, prev. simpl. repeat split; auto.
Qed.

Lemma pushedHighlights_complete (db : DB) (currentMonth prevMonth : string)
    (ids : list ObjectId) (founderId : ObjectId) (cur prev : FounderMetrics.t) :
  In founderId ids ->
  FounderMetrics_findOne (foundermetrics db) founderId currentMonth = Some cur ->
  FounderMetrics_findOne (foundermetrics db) founderId prevMonth = Some prev ->
  PrimFloat.ltb 20%float
    (AdminDashboardService.growth (FounderMetrics.totalImpressions cur)
       (FounderMetrics.totalImpressions prev))
  || PrimFloat.ltb 20%float
       (AdminDashboardService.growth (FounderMetrics.totalCommentOutreach cur)
          (FounderMetrics.totalCommentOutreach prev)) = true ->
  exists h,
    In h (AdminDashboardService.pushedHighlights db currentMonth prevMonth ids)
    /\ AdminDashboardService.id h = FounderMetrics._id cur.
Proof.
  intros Hin Hc Hp Hsig. induction ids as [|x ids IH]; simpl in *; [contradiction|].
  destruct Hin as [->|Hin].
  - rewrite Hc, Hp, Hsig. eexists. split; [left; reflexivity | reflexivity].
  - destruct (IH Hin) as (h & Hh & Hid). exists h. split; [|exact Hid].
    destruct (FounderMetrics_findOne (foundermetrics db) x currentMonth); [|exact Hh].
    destruct (FounderMetrics_findOne (foundermetrics db) x prevMonth); [|exact Hh].
    match goal with |- In h (if ?c then _ else _) => destruct c end;
      [right; exact Hh | exact Hh].
Qed.

Lemma is_finite_is_nan (x : JS.number) :
  PrimFloat.is_finite x = true -> PrimFloat.is_nan x = false.
Proof.
  unfold PrimFloat.is_finite. rewrite negb_true_iff, orb_false_iff. tauto.
Qed.

Lemma sampleDB_finiteCounters : finiteCounters sampleDB.
Proof.
  intros m H. simpl in H.
  repeat (destruct H as [<-|H]; [split; reflexivity|]). contradiction.
Defined.

(** The highlights returned are among those pushed, at most five of them,
    and all of them when at most five were pushed. *)
Lemma performanceHighlights_pushed (db : DB) (currentMonth prevMonth : string)
    (ids : list ObjectId) :
  (forall h,
      In h (AdminDashboardService.performanceHighlights db currentMonth prevMonth ids) ->
      In h (AdminDashboardService.pushedHighlights db currentMonth prevMonth ids))
  /\ (List.length (AdminDashboardService.performanceHighlights db currentMonth prevMonth ids)
      <= 5)%nat
  /\ ((List.length (AdminDashboardService.pushedHighlights db currentMonth prevMonth ids)
       <= 5)%nat ->
      Permutation (AdminDashboardService.performanceHighlights db currentMonth prevMonth ids)
        (AdminDashboardService.pushedHighlights db currentMonth prevMonth ids)).
Proof.
  unfold AdminDashboardService.performanceHighlights.
  set (pushed := AdminDashboardService.pushedHighlights db currentMonth prevMonth ids).
  pose proof (sortBy_Permutation AdminDashboardService.highlightBefore pushed) as Hperm.
  split; [|split].
  - intros h Hin. apply (Permutation_in _ Hperm).
    rewrite <- (firstn_skipn 5 (sortBy _ pushed)). apply in_or_app. left. exact Hin.
  - apply firstn_le_length.
  - intros Hlen. rewrite firstn_all2; [exact Hperm|].
    rewrite (Permutation_length Hperm). exact Hlen.
Qed.

(** C5. The growth of a counter is
    [Math.round(((current - previous) / previous) * 100)] when the previous
    total is above 0 and 0 otherwise, for a previous total of 0 in
    particular: 0 for 50 after 0, 20 for 120 after 100, and, the halves
    going up, 38 for 11 after 8, -37 for 5 after 8, -67 for 1 after 3. A
    highlight that is returned stands for a founder of the scope with a
    document for the current and for the previous month, carries the two
    growths of those documents, and one of the two exceeds 20; that is,
    [Math.max] of the two exceeds 20, whenever neither growth is NaN, as
    over stored counters that are finite. At most five highlights are
    returned; a founder of the scope with the two documents and a growth
    above 20 is pushed by the loop, and is returned when the loop pushed at
    most five. *)
Theorem growth_and_highlights :
  (forall current previous,
      PrimFloat.ltb 0%float previous = true ->
      AdminDashboardService.growth current previous
      = JS.Math_round
          (PrimFloat.mul (PrimFloat.div (PrimFloat.sub current previous) previous) 100%float))
  /\ (forall current previous,
        PrimFloat.ltb 0%float previous = false ->
        AdminDashboardService.growth current previous = 0%float)
  /\ (forall current, AdminDashboardService.growth current 0%float = 0%float)
  /\ AdminDashboardService.growth 50%float 0%float = 0%float
  /\ AdminDashboardService.growth 120%float 100%float = 20%float
  /\ AdminDashboardService.growth 11%float 8%float = 38%float
  /\ AdminDashboardService.growth 5%float 8%float = (-37)%float
  /\ AdminDashboardService.growth 1%float 3%float = (-67)%float
  /\ (forall db currentMonth prevMonth ids h,
        In h (AdminDashboardService.performanceHighlights db currentMonth prevMonth ids) ->
        (exists founderId cur prev,
            In founderId ids
            /\ FounderMetrics_findOne (foundermetrics db) founderId currentMonth = Some cur
            /\ FounderMetrics_findOne (foundermetrics db) founderId prevMonth = Some prev
            /\ AdminDashboardService.id h = FounderMetrics._id cur
            /\ AdminDashboardService.impressionsGrowth h
               = AdminDashboardService.growth (FounderMetrics.totalImpressions cur)
                   (FounderMetrics.totalImpressions prev)
            /\ AdminDashboardService.engagementGrowth h
               = AdminDashboardService.growth (FounderMetrics.totalCommentOutreach cur)
                   (FounderMetrics.totalCommentOutreach prev))
        /\ PrimFloat.ltb 20%float (AdminDashboardService.impressionsGrowth h)
           || PrimFloat.ltb 20%float (AdminDashboardService.engagementGrowth h) = true
        /\ (PrimFloat.is_nan (AdminDashboardService.impressionsGrowth h) = false ->
            PrimFloat.is_nan (AdminDashboardService.engagementGrowth h) = false ->
            PrimFloat.ltb 20%float (AdminDashboardService.maxGrowth h) = true)
        /\ (finiteCounters db ->
            PrimFloat.ltb 20%float (AdminDashboardService.maxGrowth h) = true))
  /\ (forall db currentMonth prevMonth ids,
        (List.length (AdminDashboardService.performanceHighlights db currentMonth prevMonth
                        ids) <= 5)%nat)
  /\ (forall db currentMonth prevMonth ids founderId cur prev,
        In founderId ids ->
        FounderMetrics_findOne (foundermetrics db) founderId currentMonth = Some cur ->
        FounderMetrics_findOne (foundermetrics db) founderId prevMonth = Some prev ->
        PrimFloat.ltb 20%float
          (AdminDashboardService.growth (FounderMetrics.totalImpressions cur)
             (FounderMetrics.totalImpressions prev))
        || PrimFloat.ltb 20%float
             (AdminDashboardService.growth (FounderMetrics.totalCommentOutreach cur)
                (FounderMetrics.totalCommentOutreach prev)) = true ->
        exists h,
          In h (AdminDashboardService.pushedHighlights db currentMonth prevMonth ids)
          /\ AdminDashboardService.id h = FounderMetrics._id cur
          /\ ((List.length
                 (AdminDashboardService.pushedHighlights db currentMonth prevMonth ids)
               <= 5)%nat ->
              In h (AdminDashboardService.performanceHighlights db currentMonth prevMonth
                      ids))).
Proof.
  split; [|split; [|split; [|split; [|split; [|split; [|split; [|split; [|split;
    [|split]]]]]]]]].
  - intros current previous H. unfold AdminDashboardService.growth. rewrite H. reflexivity.
  - intros current previous H. unfold AdminDashboardService.growth. rewrite H. reflexivity.
  - intros current. reflexivity.
  - reflexivity.
  - reflexivity.
  - reflexivity.
  - reflexivity.
  - reflexivity.
  - intros db currentMonth prevMonth ids h Hin.
    apply (proj1 (performanceHighlights_pushed db currentMonth prevMonth ids)) in Hin.
    destruct (pushedHighlights_In _ _ _ _ _ Hin)
      as (f & cur & prev & Hf & Hc & Hp & Hid & Hig & Heg & Hsig).
    split; [exists f, cur, prev; repeat split; assumption|]. split; [exact Hsig|].
    split.
    + intros Hni Hne. unfold AdminDashboardService.maxGrowth.
      rewrite Math_max_gt_20; assumption.
    + intros Hfinite. unfold AdminDashboardService.maxGrowth.
      apply find_some in Hc. apply find_some in Hp.
      destruct (Hfinite cur (proj1 Hc)) as [Hci Hce].
      destruct (Hfinite prev (proj1 Hp)) as [Hpi Hpe].
      rewrite Math_max_gt_20; [exact Hsig | rewrite Hig | rewrite Heg];
        apply growth_not_nan; try assumption; apply is_finite_is_nan; assumption.
  - intros db currentMonth prevMonth ids.
    apply (performanceHighlights_pushed db currentMonth prevMonth ids).
  - intros db currentMonth prevMonth ids founderId cur prev Hin Hc Hp Hsig.
    destruct (pushedHighlights_complete db currentMonth prevMonth ids founderId cur prev
                Hin Hc Hp Hsig) as (h & Hh & Hid).
    exists h. split; [exact Hh|]. split; [exact Hid|].
    intros Hlen.
    destruct (performanceHighlights_pushed db currentMonth prevMonth ids) as (_ & _ & Hperm).
    apply (Permutation_in _ (Permutation_sym (Hperm Hlen))). exact Hh.
Qed.

(** On the sample database, and on seven founders of which six grow by
    more than 20: the five highest are returned, highest first. *)
Lemma growth_and_highlights_witness :
  AdminDashboardService.growth 125%float 100%float = 25%float
  /\ AdminDashboardService.performanceHighlights sampleDB "2025-06" "2025-05" ["fd1"]
     = [AdminDashboardService.mkPerformanceHighlight "d2" "Fay" "Acme" 25%float 0%float "2025-06"]
  /\ PrimFloat.ltb 20%float
       (AdminDashboardService.maxGrowth
          (AdminDashboardService.mkPerformanceHighlight "d2" "Fay" "Acme" 25%float 0%float
             "2025-06")) = true
  /\ map AdminDashboardService.id
       (AdminDashboardService.pushedHighlights growthDB "2025-06" "2025-05"
          ["h1"; "h2"; "h3"; "h4"; "h5"; "h6"; "h7"])
     = ["b1"; "b2"; "b3"; "b4"; "b5"; "b6"]
  /\ map (fun h => (AdminDashboardService.id h, AdminDashboardService.impressionsGrowth h))
       (AdminDashboardService.performanceHighlights growthDB "2025-06" "2025-05"
          ["h1"; "h2"; "h3"; "h4"; "h5"; "h6"; "h7"])
     = [("b4", 80%float); ("b6", 60%float); ("b2", 50%float); ("b1", 30%float);
        ("b3", 25%float)]
  /\ (List.length
        (AdminDashboardService.performanceHighlights growthDB "2025-06" "2025-05"
           ["h1"; "h2"; "h3"; "h4"; "h5"; "h6"; "h7"]) <= 5)%nat.
Proof.
  destruct growth_and_highlights as (Hpos & _ & _ & _ & _ & _ & _ & _ & Honly & Hfive & _).
  split; [exact (eq_trans (Hpos 125%float 100%float eq_refl) eq_refl)|].
  split; [reflexivity|].
  split.
  - apply (Honly sampleDB "2025-06" "2025-05" ["fd1"]); [left; reflexivity|].
    exact sampleDB_finiteCounters.
  - split; [reflexivity|]. split; [reflexivity|]. apply Hfive.
Defined.

(** C5 as stated fails on counters that are no finite numbers, which the
    schema lets in: with impressions of Infinity in both months the growth
    of the impressions is NaN, the outreach grows by 50, the founder is
    returned as a highlight, and [Math.max] of the two growths is NaN, which
    does not exceed 20. *)
Lemma highlight_with_NaN_growth :
  storedValid infinityDB
  /\ AdminDashboardService.performanceHighlights infinityDB "2025-06" "2025-05" ["fd1"]
     = [AdminDashboardService.mkPerformanceHighlight "i2" "Fay" "Acme" PrimFloat.nan
          50%float "2025-06"]
  /\ PrimFloat.ltb 20%float
       (AdminDashboardService.maxGrowth
          (AdminDashboardService.mkPerformanceHighlight "i2" "Fay" "Acme" PrimFloat.nan
             50%float "2025-06")) = false.
Proof.
  split; [|split; reflexivity].
  intros m H. simpl in H.
  repeat (destruct H as [<-|H]; [reflexivity|]). contradiction.
Qed.

(** The arithmetic is the binary64 arithmetic of the runtime: 201/200 times
    100 evaluates to 100.49999999999999, which rounds to 100. *)
Example growth_401_after_200 :
  AdminDashboardService.growth 401%float 200%float = 100%float.
Proof. reflexivity. Qed.

(** ** Completion rate *)

Lemma FounderMetrics_distinct_spec (l : list FounderMetrics.t) :
  NoDup (FounderMetrics_distinct_founderId l)
  /\ forall f, In f (FounderMetrics_distinct_founderId l)
               <-> exists m, In m l /\ FounderMetrics.founderId m = f.
Proof.
  unfold FounderMetrics_distinct_founderId. split; [apply NoDup_nodup|].
  intros f. rewrite nodup_In, in_map_iff. split; intros (m & H1 & H2); exists m; auto.
Qed.

(** C9. The completion rate of an admin's scope and of the platform. The
    guard is there: with no founder in the scope the rate is 0 and no
    division is evaluated; otherwise the rate is
    [Math.round((k / n) * 100)], 33 for 1 of 3, 67 for 2 of 3, 13 for 1 of
    8. For an admin, n counts the founder documents of the scope and k the
    distinct ones among them that have a document for the month. For the
    platform, n counts the founder documents and k the distinct [founderId]
    values of the documents of the month, whether or not they are ids of
    founder documents: on the sample database, whose June documents sit
    under the ids of the two founder documents and under a user id, the
    rate of June is 150, where two of the two founders have a document and
    the rate the specification words is 100. *)
Theorem completion_rate_guarded :
  (forall db adminId currentMonth,
      AdminDashboardService.assignedFounderIds db adminId = Ok [] ->
      AdminDashboardService.metricsCompletionRate db adminId currentMonth
      = Ok (AdminDashboardService.mkMetricsCompletionRate 0%float 0 0))
  /\ (forall db adminId currentMonth ids,
        AdminDashboardService.assignedFounderIds db adminId = Ok ids ->
        ids <> [] ->
        let done := AdminDashboardService.foundersWithCurrentMonthMetrics db ids currentMonth in
        AdminDashboardService.metricsCompletionRate db adminId currentMonth
        = Ok (AdminDashboardService.mkMetricsCompletionRate
                (JS.Math_round
                   (PrimFloat.mul
                      (PrimFloat.div (JS.ofNat (List.length done))
                                     (JS.ofNat (List.length ids)))
                      100%float))
                (List.length done) (List.length ids)))
  /\ (forall db ids currentMonth,
        NoDup (AdminDashboardService.foundersWithCurrentMonthMetrics db ids currentMonth)
        /\ forall f,
             In f (AdminDashboardService.foundersWithCurrentMonthMetrics db ids currentMonth)
             <-> In f ids
                 /\ exists m, In m (foundermetrics db)
                              /\ FounderMetrics.founderId m = f
                              /\ FounderMetrics.month m = currentMonth)
  /\ (forall db month,
        founders db = [] -> DashboardService.completionRate db month = 0%float)
  /\ (forall db month,
        founders db <> [] ->
        let counted :=
          FounderMetrics_distinct_founderId
            (filter (fun m => FounderMetrics.month m =? month) (foundermetrics db)) in
        DashboardService.completionRate db month
        = JS.Math_round
            (PrimFloat.mul
               (PrimFloat.div (JS.ofNat (List.length counted))
                              (JS.ofNat (List.length (founders db))))
               100%float)
        /\ NoDup counted
        /\ forall f,
             In f counted
             <-> exists m, In m (foundermetrics db)
                           /\ FounderMetrics.founderId m = f
                           /\ FounderMetrics.month m = month)
  /\ JS.Math_round (PrimFloat.mul (PrimFloat.div (JS.ofNat 1) (JS.ofNat 3)) 100%float)
     = 33%float
  /\ JS.Math_round (PrimFloat.mul (PrimFloat.div (JS.ofNat 2) (JS.ofNat 3)) 100%float)
     = 67%float
  /\ JS.Math_round (PrimFloat.mul (PrimFloat.div (JS.ofNat 1) (JS.ofNat 8)) 100%float)
     = 13%float
  /\ DashboardService.completionRate sampleDB "2025-06" = 150%float
  /\ filter (hasRecord sampleDB "2025-06") (map Founder._id (founders sampleDB))
     = ["fd1"; "fd2"]
  /\ specCompletionRate sampleDB (map Founder._id (founders sampleDB)) "2025-06"
     = 100%float.
Proof.
  split; [|split; [|split; [|split; [|split]]]].
  - intros db adminId currentMonth H.
    unfold AdminDashboardService.metricsCompletionRate. rewrite H. simpl.
    unfold AdminDashboardService.foundersWithCurrentMonthMetrics. simpl.
    replace (filter _ (foundermetrics db)) with (@nil FounderMetrics.t); [reflexivity|].
    induction (foundermetrics db) as [|m l IH]; simpl; auto.
  - intros db adminId currentMonth ids H Hne done.
    unfold AdminDashboardService.metricsCompletionRate. rewrite H. simpl.
    destruct ids as [|i ids]; [contradiction|]. reflexivity.
  - intros db ids currentMonth.
    unfold AdminDashboardService.foundersWithCurrentMonthMetrics.
    destruct (FounderMetrics_distinct_spec
                (filter (fun m => existsb (fun id => id =? FounderMetrics.founderId m) ids
                                  && (FounderMetrics.month m =? currentMonth))
                        (foundermetrics db))) as [Hnd Hin].
    split; [exact Hnd|]. intros f. rewrite Hin. split.
    + intros (m & Hm & <-). apply filter_In in Hm. destruct Hm as [Hm Hk].
      apply andb_true_iff in Hk. destruct Hk as [Hk1 Hk2].
      apply existsb_eqb_In in Hk1. apply String.eqb_eq in Hk2. eauto.
    + intros (Hf & m & Hm & <- & Hmonth). exists m. split; [|reflexivity].
      apply filter_In. split; [assumption|].
      apply andb_true_iff. split; [apply existsb_eqb_In; assumption|].
      apply String.eqb_eq. assumption.
  - intros db month H. unfold DashboardService.completionRate. rewrite H. reflexivity.
  - intros db month H counted. split.
    + unfold DashboardService.completionRate.
      destruct (founders db); [contradiction | reflexivity].
    + destruct (FounderMetrics_distinct_spec
                  (filter (fun m => FounderMetrics.month m =? month) (foundermetrics db)))
        as [Hnd Hin].
      split; [exact Hnd|]. intros f. unfold counted. rewrite Hin. split.
      * intros (m & Hm & <-). apply filter_In in Hm. destruct Hm as [Hm Hk].
        apply String.eqb_eq in Hk. eauto.
      * intros (m & Hm & <- & Hmonth). exists m. split; [|reflexivity].
        apply filter_In. split; [assumption|]. apply String.eqb_eq. assumption.
  - repeat split; reflexivity.
Qed.

Lemma completion_rate_guarded_witness :
  AdminDashboardService.metricsCompletionRate sampleDB "A2" "2025-06"
  = Ok (AdminDashboardService.mkMetricsCompletionRate 0%float 0 0)
  /\ AdminDashboardService.metricsCompletionRate sampleDB "A1" "2025-06"
     = Ok (AdminDashboardService.mkMetricsCompletionRate 100%float 1 1)
  /\ DashboardService.completionRate sampleDB "2025-05" = 100%float
  /\ DashboardService.completionRate sampleDB "2025-06" = 150%float.
Proof.
  destruct completion_rate_guarded
    as (Hempty & Hscope & _ & _ & Hall & _ & _ & _ & Hjune & _).
  split; [apply Hempty; reflexivity|].
  split; [|split].
  - exact (eq_trans (Hscope sampleDB "A1" "2025-06" ["fd1"] eq_refl
                       ltac:(discriminate)) eq_refl).
  - exact (eq_trans (proj1 (Hall sampleDB "2025-05" ltac:(discriminate))) eq_refl).
  - exact Hjune.
Defined.

(** ** The theorems on the sample database *)

Section SampleAssignments.
#[local] Existing Instance sampleObjectIds.

Lemma replaceAssignments_exact_witness :
  exists db',
    AssignmentService.assignAdminsToFounder sampleDB "F1" ["A2"] "S1" 60%Z = (db', Ok tt)
    /\ edgesOf db' "fd1" = [Assignment.mk "fd1" "A2" "S1" 60%Z]
    /\ AssignmentService.isAssigned db' "A2" "F1" = Ok true
    /\ AssignmentService.isAssigned db' "A1" "F1" = Ok false.
Proof.
  assert (Hnd : NoDup ["A2"]) by (constructor; [intros [] | constructor]).
  destruct (replaceAssignments_exact (oid := sampleObjectIds) sampleDB "F1" ["A2"] "S1" 60%Z
              (Founder.mk "fd1" "F1" "Acme" None)
              (User.mk "F1" "Fay" "fay@example.com" Role.founder)
              sampleDB_unique eq_refl eq_refl eq_refl eq_refl eq_refl Hnd)
    as (db' & Hcall & Hedges & _ & Hin & Hprior).
  exists db'. split; [exact Hcall|]. split; [exact Hedges|]. split.
  - apply Hin. left. reflexivity.
  - apply Hprior; [left; reflexivity | intros [H|[]]; discriminate].
Defined.

(** The call for founder F1 with the admin ids A2 and F2, a user that is
    no admin, and with A2 and "not-an-id". *)
Lemma replaceAssignments_all_or_nothing_witness :
  isValidAdminId sampleDB "F2" = false
  /\ (exists e,
        AssignmentService.assignAdminsToFounder sampleDB "F1" ["A2"; "F2"] "S1" 60%Z
        = (sampleDB, Err e)
        /\ (isNotFound e = true \/ isInvalidRole e = true))
  /\ isValidAdminId sampleDB "not-an-id" = false
  /\ AssignmentService.assignAdminsToFounder sampleDB "F1" ["A2"; "not-an-id"] "S1" 60%Z
     = (sampleDB, Err (CastError "userId"))
  /\ isNotFound (CastError "userId") = false
  /\ isInvalidRole (CastError "userId") = false.
Proof.
  split; [reflexivity|]. split.
  - destruct (proj1 (proj2 (replaceAssignments_all_or_nothing sampleDB "F1" ["A2"; "F2"]
                              "S1" 60%Z))) as (e & He & Hstatus).
    + exists "F2". split; [right; left; reflexivity | reflexivity].
    + exists e. split; [exact He | apply Hstatus; reflexivity].
  - split; [reflexivity|]. split; [|split; reflexivity].
    apply (proj1 (proj2 (proj2 (replaceAssignments_all_or_nothing sampleDB "F1"
                                  ["A2"; "not-an-id"] "S1" 60%Z)))
             (Founder.mk "fd1" "F1" "Acme" None)
             (User.mk "F1" "Fay" "fay@example.com" Role.founder)
             ["A2"] "not-an-id" []); reflexivity.
Defined.

Lemma replaceAssignments_idempotent_witness :
  snd (AssignmentService.assignAdminsToFounder sampleDB "F1" ["A1"; "A2"] "S1" 60%Z) = Ok tt
  /\ snd (AssignmentService.assignAdminsToFounder
            (fst (AssignmentService.assignAdminsToFounder sampleDB "F1" ["A1"; "A2"] "S1" 60%Z))
            "F1" ["A1"; "A2"] "S1" 60%Z) = Ok tt
  /\ fst (AssignmentService.assignAdminsToFounder
            (fst (AssignmentService.assignAdminsToFounder sampleDB "F1" ["A1"; "A2"] "S1" 60%Z))
            "F1" ["A1"; "A2"] "S1" 60%Z)
     = fst (AssignmentService.assignAdminsToFounder sampleDB "F1" ["A1"; "A2"] "S1" 60%Z).
Proof.
  destruct (replaceAssignments_idempotent sampleDB "F1" ["A1"; "A2"] "S1" 60%Z 60%Z)
    as (Hres & _ & _ & Hsame).
  split; [reflexivity|]. split; [reflexivity|]. apply Hsame. reflexivity.
Defined.

End SampleAssignments.

(** * Further properties *)

(** ** Removing one assignment *)

Lemma Assignment_findOne_None (l : list Assignment.t) (f a : ObjectId) :
  Assignment_findOne l f a = None <-> ~ In (f, a) (map assignmentKey l).
Proof.
  unfold Assignment_findOne. induction l as [|x l IH]; simpl; [tauto|].
  destruct (String.eqb_spec (Assignment.founderId x) f) as [E1|E1];
    destruct (String.eqb_spec (Assignment.adminId x) a) as [E2|E2]; simpl.
  - split; [discriminate|]. intros H. exfalso. apply H. left.
    unfold assignmentKey. congruence.
  - rewrite IH. unfold assignmentKey at 2. split; [|tauto].
    intros H [H'|H']; [congruence | auto].
  - rewrite IH. unfold assignmentKey at 2. split; [|tauto].
    intros H [H'|H']; [congruence | auto].
  - rewrite IH. unfold assignmentKey at 2. split; [|tauto].
    intros H [H'|H']; [congruence | auto].
Qed.

(** [deleteOne] takes out the document [findOne] returns, and no other. *)
Lemma Assignment_deleteOne_split (l : list Assignment.t) (f a : ObjectId) (x : Assignment.t) :
  Assignment_findOne l f a = Some x ->
  exists l1 l2,
    l = l1 ++ x :: l2
    /\ assignmentKey x = (f, a)
    /\ Assignment_findOne l1 f a = None
    /\ Assignment_deleteOne l f a = l1 ++ l2.
Proof.
  unfold Assignment_findOne. induction l as [|y l IH]; simpl; [discriminate|].
  destruct ((Assignment.founderId y =? f) && (Assignment.adminId y =? a)) eqn:E.
  - intros H. inversion H; subst. exists [], l. repeat split.
    apply andb_true_iff in E. destruct E as [E1 E2].
    apply String.eqb_eq in E1. apply String.eqb_eq in E2.
    unfold assignmentKey. congruence.
  - intros H. destruct (IH H) as (l1 & l2 & -> & Hk & Hnone & Hdel).
    exists (y :: l1), l2. simpl. rewrite E, Hdel. repeat split; assumption.
Qed.

Lemma Assignment_deleteOne_absent (l : list Assignment.t) (f a : ObjectId) :
  Assignment_findOne l f a = None -> Assignment_deleteOne l f a = l.
Proof.
  unfold Assignment_findOne. induction l as [|y l IH]; simpl; [reflexivity|].
  destruct ((Assignment.founderId y =? f) && (Assignment.adminId y =? a)); [discriminate|].
  intros H. f_equal. auto.
Qed.

Lemma Assignment_deleteOne_app (l1 l2 : list Assignment.t) (f a : ObjectId) :
  Assignment_findOne l1 f a = None ->
  Assignment_deleteOne (l1 ++ l2) f a = l1 ++ Assignment_deleteOne l2 f a.
Proof.
  unfold Assignment_findOne. induction l1 as [|y l1 IH]; simpl; [reflexivity|].
  destruct ((Assignment.founderId y =? f) && (Assignment.adminId y =? a)); [discriminate|].
  intros H. f_equal. auto.
Qed.

Lemma without_absent (a : ObjectId) (ids : list ObjectId) :
  ~ In a ids -> without a ids = ids.
Proof.
  unfold without. induction ids as [|b ids IH]; simpl; intros H; [reflexivity|].
  destruct (String.eqb_spec b a) as [E|E]; simpl; [exfalso; auto|].
  f_equal. apply IH. tauto.
Qed.

Lemma Assignment_deleteOne_edges (f by_ : ObjectId) (now : Date) (ids : list ObjectId)
    (a : ObjectId) :
  NoDup ids ->
  Assignment_deleteOne (map (edge f by_ now) ids) f a = map (edge f by_ now) (without a ids).
Proof.
  induction ids as [|b ids IH]; simpl; intros Hnd; [reflexivity|].
  inversion Hnd as [|? ? Hnotin Hnd']; subst.
  rewrite String.eqb_refl. simpl.
  destruct (String.eqb_spec b a) as [E|E]; simpl.
  - subst. rewrite without_absent by assumption. reflexivity.
  - f_equal. apply IH. assumption.
Qed.

(** X1. [deleteAssignment] goes through exactly when the two ids are
    ObjectIds, the admin has its profile and [isAdminAssignedToFounder]
    accepts the pair; it then writes the collection without the first edge
    of the pair. In every other case it throws and the database is the one
    it was given: the cast error of the lookup when the admin id is no
    ObjectId, or when the admin has its profile and the founder id is no
    ObjectId, and 404 otherwise. *)
Theorem deleteAssignment_guard {oid : ObjectIds} (db : DB) (adminId founderId : ObjectId) :
  (ObjectId_isValid adminId = true
   /\ ObjectId_isValid founderId = true
   /\ Admin_findOne_userId db adminId <> None
   /\ AssignmentService.isAssigned db adminId founderId = Ok true
   /\ exists founder,
        Founder_findOne_userId db founderId = Some founder
        /\ AssignmentService.deleteAssignment db adminId founderId
           = (set_assignments db
                (Assignment_deleteOne (assignments db) (Founder._id founder) adminId),
              Ok tt))
  \/ ((ObjectId_isValid adminId = false
       \/ (Admin_findOne_userId db adminId <> None /\ ObjectId_isValid founderId = false))
      /\ AssignmentService.deleteAssignment db adminId founderId
         = (db, Err (CastError "userId")))
  \/ (ObjectId_isValid adminId = true
      /\ (Admin_findOne_userId db adminId = None
          \/ (ObjectId_isValid founderId = true
              /\ AssignmentService.isAssigned db adminId founderId = Ok false))
      /\ exists e,
           AssignmentService.deleteAssignment db adminId founderId = (db, Err e)
           /\ isNotFound e = true).
Proof.
  rewrite isAssigned_eq. unfold AssignmentService.deleteAssignment, castObjectId.
  destruct (ObjectId_isValid adminId); [|right; left; split; [left|]; reflexivity].
  destruct (Admin_findOne_userId db adminId) as [ad|];
    [|right; right; split; [reflexivity|]; split; [left; reflexivity|];
      eexists; split; reflexivity].
  destruct (ObjectId_isValid founderId);
    [|right; left; split; [right; split; [discriminate | reflexivity] | reflexivity]].
  destruct (Founder_findOne_userId db founderId) as [f|].
  - destruct (Assignment_findOne (assignments db) (Founder._id f) adminId) as [x|].
    + left. split; [reflexivity|]. split; [reflexivity|]. split; [discriminate|].
      split; [reflexivity|]. exists f. split; reflexivity.
    + right; right. split; [reflexivity|]. split; [right; split; reflexivity|].
      eexists. split; reflexivity.
  - right; right. split; [reflexivity|]. split; [right; split; reflexivity|].
    eexists. split; reflexivity.
Qed.

(** X2. Under the unique index on (founderId, adminId), a successful
    [deleteAssignment] takes exactly one edge out, the one of the pair: the
    pair is no longer assigned, every other pair is looked up as before,
    the pairs of every other admin are assigned as before, the index still
    holds and the other collections are untouched. *)
Theorem deleteAssignment_unassigns {oid : ObjectIds} (db db' : DB) (adminId founderId : ObjectId) :
  assignmentIndex db ->
  AssignmentService.deleteAssignment db adminId founderId = (db', Ok tt) ->
  AssignmentService.isAssigned db' adminId founderId = Ok false
  /\ (exists founder l1 x l2,
        Founder_findOne_userId db founderId = Some founder
        /\ assignmentKey x = (Founder._id founder, adminId)
        /\ assignments db = l1 ++ x :: l2
        /\ assignments db' = l1 ++ l2
        /\ forall f a,
             (f, a) <> (Founder._id founder, adminId) ->
             Assignment_findOne (assignments db') f a = Assignment_findOne (assignments db) f a)
  /\ (forall a f, a <> adminId ->
        AssignmentService.isAssigned db' a f = AssignmentService.isAssigned db a f)
  /\ assignmentIndex db'
  /\ users db' = users db /\ founders db' = founders db /\ admins db' = admins db
  /\ foundermetrics db' = foundermetrics db.
Proof.
  unfold assignmentIndex. intros Hidx.
  unfold AssignmentService.deleteAssignment, castObjectId.
  destruct (ObjectId_isValid adminId); [|discriminate].
  destruct (Admin_findOne_userId db adminId) as [ad|]; [|discriminate].
  destruct (ObjectId_isValid founderId); [|discriminate].
  destruct (Founder_findOne_userId db founderId) as [fd|] eqn:Hfd; [|discriminate].
  destruct (Assignment_findOne (assignments db) (Founder._id fd) adminId) as [x|] eqn:Hx;
    [|discriminate].
  intros H. inversion H; subst db'. clear H.
  destruct (Assignment_deleteOne_split _ _ _ _ Hx) as (l1 & l2 & Hl & Hk & Hnone & Hdel).
  rewrite Hdel. cbn [assignments users founders admins foundermetrics set_assignments].
  rewrite Hl in Hidx. rewrite map_app in Hidx. simpl in Hidx.
  pose proof (NoDup_remove_1 _ _ _ Hidx) as Hidx'.
  pose proof (NoDup_remove_2 _ _ _ Hidx) as Hgone.
  rewrite <- map_app, Hk in Hgone. rewrite <- map_app in Hidx'.
  assert (Hother : forall f a,
             (f, a) <> (Founder._id fd, adminId) ->
             Assignment_findOne (l1 ++ l2) f a = Assignment_findOne (assignments db) f a).
  { intros f a Hne. rewrite Hl, !Assignment_findOne_app.
    destruct (Assignment_findOne l1 f a); [reflexivity|].
    unfold Assignment_findOne at 2. simpl.
    destruct ((Assignment.founderId x =? f) && (Assignment.adminId x =? a)) eqn:E;
      [|reflexivity].
    exfalso. apply Hne. apply andb_true_iff in E. destruct E as [E1 E2].
    apply String.eqb_eq in E1. apply String.eqb_eq in E2.
    unfold assignmentKey in Hk. congruence. }
  split; [|split; [|split; [|split]]].
  - rewrite isAssigned_eq.
    change (Founder_findOne_userId (set_assignments db (l1 ++ l2)) founderId)
      with (Founder_findOne_userId db founderId).
    rewrite Hfd. cbn [assignments set_assignments].
    apply Assignment_findOne_None in Hgone. rewrite Hgone. reflexivity.
  - exists fd, l1, x, l2. repeat split; assumption.
  - intros a f Hne. rewrite !isAssigned_eq.
    change (Founder_findOne_userId (set_assignments db (l1 ++ l2)) f)
      with (Founder_findOne_userId db f).
    destruct (Founder_findOne_userId db f) as [g|]; [|reflexivity].
    cbn [assignments set_assignments]. rewrite Hother; [reflexivity | congruence].
  - exact Hidx'.
  - repeat split; reflexivity.
Qed.

Lemma sampleDB_assignmentIndex : assignmentIndex sampleDB.
Proof.
  unfold assignmentIndex. simpl. repeat (constructor; [simpl; intuition discriminate|]).
  constructor.
Defined.

Section SampleDeleteAssignmentUnassigns.
#[local] Existing Instance sampleObjectIds.

Lemma deleteAssignment_unassigns_witness :
  AssignmentService.isAssigned sampleDB "A1" "F1" = Ok true
  /\ AssignmentService.isAssigned
       (fst (AssignmentService.deleteAssignment sampleDB "A1" "F1")) "A1" "F1" = Ok false.
Proof.
  split; [reflexivity|].
  apply (deleteAssignment_unassigns sampleDB
           (fst (AssignmentService.deleteAssignment sampleDB "A1" "F1")) "A1" "F1"
           sampleDB_assignmentIndex).
  reflexivity.
Defined.

End SampleDeleteAssignmentUnassigns.

Lemma forallb_without (P : ObjectId -> bool) (a : ObjectId) (ids : list ObjectId) :
  forallb P ids = true -> forallb P (without a ids) = true.
Proof.
  rewrite !forallb_forall. intros H x Hx. apply H.
  unfold without in Hx. apply filter_In in Hx. tauto.
Qed.

Lemma In_without (a b : ObjectId) (ids : list ObjectId) :
  In b (without a ids) <-> In b ids /\ b <> a.
Proof.
  unfold without. rewrite filter_In, negb_true_iff. 
  destruct (String.eqb_spec b a); split; intros [H1 H2]; split; congruence.
Qed.

(** X3. A replacement followed by the removal of one of its admins: the
    removal succeeds, [getAssignedAdmins] then lists the admins of the
    replacement without the removed one, in their order, and removing the
    same admin again is refused with 404 and changes nothing. *)
Theorem replace_then_delete {oid : ObjectIds} (db db1 : DB) (founderId : ObjectId)
    (adminIds : list ObjectId) (assignedBy : ObjectId) (now : Date) (a : ObjectId) :
  uniqueProfiles db ->
  AssignmentService.assignAdminsToFounder db founderId adminIds assignedBy now = (db1, Ok tt) ->
  In a adminIds ->
  exists db2 rows,
    AssignmentService.deleteAssignment db1 a founderId = (db2, Ok tt)
    /\ AssignmentService.getAssignedAdmins db2 founderId = Ok rows
    /\ map AssignmentService.adminId rows = without a adminIds
    /\ AssignmentService.isAssigned db2 a founderId = Ok false
    /\ (forall b, In b adminIds -> b <> a ->
          AssignmentService.isAssigned db2 b founderId = Ok true)
    /\ AssignmentService.deleteAssignment db2 a founderId
       = (db2, Err (AppError "Assignment not found" 404)).
Proof.
  intros Huniq Hassign Hin.
  pose proof (assignAdminsToFounder_Ok_cast _ _ _ _ _ _ Hassign) as Hcf.
  destruct (assignAdminsToFounder_Ok _ _ _ _ _ _ Hassign) as (fd & Hfd & Hvalid & Hnd & ->).
  set (D := Assignment_deleteMany (assignments db) (Founder._id fd)).
  assert (Hada : ObjectId_isValid a = true /\ Admin_findOne_userId db a <> None).
  { rewrite forallb_forall in Hvalid. specialize (Hvalid a Hin).
    apply isValidAdminId_true in Hvalid. destruct Hvalid as (Hc & ad & u & Had & _).
    split; [exact Hc | congruence]. }
  destruct Hada as [Hca Hada].
  assert (Hfind : forall ids b,
             Assignment_findOne (D ++ map (edge (Founder._id fd) assignedBy now) ids)
               (Founder._id fd) b
             = if existsb (fun c => c =? b) ids
               then Some (edge (Founder._id fd) assignedBy now b) else None).
  { intros ids b. rewrite Assignment_findOne_app. unfold D.
    rewrite Assignment_findOne_deleted. apply Assignment_findOne_edges. }
  assert (Hdel : Assignment_deleteOne
                   (D ++ map (edge (Founder._id fd) assignedBy now) adminIds)
                   (Founder._id fd) a
                 = D ++ map (edge (Founder._id fd) assignedBy now) (without a adminIds)).
  { rewrite Assignment_deleteOne_app by apply Assignment_findOne_deleted.
    rewrite Assignment_deleteOne_edges by assumption. reflexivity. }
  assert (Hnot : existsb (fun c => c =? a) (without a adminIds) = false).
  { destruct (existsb (fun c => c =? a) (without a adminIds)) eqn:E; [|reflexivity].
    apply existsb_eqb_In in E. apply In_without in E. tauto. }
  exists (set_assignments db
            (D ++ map (edge (Founder._id fd) assignedBy now) (without a adminIds))).
  eexists.
  split; [|split; [|split; [|split; [|split]]]].
  - unfold AssignmentService.deleteAssignment, castObjectId. rewrite Hca, Hcf.
    change (Admin_findOne_userId (set_assignments db _) a) with (Admin_findOne_userId db a).
    change (Founder_findOne_userId (set_assignments db _) founderId)
      with (Founder_findOne_userId db founderId).
    destruct (Admin_findOne_userId db a); [|congruence].
    rewrite Hfd. cbn [assignments set_assignments]. rewrite Hfind.
    apply existsb_eqb_In in Hin. rewrite Hin, Hdel. reflexivity.
  - unfold AssignmentService.getAssignedAdmins, castObjectId. rewrite Hcf. cbn [bindR].
    change (Founder_findOne_userId (set_assignments db _) founderId)
      with (Founder_findOne_userId db founderId).
    rewrite Hfd. reflexivity.
  - match goal with
    | |- context [filter ?p (assignments ?d)] =>
        change (filter p (assignments d)) with (edgesOf d (Founder._id fd))
    end.
    unfold D. rewrite edgesOf_replaced.
    cbn [users admins set_assignments].
    apply getAssignedAdmins_rows; [assumption | apply forallb_without; assumption].
  - rewrite isAssigned_eq.
    change (Founder_findOne_userId (set_assignments db _) founderId)
      with (Founder_findOne_userId db founderId).
    rewrite Hfd. cbn [assignments set_assignments]. rewrite Hfind, Hnot. reflexivity.
  - intros b Hb Hne. rewrite isAssigned_eq.
    change (Founder_findOne_userId (set_assignments db _) founderId)
      with (Founder_findOne_userId db founderId).
    rewrite Hfd. cbn [assignments set_assignments]. rewrite Hfind.
    assert (E : existsb (fun c => c =? b) (without a adminIds) = true)
      by (apply existsb_eqb_In, In_without; auto).
    rewrite E. reflexivity.
  - unfold AssignmentService.deleteAssignment, castObjectId. rewrite Hca, Hcf.
    change (Admin_findOne_userId (set_assignments db _) a) with (Admin_findOne_userId db a).
    change (Founder_findOne_userId (set_assignments db _) founderId)
      with (Founder_findOne_userId db founderId).
    destruct (Admin_findOne_userId db a); [|congruence].
    rewrite Hfd. cbn [assignments set_assignments]. rewrite Hfind, Hnot. reflexivity.
Qed.

Section SampleReplaceThenDelete.
#[local] Existing Instance sampleObjectIds.

Lemma replace_then_delete_witness :
  exists db2 rows,
    AssignmentService.deleteAssignment
      (fst (AssignmentService.assignAdminsToFounder sampleDB "F1" ["A1"; "A2"] "S1" 60%Z))
      "A1" "F1" = (db2, Ok tt)
    /\ AssignmentService.getAssignedAdmins db2 "F1" = Ok rows
    /\ map AssignmentService.adminId rows = ["A2"].
Proof.
  assert (Hcall : AssignmentService.assignAdminsToFounder sampleDB "F1" ["A1"; "A2"] "S1" 60%Z
                  = (fst (AssignmentService.assignAdminsToFounder sampleDB "F1" ["A1"; "A2"]
                            "S1" 60%Z), Ok tt)) by reflexivity.
  destruct (replace_then_delete sampleDB _ "F1" ["A1"; "A2"] "S1" 60%Z "A1" sampleDB_unique
              Hcall (or_introl eq_refl))
    as (db2 & rows & H1 & H2 & H3 & _).
  exists db2, rows. split; [exact H1|]. split; [exact H2 | exact H3].
Defined.

End SampleReplaceThenDelete.

(** The admins [getAssignedAdmins] lists for a founder profile: those with
    an edge to it, an admin profile and a user. *)
Lemma getAssignedAdmins_In {oid : ObjectIds} (db : DB) (founderId : ObjectId)
    (founder : Founder.t) (a : ObjectId) :
  ObjectId_isValid founderId = true ->
  Founder_findOne_userId db founderId = Some founder ->
  exists rows,
    AssignmentService.getAssignedAdmins db founderId = Ok rows
    /\ (In a (map AssignmentService.adminId rows) <->
        AssignmentService.isAssigned db a founderId = Ok true
        /\ Admin_findOne_userId db a <> None
        /\ User_findById db a <> None).
Proof.
  intros Hcf Hfd. unfold AssignmentService.getAssignedAdmins, castObjectId.
  rewrite Hcf. cbn [bindR]. rewrite Hfd.
  eexists. split; [reflexivity|].
  rewrite isAssigned_eq, Hfd. split.
  - intros Hin. apply in_map_iff in Hin. destruct Hin as (row & Hrow & Hin).
    apply in_flat_map in Hin. destruct Hin as (x & Hx & Hin).
    apply in_flat_map in Hin. destruct Hin as (ad & Had & Hin).
    apply in_map_iff in Hin. destruct Hin as (u & Hu & Huin).
    subst row. simpl in Hrow.
    apply filter_In in Hx. destruct Hx as [Hx Hxf]. apply String.eqb_eq in Hxf.
    apply filter_In in Had. destruct Had as [Had Hadk]. apply String.eqb_eq in Hadk.
    apply filter_In in Huin. destruct Huin as [Huin Huk]. apply String.eqb_eq in Huk.
    split; [|split].
    + destruct (Assignment_findOne (assignments db) (Founder._id founder) a) eqn:E;
        [reflexivity|].
      exfalso. unfold Assignment_findOne in E. apply (find_none _ _ E) in Hx.
      rewrite Hxf, Hrow, !String.eqb_refl in Hx. discriminate.
    + intros Hnone. apply (find_key_None Admin.userId) in Hnone. apply Hnone.
      rewrite <- Hrow, <- Hadk. apply in_map. assumption.
    + intros Hnone. apply (find_key_None User._id) in Hnone. apply Hnone.
      rewrite <- Hrow, <- Huk. apply in_map. assumption.
  - intros (Hass & Had & Hu).
    destruct (Assignment_findOne (assignments db) (Founder._id founder) a) as [x|] eqn:E;
      [|discriminate].
    apply find_some in E. destruct E as [Hx Hk]. apply andb_true_iff in Hk.
    destruct Hk as [Hk1 Hk2]. apply String.eqb_eq in Hk2.
    destruct (Admin_findOne_userId db a) as [ad|] eqn:Ead; [|congruence].
    destruct (User_findById db a) as [u|] eqn:Eu; [|congruence].
    apply find_some in Ead. destruct Ead as [Hadin Hadk].
    apply find_some in Eu. destruct Eu as [Huin Huk].
    apply in_map_iff.
    exists (AssignmentService.mkAdminDetails (Assignment.adminId x) (User.name u) (User.email u)).
    split; [exact Hk2|].
    apply in_flat_map. exists x. split; [apply filter_In; auto|].
    apply in_flat_map. exists ad. split; [apply filter_In; rewrite Hk2; auto|].
    apply in_map_iff. exists u. split; [reflexivity|].
    apply filter_In. rewrite Hk2. auto.
Qed.

(** X4. [getAssignedAdmins] against the assignment check. For a founder id
    that is an ObjectId: when the founder has a profile, the admins listed
    are exactly those the check accepts that have an admin profile and a
    user; when it has none, the call throws 404, and the check accepts no
    admin. For a string that is no ObjectId the call throws the cast error
    of the lookup. *)
Theorem getAssignedAdmins_agrees_with_check {oid : ObjectIds} (db : DB)
    (founderId : ObjectId) :
  match AssignmentService.getAssignedAdmins db founderId with
  | Ok rows =>
      ObjectId_isValid founderId = true
      /\ Founder_findOne_userId db founderId <> None
      /\ forall a,
           In a (map AssignmentService.adminId rows) <->
           AssignmentService.isAssigned db a founderId = Ok true
           /\ Admin_findOne_userId db a <> None
           /\ User_findById db a <> None
  | Err e =>
      (ObjectId_isValid founderId = false /\ e = CastError "userId")
      \/ (ObjectId_isValid founderId = true
          /\ Founder_findOne_userId db founderId = None
          /\ isNotFound e = true
          /\ forall a, AssignmentService.isAssigned db a founderId = Ok false)
  end.
Proof.
  destruct (ObjectId_isValid founderId) eqn:Hcf.
  - destruct (Founder_findOne_userId db founderId) as [fd|] eqn:Hfd.
    + destruct (AssignmentService.getAssignedAdmins db founderId) as [rows|e] eqn:Hrows.
      * split; [reflexivity|]. split; [discriminate|].
        intros a. destruct (getAssignedAdmins_In db founderId fd a Hcf Hfd)
          as (rows' & H1 & H2).
        rewrite Hrows in H1. inversion H1; subst. exact H2.
      * unfold AssignmentService.getAssignedAdmins, castObjectId in Hrows.
        rewrite Hcf in Hrows. cbn [bindR] in Hrows. rewrite Hfd in Hrows. discriminate.
    + unfold AssignmentService.getAssignedAdmins, castObjectId. rewrite Hcf. cbn [bindR].
      rewrite Hfd. right. split; [reflexivity|]. split; [reflexivity|].
      split; [reflexivity|].
      intros a. rewrite isAssigned_eq, Hfd. reflexivity.
  - unfold AssignmentService.getAssignedAdmins, castObjectId. rewrite Hcf. cbn [bindR].
    left. split; reflexivity.
Qed.

(** X5. The two listings of the assignment service agree: for an admin
    with its profile and role and a founder with its profile, known under
    an id that is an ObjectId, the admin is among the admins listed for the
    founder exactly when the founder is among the founders listed for the
    admin. *)
Theorem assignment_listings_agree {oid : ObjectIds} (db : DB) (adminId founderId : ObjectId)
    (founder : Founder.t) :
  uniqueProfiles db ->
  foundersHaveUsers db ->
  isValidAdminId db adminId = true ->
  ObjectId_isValid founderId = true ->
  Founder_findOne_userId db founderId = Some founder ->
  exists admins founders,
    AssignmentService.getAssignedAdmins db founderId = Ok admins
    /\ AssignmentService.getAssignedFounders db adminId = Ok founders
    /\ (In adminId (map AssignmentService.adminId admins) <->
        In founderId (map AssignmentService.af_founderId founders)).
Proof.
  intros Huniq Husers Hadmin Hcf Hfd.
  destruct (getAssignedAdmins_In db founderId founder adminId Hcf Hfd)
    as (rowsA & HA & HinA).
  destruct (getAssignedFounders_isAssigned db adminId founderId Huniq Husers Hadmin)
    as (rowsF & HF & Hcheck).
  exists rowsA, rowsF. split; [exact HA|]. split; [exact HF|].
  rewrite HinA, Hcheck, <- existsb_eqb_In.
  apply isValidAdminId_true in Hadmin. destruct Hadmin as (_ & ad & u & Had & Hu & _).
  rewrite Had, Hu.
  split.
  - intros (H & _). inversion H as [E]. rewrite E. reflexivity.
  - intros H. rewrite H. repeat split; discriminate.
Qed.

Section SampleAssignmentListingsAgree.
#[local] Existing Instance sampleObjectIds.

Lemma assignment_listings_agree_witness :
  exists admins founders,
    AssignmentService.getAssignedAdmins sampleDB "F1" = Ok admins
    /\ AssignmentService.getAssignedFounders sampleDB "A1" = Ok founders
    /\ (In "A1" (map AssignmentService.adminId admins) <->
        In "F1" (map AssignmentService.af_founderId founders)).
Proof.
  exact (assignment_listings_agree (oid := sampleObjectIds) sampleDB "A1" "F1"
           (Founder.mk "fd1" "F1" "Acme" None)
           sampleDB_unique sampleDB_foundersHaveUsers eq_refl eq_refl eq_refl).
Defined.

End SampleAssignmentListingsAgree.

(** ** Writing and deleting metrics *)

Lemma FounderMetrics_updateOne_In (l : list FounderMetrics.t) (old doc : FounderMetrics.t) :
  In old l -> FounderMetrics._id doc = FounderMetrics._id old ->
  In doc (FounderMetrics_updateOne l doc).
Proof.
  intros Hin Hid. induction l as [|m l IH]; simpl; [contradiction|].
  destruct (String.eqb_spec (FounderMetrics._id m) (FounderMetrics._id doc)) as [E|E].
  - left. reflexivity.
  - right. apply IH. destruct Hin as [->|Hin]; [congruence | assumption].
Qed.

Lemma FounderMetrics_updateOne_incl (l : list FounderMetrics.t) (doc x : FounderMetrics.t) :
  In x (FounderMetrics_updateOne l doc) -> x = doc \/ In x l.
Proof.
  induction l as [|m l IH]; simpl; [tauto|].
  destruct (FounderMetrics._id m =? FounderMetrics._id doc); simpl; intuition.
Qed.

Lemma set_foundermetrics_same (db : DB) : set_foundermetrics db (foundermetrics db) = db.
Proof. destruct db. reflexivity. Qed.

(** The two outcomes of the service's upload: an error and the database as
    it was, or a stored document of the founder, month and uploader of the
    call, which passed the schema, in a collection that keeps its indexes
    and the validity of its documents. *)
Lemma uploadMetrics_cases (db : DB) (F U : ObjectId) (M : string)
    (data : MetricsService.MetricsData) (newId : ObjectId) (now : Date) :
  (exists e, MetricsService.uploadMetrics db F U M data newId now = (db, Err e))
  \/ (exists r l',
        MetricsService.uploadMetrics db F U M data newId now = (set_foundermetrics db l', Ok r)
        /\ FounderMetrics.founderId r = F
        /\ FounderMetrics.month r = M
        /\ FounderMetrics.uploadedBy r = U
        /\ In r l'
        /\ FounderMetrics_validate r = Ok tt
        /\ (metricsIndexes db -> metricsIndexes (set_foundermetrics db l'))
        /\ (storedValid db -> storedValid (set_foundermetrics db l'))).
Proof.
  unfold MetricsService.uploadMetrics.
  destruct (FounderMetrics_findOne (foundermetrics db) F M) as [old|] eqn:Hfind.
  - fold (overwritten old U data now).
    destruct (FounderMetrics_validate (overwritten old U data now)) as [[]|e] eqn:Hval;
      [|left; eauto].
    right. exists (overwritten old U data now),
             (FounderMetrics_updateOne (foundermetrics db) (overwritten old U data now)).
    unfold FounderMetrics_findOne in Hfind. fold (sameKey F M) in Hfind.
    pose proof (find_some _ _ Hfind) as [Hin Hkey].
    apply sameKey_iff in Hkey. unfold metricsKey in Hkey.
    split; [reflexivity|]. split; [simpl; congruence|]. split; [simpl; congruence|].
    split; [reflexivity|].
    split; [apply (FounderMetrics_updateOne_In _ old); [assumption | reflexivity]|].
    split; [exact Hval|]. split.
    + intros [Hid Hk].
      destruct (find_sameKey_split F M _ old Hid Hk Hfind)
        as (l1 & l2 & Hl & _ & _ & _ & Hi1).
      unfold metricsIndexes. cbn [foundermetrics set_foundermetrics].
      rewrite Hl in Hid, Hk |- *. rewrite FounderMetrics_updateOne_split by auto.
      split; [eapply NoDup_map_replace; [|exact Hid] | eapply NoDup_map_replace; [|exact Hk]];
        reflexivity.
    + intros Hvalid x Hx. cbn [foundermetrics set_foundermetrics] in Hx.
      apply FounderMetrics_updateOne_incl in Hx. destruct Hx as [->|Hx]; auto.
  - fold (created newId F U M data now).
    destruct (FounderMetrics_validate (created newId F U M data now)) as [[]|e] eqn:Hval;
      [|left; eauto].
    unfold FounderMetrics_insertOne.
    destruct (existsb _ (foundermetrics db)) eqn:Hex; [left; eauto|].
    change (FounderMetrics.founderId (created newId F U M data now)) with F.
    change (FounderMetrics.month (created newId F U M data now)) with M.
    rewrite Hfind. right.
    exists (created newId F U M data now), (foundermetrics db ++ [created newId F U M data now]).
    split; [reflexivity|]. split; [reflexivity|]. split; [reflexivity|].
    split; [reflexivity|].
    split; [apply in_or_app; right; left; reflexivity|].
    split; [exact Hval|]. split.
    + intros [Hid Hk]. unfold metricsIndexes. cbn [foundermetrics set_foundermetrics].
      split; apply NoDup_map_snoc; try assumption.
      * intros Hin. apply in_map_iff in Hin. destruct Hin as (m & Hm & Hmin).
        match type of Hex with
        | ?t = false =>
            assert (Hcontra : t = true)
              by (apply existsb_exists; exists m; split;
                  [assumption | rewrite Hm; apply String.eqb_refl])
        end.
        rewrite Hcontra in Hex. discriminate.
      * apply (find_sameKey_None F M). exact Hfind.
    + intros Hvalid x Hx. cbn [foundermetrics set_foundermetrics] in Hx.
      apply in_app_or in Hx. destruct Hx as [Hx|[<-|[]]]; auto.
Qed.

(** The controller's upload hands the request to the service or throws
    without writing. *)
Lemma controller_uploadMetrics_cases {oid : ObjectIds} (db : DB) (userId : ObjectId)
    (userRole : UserRole)
    (founderId : ObjectId) (body : metricsController.Body) (newId : ObjectId) (now : Date) :
  (exists e, metricsController.uploadMetrics db userId userRole founderId body newId now
             = (db, Err e))
  \/ (exists month data,
        metricsController.month body = Some month
        /\ JS.testMonthFormat month = true
        /\ (userRole = Role.admin ->
            exists rows,
              AssignmentService.getAssignedFounders db userId = Ok rows
              /\ existsb (fun id => id =? founderId)
                   (map AssignmentService.af_founderId rows) = true)
        /\ metricsController.uploadMetrics db userId userRole founderId body newId now
           = MetricsService.uploadMetrics db founderId userId month data newId now).
Proof.
  unfold metricsController.uploadMetrics.
  destruct (metricsController.month body) as [month|]; [|left; eauto].
  destruct (metricsController.totalPosts body) as [p|]; [|left; eauto].
  destruct (metricsController.totalImpressions body) as [i|]; [|left; eauto].
  destruct (metricsController.totalCommentOutreach body) as [c|]; [|left; eauto].
  destruct (month =? ""); [left; eauto|].
  destruct (JS.testMonthFormat month) eqn:Hm; [|left; simpl; eauto]. cbn [negb].
  destruct userRole.
  - right. eexists _, _. split; [reflexivity|]. split; [exact Hm|].
    split; [discriminate | reflexivity].
  - unfold metricsController.checkAssigned, bindR.
    destruct (AssignmentService.getAssignedFounders db userId) as [rows|e]; [|left; eauto].
    destruct (existsb (fun id => id =? founderId) (map AssignmentService.af_founderId rows))
      eqn:Hex; [|left; simpl; eauto].
    right. simpl. eexists _, _. split; [reflexivity|]. split; [exact Hm|].
    split; [|reflexivity]. intros _. exists rows. split; [reflexivity | exact Hex].
  - right. eexists _, _. split; [reflexivity|]. split; [exact Hm|].
    split; [discriminate | reflexivity].
Qed.

Lemma getAssignedFounders_valid {oid : ObjectIds} (db : DB) (adminId : ObjectId)
    (rows : list AssignmentService.AssignedFounder) :
  AssignmentService.getAssignedFounders db adminId = Ok rows -> isValidAdminId db adminId = true.
Proof.
  unfold AssignmentService.getAssignedFounders, isValidAdminId, castObjectId.
  destruct (ObjectId_isValid adminId); cbn [bindR andb]; [|discriminate].
  destruct (Admin_findOne_userId db adminId); [|discriminate].
  destruct (User_findById db adminId) as [u|]; [|discriminate].
  destruct (UserRole_eqb (User.role u) Role.admin); [reflexivity | discriminate].
Qed.

(** X6. The upload route never writes on an error: whatever makes
    [POST /founders/:founderId] fail (the role, a missing field, the month
    format, the assignment check, the schema, a duplicate key), the
    database after the call is the database before it. *)
Theorem upload_error_writes_nothing {oid : ObjectIds} (db db' : DB) (userId : ObjectId)
    (userRole : UserRole)
    (founderId : ObjectId) (body : metricsController.Body) (newId : ObjectId) (now : Date)
    (e : Error) :
  metricsRoutes.postFounderMetrics db userId userRole founderId body newId now = (db', Err e) ->
  db' = db.
Proof.
  unfold metricsRoutes.postFounderMetrics.
  destruct (auth.authorize [Role.admin; Role.super_admin] (Some userRole));
    [|intros H; inversion H; reflexivity].
  destruct (controller_uploadMetrics_cases db userId userRole founderId body newId now)
    as [(e' & ->)|(month & data & _ & _ & _ & ->)]; [intros H; inversion H; reflexivity|].
  destruct (uploadMetrics_cases db founderId userId month data newId now)
    as [(e' & ->)|(r & l' & -> & _)]; intros H; inversion H; reflexivity.
Qed.

Section SampleUploadErrorWritesNothing.
#[local] Existing Instance sampleObjectIds.

Lemma upload_error_writes_nothing_witness :
  fst (metricsRoutes.postFounderMetrics sampleDB "A1" Role.admin "F1"
         (sampleBody "2025-07" (-1)%float 10%float 10%float) "m9" 300%Z)
  = sampleDB.
Proof.
  apply (upload_error_writes_nothing (oid := sampleObjectIds) sampleDB _ "A1" Role.admin "F1"
           (sampleBody "2025-07" (-1)%float 10%float 10%float) "m9" 300%Z
           (ValidationError "totalPosts")).
  reflexivity.
Defined.

End SampleUploadErrorWritesNothing.

(** X7. Who writes metrics: a founder is refused by the route with 403
    whatever it sends; an upload that succeeds was sent by a super-admin, or
    by an admin the assignment check accepts for the founder; the stored
    document carries the founder id of the route, the month of the body and
    the caller as its uploader. *)
Theorem upload_write_scoped {oid : ObjectIds} (db db' : DB) (userId : ObjectId)
    (userRole : UserRole)
    (founderId : ObjectId) (body : metricsController.Body) (newId : ObjectId) (now : Date)
    (r : FounderMetrics.t) :
  uniqueProfiles db ->
  foundersHaveUsers db ->
  metricsRoutes.postFounderMetrics db userId userRole founderId body newId now = (db', Ok r) ->
  (userRole = Role.super_admin
   \/ (userRole = Role.admin
       /\ AssignmentService.isAssigned db userId founderId = Ok true))
  /\ FounderMetrics.founderId r = founderId
  /\ Some (FounderMetrics.month r) = metricsController.month body
  /\ FounderMetrics.uploadedBy r = userId
  /\ In r (foundermetrics db')
  /\ (forall body' newId' now',
        exists message,
          metricsRoutes.postFounderMetrics db userId Role.founder founderId body' newId' now'
          = (db, Err (AppError message 403))).
Proof.
  intros Huniq Husers. unfold metricsRoutes.postFounderMetrics.
  destruct (auth.authorize [Role.admin; Role.super_admin] (Some userRole)) as [[]|e] eqn:Hauth;
    [|discriminate].
  destruct (controller_uploadMetrics_cases db userId userRole founderId body newId now)
    as [(e' & ->)|(month & data & Hmonth & _ & Hadmin & ->)]; [discriminate|].
  destruct (uploadMetrics_cases db founderId userId month data newId now)
    as [(e' & ->)|(r' & l' & -> & Hf & Hm & Hu & Hin & _)]; [discriminate|].
  intros H. inversion H; subst db' r'. clear H.
  split; [|split; [|split; [|split; [|split]]]]; try assumption.
  - destruct userRole; [left; reflexivity | right | discriminate].
    split; [reflexivity|].
    destruct (Hadmin eq_refl) as (rows & Hrows & Hex).
    destruct (getAssignedFounders_isAssigned db userId founderId Huniq Husers
                (getAssignedFounders_valid _ _ _ Hrows)) as (rows' & Hrows' & Hcheck).
    rewrite Hrows in Hrows'. inversion Hrows'; subst rows'.
    rewrite Hcheck, Hex. reflexivity.
  - rewrite Hm. symmetry. exact Hmonth.
  - intros body' newId' now'. eexists. reflexivity.
Qed.

Section SampleUploadWriteScoped.
#[local] Existing Instance sampleObjectIds.

Lemma upload_write_scoped_witness :
  AssignmentService.isAssigned sampleDB "A1" "F1" = Ok true
  /\ exists db' r,
       metricsRoutes.postFounderMetrics sampleDB "A1" Role.admin "F1"
         (sampleBody "2025-07" 3%float 10%float 10%float) "m9" 300%Z = (db', Ok r)
       /\ FounderMetrics.uploadedBy r = "A1".
Proof.
  split; [reflexivity|]. eexists _, _. split; [reflexivity|].
  exact (proj1 (proj2 (proj2 (proj2
           (upload_write_scoped (oid := sampleObjectIds) sampleDB _ "A1" Role.admin "F1"
              (sampleBody "2025-07" 3%float 10%float 10%float) "m9" 300%Z _
              sampleDB_unique sampleDB_foundersHaveUsers eq_refl))))).
Defined.

End SampleUploadWriteScoped.

(** X8. The upload route keeps the collection well-formed: after any call,
    failed or not, the ids and the (founderId, month) pairs of the stored
    documents are still unique, and every stored document still passes the
    validation of the schema (month of the form dddd-dd, counters that are
    numbers and not below 0). *)
Theorem upload_preserves_invariants {oid : ObjectIds} (db : DB) (userId : ObjectId)
    (userRole : UserRole)
    (founderId : ObjectId) (body : metricsController.Body) (newId : ObjectId) (now : Date) :
  metricsIndexes db ->
  storedValid db ->
  metricsIndexes
    (fst (metricsRoutes.postFounderMetrics db userId userRole founderId body newId now))
  /\ storedValid
       (fst (metricsRoutes.postFounderMetrics db userId userRole founderId body newId now)).
Proof.
  intros Hidx Hvalid. unfold metricsRoutes.postFounderMetrics.
  destruct (auth.authorize [Role.admin; Role.super_admin] (Some userRole)); [|split; assumption].
  destruct (controller_uploadMetrics_cases db userId userRole founderId body newId now)
    as [(e' & ->)|(month & data & _ & _ & _ & ->)]; [split; assumption|].
  destruct (uploadMetrics_cases db founderId userId month data newId now)
    as [(e' & ->)|(r & l' & -> & _ & _ & _ & _ & _ & Hi & Hv)]; [split; assumption|].
  split; [apply Hi | apply Hv]; assumption.
Qed.

Lemma sampleDB_storedValid : storedValid sampleDB.
Proof.
  intros m [<-|[<-|[<-|[<-|[<-|[]]]]]]; reflexivity.
Defined.

Section SampleUploadPreservesInvariants.
#[local] Existing Instance sampleObjectIds.

Lemma upload_preserves_invariants_witness :
  metricsIndexes
    (fst (metricsRoutes.postFounderMetrics sampleDB "A1" Role.admin "F1"
            (sampleBody "2025-07" 3%float 10%float 10%float) "m9" 300%Z))
  /\ storedValid
       (fst (metricsRoutes.postFounderMetrics sampleDB "A1" Role.admin "F1"
               (sampleBody "2025-07" 3%float 10%float 10%float) "m9" 300%Z)).
Proof.
  exact (upload_preserves_invariants (oid := sampleObjectIds) sampleDB "A1" Role.admin "F1"
           (sampleBody "2025-07" 3%float 10%float 10%float) "m9" 300%Z
           sampleDB_indexes sampleDB_storedValid).
Defined.

End SampleUploadPreservesInvariants.

Lemma FounderMetrics_deleteOne_absent (l : list FounderMetrics.t) (id : ObjectId) :
  FounderMetrics_findById l id = None -> FounderMetrics_deleteOne l id = (l, 0%nat).
Proof.
  unfold FounderMetrics_findById. induction l as [|m l IH]; simpl; [reflexivity|].
  destruct (FounderMetrics._id m =? id); [discriminate|].
  intros H. rewrite (IH H). reflexivity.
Qed.

Lemma FounderMetrics_deleteOne_split (l : list FounderMetrics.t) (id : ObjectId)
    (m : FounderMetrics.t) :
  FounderMetrics_findById l id = Some m ->
  exists l1 l2,
    l = l1 ++ m :: l2
    /\ FounderMetrics._id m = id
    /\ ~ In id (map FounderMetrics._id l1)
    /\ FounderMetrics_deleteOne l id = (l1 ++ l2, 1%nat).
Proof.
  unfold FounderMetrics_findById. induction l as [|x l IH]; simpl; [discriminate|].
  destruct (String.eqb_spec (FounderMetrics._id x) id) as [E|E].
  - intros H. inversion H; subst. exists [], l. repeat split. intros [].
  - intros H. destruct (IH H) as (l1 & l2 & -> & Hid & Hnot & Hdel).
    exists (x :: l1), l2. rewrite Hdel. repeat split; try assumption.
    simpl. tauto.
Qed.

Lemma FounderMetrics_findById_app (l1 l2 : list FounderMetrics.t) (id : ObjectId) :
  FounderMetrics_findById (l1 ++ l2) id =
  match FounderMetrics_findById l1 id with
  | Some m => Some m
  | None => FounderMetrics_findById l2 id
  end.
Proof.
  unfold FounderMetrics_findById. induction l1 as [|x l1 IH]; simpl; [reflexivity|].
  destruct (FounderMetrics._id x =? id); auto.
Qed.

(** X9. An upload that creates a document, undone by [deleteMetrics]: the
    created document carries the fresh id, [getMetricsById] returns it with
    its uploader populated, and deleting it gives back the database the
    upload started from. *)
Theorem upload_then_delete (db db1 : DB) (F U : ObjectId) (M : string)
    (data : MetricsService.MetricsData) (newId : ObjectId) (now : Date)
    (r : FounderMetrics.t) :
  FounderMetrics_findOne (foundermetrics db) F M = None ->
  MetricsService.uploadMetrics db F U M data newId now = (db1, Ok r) ->
  r = created newId F U M data now
  /\ MetricsService.getMetricsById db newId = None
  /\ MetricsService.getMetricsById db1 newId = Some (r, User_findById db U)
  /\ MetricsService.deleteMetrics db1 newId = (db, Ok "Metrics deleted successfully").
Proof.
  intros Hnone. unfold MetricsService.uploadMetrics. rewrite Hnone.
  fold (created newId F U M data now).
  destruct (FounderMetrics_validate (created newId F U M data now)); [|discriminate].
  unfold FounderMetrics_insertOne.
  destruct (existsb _ (foundermetrics db)) eqn:Hex; [discriminate|].
  change (FounderMetrics.founderId (created newId F U M data now)) with F.
  change (FounderMetrics.month (created newId F U M data now)) with M.
  rewrite Hnone. intros H. inversion H; subst db1 r. clear H.
  assert (Hfresh : FounderMetrics_findById (foundermetrics db) newId = None).
  { unfold FounderMetrics_findById.
    destruct (find _ (foundermetrics db)) as [x|] eqn:E; [|reflexivity].
    apply find_some in E. destruct E as [Hin Hid].
    match type of Hex with
    | ?t = false =>
        assert (Hcontra : t = true)
          by (apply existsb_exists; exists x; split; [assumption | exact Hid])
    end.
    rewrite Hcontra in Hex. discriminate. }
  split; [reflexivity|]. split; [|split].
  - unfold MetricsService.getMetricsById. rewrite Hfresh. reflexivity.
  - unfold MetricsService.getMetricsById. cbn [foundermetrics set_foundermetrics].
    rewrite FounderMetrics_findById_app, Hfresh.
    unfold FounderMetrics_findById. simpl. rewrite String.eqb_refl. reflexivity.
  - unfold MetricsService.deleteMetrics. cbn [foundermetrics set_foundermetrics].
    assert (Hdel : FounderMetrics_deleteOne
                     (foundermetrics db ++ [created newId F U M data now]) newId
                   = (foundermetrics db, 1%nat)).
    { clear Hex Hnone. induction (foundermetrics db) as [|x l IH]; simpl.
      - rewrite String.eqb_refl. reflexivity.
      - unfold FounderMetrics_findById in Hfresh. simpl in Hfresh.
        destruct (FounderMetrics._id x =? newId); [discriminate|].
        rewrite (IH Hfresh). reflexivity. }
    rewrite Hdel. simpl. destruct db. reflexivity.
Qed.

Lemma upload_then_delete_witness :
  exists r,
    MetricsService.deleteMetrics
      (fst (MetricsService.uploadMetrics sampleDB "F2" "A2" "2025-06"
              (MetricsService.mkMetricsData 5%float 100%float 3%float None) "m3" 200%Z))
      "m3"
    = (sampleDB, Ok r).
Proof.
  eexists.
  exact (proj2 (proj2 (proj2
           (upload_then_delete sampleDB _ "F2" "A2" "2025-06"
              (MetricsService.mkMetricsData 5%float 100%float 3%float None) "m3" 200%Z _
              eq_refl eq_refl)))).
Defined.

(** X10. [deleteMetrics] under the primary key of the collection: when no
    document has the id the call throws 404 and nothing changes; otherwise
    exactly the document of that id goes: it can no longer be read by id,
    every other id reads as before, the collection is one document shorter
    and keeps its indexes. *)
Theorem deleteMetrics_removes_one (db : DB) (metricsId : ObjectId) :
  metricsIndexes db ->
  match MetricsService.deleteMetrics db metricsId with
  | (db', Ok _) =>
      MetricsService.getMetricsById db metricsId <> None
      /\ MetricsService.getMetricsById db' metricsId = None
      /\ (forall id, id <> metricsId ->
            MetricsService.getMetricsById db' id = MetricsService.getMetricsById db id)
      /\ List.length (foundermetrics db) = S (List.length (foundermetrics db'))
      /\ metricsIndexes db'
  | (db', Err e) =>
      db' = db /\ isNotFound e = true /\ MetricsService.getMetricsById db metricsId = None
  end.
Proof.
  intros [Hid Hkey]. unfold MetricsService.deleteMetrics, MetricsService.getMetricsById.
  destruct (FounderMetrics_findById (foundermetrics db) metricsId) as [m|] eqn:Hfind.
  - destruct (FounderMetrics_deleteOne_split _ _ _ Hfind) as (l1 & l2 & Hl & Hm & Hnot & Hdel).
    rewrite Hdel. cbn [Nat.eqb foundermetrics set_foundermetrics option_map].
    rewrite Hl in Hid, Hkey |- *. rewrite map_app in Hid, Hkey. simpl in Hid, Hkey.
    pose proof (NoDup_remove_2 _ _ _ Hid) as Hgone. rewrite Hm, <- map_app in Hgone.
    assert (Hfind' : FounderMetrics_findById (l1 ++ l2) metricsId = None)
      by (apply (find_key_None FounderMetrics._id); exact Hgone).
    split; [discriminate|]. split; [rewrite Hfind'; reflexivity|].
    split; [|split].
    + intros id Hne.
      change (User_findById (set_foundermetrics db (l1 ++ l2))) with (User_findById db).
      rewrite !FounderMetrics_findById_app.
      destruct (FounderMetrics_findById l1 id); [reflexivity|].
      unfold FounderMetrics_findById at 2. simpl.
      destruct (String.eqb_spec (FounderMetrics._id m) id); [congruence | reflexivity].
    + rewrite !length_app. simpl. lia.
    + unfold metricsIndexes. cbn [foundermetrics set_foundermetrics]. rewrite !map_app.
      split; [exact (NoDup_remove_1 _ _ _ Hid) | exact (NoDup_remove_1 _ _ _ Hkey)].
  - rewrite (FounderMetrics_deleteOne_absent _ _ Hfind). simpl. repeat split.
Qed.

Lemma deleteMetrics_removes_one_witness :
  MetricsService.getMetricsById (fst (MetricsService.deleteMetrics sampleDB "m1")) "m1" = None
  /\ List.length (foundermetrics (fst (MetricsService.deleteMetrics sampleDB "m1"))) = 4%nat.
Proof.
  pose proof (deleteMetrics_removes_one sampleDB "m1" sampleDB_indexes) as H.
  split; [exact (proj1 (proj2 H)) | reflexivity].
Defined.

(** The order of the strings. *)
Lemma string_ltb_lt (a b : string) :
  String.ltb a b = true <-> OrderedTypeEx.String_as_OT.lt a b.
Proof.
  unfold String.ltb. rewrite <- OrderedTypeEx.String_as_OT.cmp_lt.
  change (OrderedTypeEx.String_as_OT.cmp a b) with (String.compare a b).
  destruct (String.compare a b); split; congruence.
Qed.

Lemma string_ltb_irrefl (a : string) : String.ltb a a = false.
Proof.
  destruct (String.ltb a a) eqn:E; [|reflexivity].
  apply string_ltb_lt in E. exfalso.
  exact (OrderedTypeEx.String_as_OT.lt_not_eq _ _ E eq_refl).
Qed.

Lemma string_ltb_trans (a b c : string) :
  String.ltb a b = true -> String.ltb b c = true -> String.ltb a c = true.
Proof.
  rewrite !string_ltb_lt. apply OrderedTypeEx.String_as_OT.lt_trans.
Qed.

Lemma string_ltb_asym (a b : string) : String.ltb a b = true -> String.ltb b a = false.
Proof.
  intros H. destruct (String.ltb b a) eqn:E; [|reflexivity].
  pose proof (string_ltb_trans _ _ _ H E) as Haa. rewrite string_ltb_irrefl in Haa.
  discriminate.
Qed.

Lemma string_trichotomy (a b : string) :
  String.ltb a b = true \/ a = b \/ String.ltb b a = true.
Proof.
  unfold String.ltb. rewrite (String.compare_antisym a b).
  destruct (String.compare b a) eqn:E; simpl; auto.
  right. left. symmetry. apply String.compare_eq_iff. assumption.
Qed.

Lemma string_nlt_trans (a b c : string) :
  String.ltb a b = false -> String.ltb b c = false -> String.ltb a c = false.
Proof.
  intros Hab Hbc. destruct (String.ltb a c) eqn:Hac; [|reflexivity].
  destruct (string_trichotomy a b) as [H|[->|H]]; [congruence .. |].
  rewrite (string_ltb_trans _ _ _ H Hac) in Hbc. discriminate.
Qed.

Lemma sortByMonthDesc_sortBy (l : list FounderMetrics.t) :
  MetricsService.sortByMonthDesc l
  = sortBy (fun y x => String.ltb (FounderMetrics.month x) (FounderMetrics.month y)) l.
Proof.
  unfold MetricsService.sortByMonthDesc, sortBy.
  induction l as [|m l IH]; simpl; [reflexivity|]. rewrite IH.
  generalize (fold_right
                (insertBy (fun y x =>
                             String.ltb (FounderMetrics.month x) (FounderMetrics.month y)))
                [] l).
  intros s. induction s as [|x s IHs]; simpl; [reflexivity|]. rewrite IHs. reflexivity.
Qed.

Lemma monthDescFounderAsc_asym (x y : FounderMetrics.t) :
  MetricsService.monthDescFounderAsc x y = true ->
  MetricsService.monthDescFounderAsc y x = false.
Proof.
  unfold MetricsService.monthDescFounderAsc.
  rewrite orb_true_iff, andb_true_iff, orb_false_iff, andb_false_iff, String.eqb_eq.
  intros [H|[E H]].
  - split; [apply string_ltb_asym; assumption|].
    left. apply String.eqb_neq. intros E. rewrite E, string_ltb_irrefl in H. discriminate.
  - split; [rewrite E; apply string_ltb_irrefl|]. right. apply string_ltb_asym. assumption.
Qed.

Lemma monthDescFounderAsc_false (y x : FounderMetrics.t) :
  MetricsService.monthDescFounderAsc y x = false <->
  String.ltb (FounderMetrics.month x) (FounderMetrics.month y) = false
  /\ (FounderMetrics.month x = FounderMetrics.month y ->
      String.ltb (FounderMetrics.founderId y) (FounderMetrics.founderId x) = false).
Proof.
  unfold MetricsService.monthDescFounderAsc.
  rewrite orb_false_iff, andb_false_iff, String.eqb_neq. split.
  - intros [H1 [H2|H2]]; split; auto. intros E. contradiction.
  - intros [H1 H2]. split; [assumption|].
    destruct (String.eqb_spec (FounderMetrics.month x) (FounderMetrics.month y)); auto.
Qed.

Lemma monthDescFounderAsc_trans (x y z : FounderMetrics.t) :
  MetricsService.monthDescFounderAsc y x = false ->
  MetricsService.monthDescFounderAsc z y = false ->
  MetricsService.monthDescFounderAsc z x = false.
Proof.
  rewrite !monthDescFounderAsc_false. intros [H1 H2] [H3 H4]. split.
  - apply (string_nlt_trans _ (FounderMetrics.month y)); assumption.
  - intros E. rewrite E in H1.
    assert (Eyz : FounderMetrics.month y = FounderMetrics.month z).
    { destruct (string_trichotomy (FounderMetrics.month y) (FounderMetrics.month z))
        as [H|[H|H]]; [congruence | assumption | congruence]. }
    apply (string_nlt_trans _ (FounderMetrics.founderId y)); [apply H4 | apply H2]; congruence.
Qed.

(** A sorted list without two equal keys is strictly sorted. *)
Lemma StronglySorted_strict (l : list FounderMetrics.t) :
  Sorted.StronglySorted
    (fun a b => String.ltb (FounderMetrics.month a) (FounderMetrics.month b) = false) l ->
  NoDup (map FounderMetrics.month l) ->
  Sorted.StronglySorted
    (fun a b => String.ltb (FounderMetrics.month b) (FounderMetrics.month a) = true) l.
Proof.
  induction l as [|x l IH]; intros Hs Hnd; [constructor|].
  inversion Hs as [|? ? Hs' Hall]; inversion Hnd as [|? ? Hnot Hnd']; subst.
  constructor; [apply IH; assumption|].
  rewrite Forall_forall in Hall |- *. intros y Hy.
  destruct (string_trichotomy (FounderMetrics.month y) (FounderMetrics.month x))
    as [H|[H|H]]; [assumption | | ].
  - exfalso. apply Hnot. rewrite <- H. apply in_map. assumption.
  - rewrite (Hall y Hy) in H. discriminate.
Qed.

Lemma NoDup_months_of_founder (l : list FounderMetrics.t) (founderId : ObjectId) :
  NoDup (map metricsKey l) ->
  NoDup (map FounderMetrics.month
           (filter (fun m => FounderMetrics.founderId m =? founderId) l)).
Proof.
  induction l as [|x l IH]; simpl; intros Hnd; [constructor|].
  inversion Hnd as [|? ? Hnot Hnd']; subst.
  destruct (String.eqb_spec (FounderMetrics.founderId x) founderId) as [E|E]; [|auto].
  simpl. constructor; [|auto].
  intros Hin. apply in_map_iff in Hin. destruct Hin as (y & Hm & Hy).
  apply filter_In in Hy. destruct Hy as [Hy Hf]. apply String.eqb_eq in Hf.
  apply Hnot. apply in_map_iff. exists y. split; [|assumption].
  unfold metricsKey. congruence.
Qed.

(** X11. [getFounderMetrics] of the service, for a founder id that is an
    ObjectId, returns the documents filed under the founder id, all of them
    and no other, latest month first, each with the user that uploaded it;
    under the unique index on (founderId, month) the months strictly
    decrease, one row per month. For a string that is no ObjectId it throws
    the cast error of [find]. *)
Theorem getFounderMetrics_sorted {oid : ObjectIds} (db : DB) (founderId : ObjectId) :
  match MetricsService.getFounderMetrics db founderId with
  | Ok rows =>
      ObjectId_isValid founderId = true
      /\ Permutation (map fst rows)
           (filter (fun m => FounderMetrics.founderId m =? founderId) (foundermetrics db))
      /\ Sorted.StronglySorted
           (fun a b => String.ltb (FounderMetrics.month a) (FounderMetrics.month b) = false)
           (map fst rows)
      /\ (forall row, In row rows ->
            FounderMetrics.founderId (fst row) = founderId
            /\ snd row = User_findById db (FounderMetrics.uploadedBy (fst row)))
      /\ (metricsIndexes db ->
          Sorted.StronglySorted
            (fun a b => String.ltb (FounderMetrics.month b) (FounderMetrics.month a) = true)
            (map fst rows))
  | Err e => ObjectId_isValid founderId = false /\ e = CastError "founderId"
  end.
Proof.
  unfold MetricsService.getFounderMetrics, castObjectId.
  destruct (ObjectId_isValid founderId); cbn [bindR]; [|split; reflexivity].
  split; [reflexivity|].
  rewrite map_map. cbn [fst]. rewrite map_id, sortByMonthDesc_sortBy.
  set (before := fun y x : FounderMetrics.t =>
                   String.ltb (FounderMetrics.month x) (FounderMetrics.month y)).
  set (docs := filter (fun m => FounderMetrics.founderId m =? founderId) (foundermetrics db)).
  assert (Hperm : Permutation (sortBy before docs) docs) by apply sortBy_Permutation.
  assert (Hsorted : Sorted.StronglySorted
                      (fun a b => String.ltb (FounderMetrics.month a) (FounderMetrics.month b)
                                  = false)
                      (sortBy before docs)).
  { apply (sortBy_sorted before).
    - intros x y. unfold before. apply string_ltb_asym.
    - intros x y z. unfold before. apply string_nlt_trans. }
  split; [exact Hperm|]. split; [exact Hsorted|]. split.
  - intros row Hrow. apply in_map_iff in Hrow. destruct Hrow as (m & <- & Hm).
    split; [|reflexivity]. simpl.
    apply (Permutation_in _ Hperm) in Hm. unfold docs in Hm. apply filter_In in Hm.
    apply String.eqb_eq. tauto.
  - intros [_ Hkey]. apply StronglySorted_strict; [exact Hsorted|].
    apply (Permutation_NoDup (Permutation_sym (Permutation_map FounderMetrics.month Hperm))).
    apply NoDup_months_of_founder. assumption.
Qed.

Section SampleGetFounderMetrics.
#[local] Existing Instance sampleObjectIds.

Lemma getFounderMetrics_sorted_witness :
  exists rows,
    MetricsService.getFounderMetrics sampleDB "F1" = Ok rows
    /\ map (fun row => FounderMetrics.month (fst row)) rows = ["2025-06"; "2025-05"]
    /\ Sorted.StronglySorted
         (fun a b => String.ltb (FounderMetrics.month b) (FounderMetrics.month a) = true)
         (map fst rows).
Proof.
  pose proof (getFounderMetrics_sorted sampleDB "F1") as H.
  destruct (MetricsService.getFounderMetrics sampleDB "F1") as [rows|e] eqn:Hrows;
    [|discriminate Hrows].
  exists rows. split; [reflexivity|].
  split; [inversion Hrows; reflexivity|].
  exact (proj2 (proj2 (proj2 (proj2 H))) sampleDB_indexes).
Defined.

End SampleGetFounderMetrics.

(** ** The other read endpoints of the metrics *)

(** X12. [getFounderMonthlyMetrics] for a founder: a month that is not of
    the form dddd-dd is answered 400 before any permission is looked at;
    otherwise the founder is served (the document, or 404 when there is
    none) exactly when the route parameter is the id of its own founder
    document, and is answered 403 in every other case. [getFounderMetrics]
    serves a founder for its user id, so one parameter is served by both
    endpoints only when the founder document carries the id of its user. *)
Theorem monthly_read_founder_scope {oid : ObjectIds} (db : DB) (actor target : ObjectId)
    (month : string) :
  (JS.testMonthFormat month = false ->
   forall userRole,
     metricsController.getFounderMonthlyMetrics db actor userRole target month
     = Err (AppError "Month must be in format YYYY-MM" 400))
  /\ (JS.testMonthFormat month = true ->
      match metricsController.getFounderMonthlyMetrics db actor Role.founder target month with
      | Ok row =>
          (exists f, Founder_findOne_userId db actor = Some f /\ Founder._id f = target)
          /\ MetricsService.getFounderMonthlyMetrics db target month = Some row
      | Err e =>
          (isForbidden e = true
           /\ ~ exists f, Founder_findOne_userId db actor = Some f /\ Founder._id f = target)
          \/ (isNotFound e = true
              /\ (exists f, Founder_findOne_userId db actor = Some f /\ Founder._id f = target)
              /\ MetricsService.getFounderMonthlyMetrics db target month = None)
      end)
  /\ (forall rows row,
        metricsController.getFounderMetrics db actor Role.founder target = Ok rows ->
        metricsController.getFounderMonthlyMetrics db actor Role.founder target month = Ok row ->
        target = actor
        /\ exists f, Founder_findOne_userId db actor = Some f
                     /\ Founder._id f = actor /\ Founder.userId f = actor).
Proof.
  split; [|split].
  - intros Hm userRole. unfold metricsController.getFounderMonthlyMetrics.
    rewrite Hm. reflexivity.
  - intros Hm. unfold metricsController.getFounderMonthlyMetrics,
      AssignmentService.getFounderByUserId, bindR.
    rewrite Hm. cbn [negb].
    destruct (Founder_findOne_userId db actor) as [f|].
    + destruct (String.eqb_spec (Founder._id f) target) as [E|E]; cbn [negb].
      * destruct (MetricsService.getFounderMonthlyMetrics db target month) as [row|].
        -- split; [exists f; auto | reflexivity].
        -- right. split; [reflexivity|]. split; [exists f; auto | reflexivity].
      * left. split; [reflexivity|]. intros (g & Hg & Hid). inversion Hg; subst. contradiction.
    + left. split; [reflexivity|]. intros (g & Hg & _). discriminate.
  - intros rows row. unfold metricsController.getFounderMetrics,
      metricsController.getFounderMonthlyMetrics, AssignmentService.getFounderByUserId, bindR.
    destruct (JS.testMonthFormat month); cbn [negb]; [|discriminate].
    destruct (Founder_findOne_userId db actor) as [f|] eqn:Hf; [|discriminate].
    pose proof (find_key_In Founder.userId _ _ _ Hf) as [_ Hu].
    destruct (String.eqb_spec (Founder.userId f) target) as [E1|E1]; cbn [negb];
      [|discriminate].
    destruct (String.eqb_spec (Founder._id f) target) as [E2|E2]; cbn [negb];
      [|discriminate].
    intros _ _. split; [congruence|]. exists f. repeat split; congruence.
Qed.

Section SampleMonthlyReadFounderScope.
#[local] Existing Instance sampleObjectIds.

Lemma monthly_read_founder_scope_witness :
  (exists row,
     metricsController.getFounderMonthlyMetrics sharedIdDB "U1" Role.founder "U1" "2025-06"
     = Ok row)
  /\ exists f, Founder_findOne_userId sharedIdDB "U1" = Some f
               /\ Founder._id f = "U1" /\ Founder.userId f = "U1".
Proof.
  split; [eexists; reflexivity|].
  exact (proj2 (proj2 (proj2 (monthly_read_founder_scope (oid := sampleObjectIds)
      sharedIdDB "U1" "U1" "2025-06"))
                  _ _ eq_refl eq_refl)).
Defined.

End SampleMonthlyReadFounderScope.

(** X13. [getFounderMonthlyMetrics] for an admin with its profile, a month
    of the right form: the admin is served exactly when the assignment
    check accepts the pair, with the document of the founder and month or
    404 when there is none, and is answered 403 when the check refuses. *)
Theorem monthly_read_admin_scope {oid : ObjectIds} (db : DB) (adminId founderId : ObjectId)
    (month : string) :
  uniqueProfiles db ->
  foundersHaveUsers db ->
  isValidAdminId db adminId = true ->
  JS.testMonthFormat month = true ->
  match metricsController.getFounderMonthlyMetrics db adminId Role.admin founderId month with
  | Ok row =>
      AssignmentService.isAssigned db adminId founderId = Ok true
      /\ In (fst row) (foundermetrics db)
      /\ FounderMetrics.founderId (fst row) = founderId
      /\ FounderMetrics.month (fst row) = month
      /\ snd row = User_findById db (FounderMetrics.uploadedBy (fst row))
  | Err e =>
      (isForbidden e = true /\ AssignmentService.isAssigned db adminId founderId = Ok false)
      \/ (isNotFound e = true
          /\ AssignmentService.isAssigned db adminId founderId = Ok true
          /\ forall m, In m (foundermetrics db) ->
                       ~ (FounderMetrics.founderId m = founderId
                          /\ FounderMetrics.month m = month))
  end.
Proof.
  intros Huniq Husers Hadmin Hm.
  destruct (getAssignedFounders_isAssigned db adminId founderId Huniq Husers Hadmin)
    as (rows & Hrows & Hcheck).
  unfold metricsController.getFounderMonthlyMetrics, metricsController.checkAssigned, bindR.
  rewrite Hm, Hrows, Hcheck. cbn [negb].
  destruct (existsb (fun id => id =? founderId) (map AssignmentService.af_founderId rows));
    cbn [negb]; [|left; split; reflexivity].
  unfold MetricsService.getFounderMonthlyMetrics, FounderMetrics_findOne.
  destruct (find _ (foundermetrics db)) as [m|] eqn:Hfind; cbn [option_map].
  - apply find_some in Hfind. destruct Hfind as [Hin Hk].
    apply andb_true_iff in Hk. destruct Hk as [Hk1 Hk2].
    apply String.eqb_eq in Hk1. apply String.eqb_eq in Hk2.
    cbn [fst snd]. repeat split; assumption.
  - right. split; [reflexivity|]. split; [reflexivity|].
    intros m Hin [E1 E2]. apply (find_none _ _ Hfind) in Hin.
    rewrite E1, E2, !String.eqb_refl in Hin. discriminate.
Qed.

Section SampleMonthlyReadAdminScope.
#[local] Existing Instance sampleObjectIds.

Lemma monthly_read_admin_scope_witness :
  exists row,
    metricsController.getFounderMonthlyMetrics sampleDB "A1" Role.admin "F1" "2025-06" = Ok row
    /\ AssignmentService.isAssigned sampleDB "A1" "F1" = Ok true
    /\ FounderMetrics._id (fst row) = "m2".
Proof.
  eexists. split; [reflexivity|]. split; [|reflexivity].
  exact (proj1 (monthly_read_admin_scope (oid := sampleObjectIds) sampleDB "A1" "F1" "2025-06"
                  sampleDB_unique sampleDB_foundersHaveUsers eq_refl eq_refl)).
Defined.

End SampleMonthlyReadAdminScope.

Lemma enhance_metric (db : DB) (l : list FounderMetrics.t) :
  map MetricsService.metric (MetricsService.enhanceMetricsWithFounderDetails db l) = l.
Proof.
  unfold MetricsService.enhanceMetricsWithFounderDetails. rewrite map_map. simpl.
  apply map_id.
Qed.

(** The second lookup of [enhanceMetricsWithFounderDetails] finds the user
    the first one found. *)
Lemma enhance_rows (db : DB) (l : list FounderMetrics.t) (row : MetricsService.EnhancedMetrics) :
  In row (MetricsService.enhanceMetricsWithFounderDetails db l) ->
  MetricsService.uploadedBy row
  = User_findById db (FounderMetrics.uploadedBy (MetricsService.metric row))
  /\ MetricsService.founder row
     = option_map User.name (User_findById db (FounderMetrics.founderId (MetricsService.metric row))).
Proof.
  unfold MetricsService.enhanceMetricsWithFounderDetails. intros Hin.
  apply in_map_iff in Hin. destruct Hin as (m & <- & _). simpl. split; [reflexivity|].
  destruct (User_findById db (FounderMetrics.founderId m)) as [u|] eqn:Hu; [|reflexivity].
  pose proof (find_key_In User._id _ _ _ Hu) as [_ Hid].
  rewrite Hid, Hu. reflexivity.
Qed.

(** The listing of an admin's founders throws exactly for an id that is
    no valid admin id, and never a 403. *)
Lemma getAssignedFounders_Err {oid : ObjectIds} (db : DB) (adminId : ObjectId) (e : Error) :
  AssignmentService.getAssignedFounders db adminId = Err e ->
  isValidAdminId db adminId = false /\ isForbidden e = false.
Proof.
  unfold AssignmentService.getAssignedFounders, isValidAdminId, castObjectId.
  destruct (ObjectId_isValid adminId); cbn [bindR andb];
    [|intros H; inversion H; split; reflexivity].
  destruct (Admin_findOne_userId db adminId);
    [|intros H; inversion H; split; reflexivity].
  destruct (User_findById db adminId) as [u|];
    [|intros H; inversion H; split; reflexivity].
  destruct (UserRole_eqb (User.role u) Role.admin); cbn [negb];
    [discriminate | intros H; inversion H; split; reflexivity].
Qed.

(** X14. [getAdminMetrics]: every role but admin is answered 403; an admin
    whose id is a valid admin id gets the documents filed under the
    founders the assignment check accepts for it, all of them and no other,
    in the order of [sort({ month: -1, founderId: 1 })], each with its
    uploader and, when the founder id names a user, that user's name; an
    admin whose id is no valid admin id gets the error of the listing of
    its founders, which is no 403. *)
Theorem getAdminMetrics_scoped {oid : ObjectIds} (db : DB) (adminId : ObjectId)
    (userRole : UserRole) :
  uniqueProfiles db ->
  foundersHaveUsers db ->
  match metricsController.getAdminMetrics db adminId userRole with
  | Ok rows =>
      userRole = Role.admin
      /\ isValidAdminId db adminId = true
      /\ Permutation (map MetricsService.metric rows)
           (filter (assignedTo db adminId) (foundermetrics db))
      /\ (forall m, In m (map MetricsService.metric rows) <->
                    In m (foundermetrics db)
                    /\ AssignmentService.isAssigned db adminId (FounderMetrics.founderId m)
                       = Ok true)
      /\ Sorted.StronglySorted notAfter (map MetricsService.metric rows)
      /\ (forall row, In row rows ->
            MetricsService.uploadedBy row
            = User_findById db (FounderMetrics.uploadedBy (MetricsService.metric row))
            /\ MetricsService.founder row
               = option_map User.name
                   (User_findById db (FounderMetrics.founderId (MetricsService.metric row))))
  | Err e =>
      (userRole <> Role.admin
       /\ e = AppError "Only admins can access this endpoint" 403)
      \/ (userRole = Role.admin
          /\ isValidAdminId db adminId = false
          /\ isForbidden e = false)
  end.
Proof.
  intros Huniq Husers. unfold metricsController.getAdminMetrics, bindR.
  destruct userRole; cbn [UserRole_eqb negb];
    try (left; split; [discriminate | reflexivity]).
  destruct (AssignmentService.getAssignedFounders db adminId) as [founders|e] eqn:Hf;
    [|right; split; [reflexivity | exact (getAssignedFounders_Err db adminId e Hf)]].
  unfold MetricsService.getAdminMetrics.
  assert (Hext : forall m,
             existsb (fun id => id =? FounderMetrics.founderId m)
               (map AssignmentService.af_founderId founders)
             = assignedTo db adminId m).
  { intros m. unfold assignedTo.
    destruct (getAssignedFounders_isAssigned db adminId (FounderMetrics.founderId m)
                Huniq Husers (getAssignedFounders_valid _ _ _ Hf)) as (rows' & Hrows' & Hcheck).
    rewrite Hf in Hrows'. inversion Hrows'; subst rows'. rewrite Hcheck. reflexivity. }
  rewrite (filter_ext _ _ Hext), enhance_metric.
  pose proof (sortBy_Permutation MetricsService.monthDescFounderAsc
                (filter (assignedTo db adminId) (foundermetrics db))) as Hperm.
  split; [reflexivity|]. split; [exact (getAssignedFounders_valid _ _ _ Hf)|].
  split; [exact Hperm|]. split; [|split].
  - intros m. split.
    + intros Hin. apply (Permutation_in _ Hperm) in Hin. apply filter_In in Hin.
      destruct Hin as [Hin Ha]. split; [assumption|].
      unfold assignedTo in Ha. rewrite isAssigned_eq in Ha |- *. rewrite Ha. reflexivity.
    + intros [Hin Ha]. apply (Permutation_in _ (Permutation_sym Hperm)).
      apply filter_In. split; [assumption|]. unfold assignedTo. rewrite Ha. reflexivity.
  - apply (sortBy_sorted MetricsService.monthDescFounderAsc).
    + apply monthDescFounderAsc_asym.
    + apply monthDescFounderAsc_trans.
  - intros row. apply enhance_rows.
Qed.

Section SampleGetAdminMetricsScoped.
#[local] Existing Instance sampleObjectIds.

Lemma getAdminMetrics_scoped_witness :
  (exists rows,
     metricsController.getAdminMetrics sampleDB "A1" Role.admin = Ok rows
     /\ map (fun row => FounderMetrics._id (MetricsService.metric row)) rows = ["m2"; "m1"]
     /\ Sorted.StronglySorted notAfter (map MetricsService.metric rows))
  /\ metricsController.getAdminMetrics sampleDB "F1" Role.founder
     = Err (AppError "Only admins can access this endpoint" 403)
  /\ metricsController.getAdminMetrics sampleDB "S1" Role.super_admin
     = Err (AppError "Only admins can access this endpoint" 403).
Proof.
  pose proof (getAdminMetrics_scoped sampleDB "A1" Role.admin
                sampleDB_unique sampleDB_foundersHaveUsers) as H.
  destruct (metricsController.getAdminMetrics sampleDB "A1" Role.admin) as [rows|e] eqn:Hrows;
    [|discriminate Hrows].
  split; [|split; reflexivity].
  exists rows. split; [reflexivity|].
  split; [inversion Hrows; reflexivity|].
  exact (proj1 (proj2 (proj2 (proj2 (proj2 H))))).
Defined.

End SampleGetAdminMetricsScoped.

(** X15. [getAllMetrics]: every role but super-admin is answered 403; a
    super-admin gets every stored document exactly once, in the order of
    [sort({ month: -1, founderId: 1 })], each with its uploader; the founder
    name is there exactly when the founder id of the document is the id of
    a user, and is that user's name. *)
Theorem getAllMetrics_complete (db : DB) (userRole : UserRole) :
  match metricsController.getAllMetrics db userRole with
  | Ok rows =>
      userRole = Role.super_admin
      /\ Permutation (map MetricsService.metric rows) (foundermetrics db)
      /\ Sorted.StronglySorted notAfter (map MetricsService.metric rows)
      /\ (forall row, In row rows ->
            MetricsService.uploadedBy row
            = User_findById db (FounderMetrics.uploadedBy (MetricsService.metric row))
            /\ MetricsService.founder row
               = option_map User.name
                   (User_findById db (FounderMetrics.founderId (MetricsService.metric row))))
  | Err e => userRole <> Role.super_admin /\ isForbidden e = true
  end.
Proof.
  unfold metricsController.getAllMetrics.
  destruct userRole; cbn [UserRole_eqb negb]; try (split; [discriminate | reflexivity]).
  unfold MetricsService.getAllMetrics. rewrite enhance_metric.
  split; [reflexivity|]. split; [apply sortBy_Permutation|]. split.
  - apply (sortBy_sorted MetricsService.monthDescFounderAsc).
    + apply monthDescFounderAsc_asym.
    + apply monthDescFounderAsc_trans.
  - intros row. apply enhance_rows.
Qed.

(** ** The admin dashboard: attention and deadlines *)

Lemma founderIdsOf_Ok (db : DB) (l : list Assignment.t) (ids : list ObjectId) :
  AdminDashboardService.founderIdsOf db l = Ok ids ->
  ids = map Assignment.founderId l
  /\ forall id, In id ids ->
       exists founder, Founder_findById db id = Some founder /\ Founder._id founder = id.
Proof.
  revert ids. induction l as [|a l IH]; simpl; intros ids H.
  - inversion H; subst. split; [reflexivity | intros ? []].
  - destruct (Founder_findById db (Assignment.founderId a)) as [f|] eqn:Hf; [|discriminate].
    unfold bindR in H.
    destruct (AdminDashboardService.founderIdsOf db l) as [ids'|]; [|discriminate].
    inversion H; subst. destruct (IH ids' eq_refl) as [-> Hall].
    pose proof (find_key_In Founder._id _ _ _ Hf) as [_ Hid].
    split; [rewrite Hid; reflexivity|].
    intros id [<-|Hin]; [|auto]. exists f. rewrite Hid. auto.
Qed.

Lemma NoDup_founders_of_admin (l : list Assignment.t) (adminId : ObjectId) :
  NoDup (map assignmentKey l) ->
  NoDup (map Assignment.founderId (filter (fun a => Assignment.adminId a =? adminId) l)).
Proof.
  induction l as [|x l IH]; simpl; intros Hnd; [constructor|].
  inversion Hnd as [|? ? Hnot Hnd']; subst.
  destruct (String.eqb_spec (Assignment.adminId x) adminId) as [E|E]; [|auto].
  simpl. constructor; [|auto].
  intros Hin. apply in_map_iff in Hin. destruct Hin as (y & Hf & Hy).
  apply filter_In in Hy. destruct Hy as [Hy Ha]. apply String.eqb_eq in Ha.
  apply Hnot. apply in_map_iff. exists y. split; [|assumption].
  unfold assignmentKey. congruence.
Qed.

(** The founders an admin's dashboard counts, under the unique index of the
    assignments: the founder ids of the admin's edges, each once, each the
    id of a founder document. *)
Lemma assignedFounderIds_Ok (db : DB) (adminId : ObjectId) (ids : list ObjectId) :
  assignmentIndex db ->
  AdminDashboardService.assignedFounderIds db adminId = Ok ids ->
  NoDup ids
  /\ (forall id, In id ids <->
                 exists a, In a (assignments db)
                           /\ Assignment.adminId a = adminId /\ Assignment.founderId a = id)
  /\ forall id, In id ids ->
       exists founder, Founder_findById db id = Some founder /\ Founder._id founder = id.
Proof.
  intros Hidx H. unfold AdminDashboardService.assignedFounderIds in H.
  apply founderIdsOf_Ok in H. destruct H as [-> Hall].
  split; [apply NoDup_founders_of_admin; exact Hidx|]. split; [|exact Hall].
  intros id. rewrite in_map_iff. split.
  - intros (a & Hf & Ha). apply filter_In in Ha. destruct Ha as [Ha Hk].
    apply String.eqb_eq in Hk. exists a. auto.
  - intros (a & Ha & Hk & Hf). exists a. split; [assumption|].
    apply filter_In. split; [assumption | rewrite Hk; apply String.eqb_refl].
Qed.

Lemma filter_partition_length {A : Type} (q : A -> bool) (l : list A) :
  (List.length (filter q l) + List.length (filter (fun x => negb (q x)) l))%nat
  = List.length l.
Proof.
  induction l as [|x l IH]; simpl; [reflexivity|].
  destruct (q x); simpl; lia.
Qed.

(** The distinct founder ids of the documents of a scope that pass a test
    are as many as the founders of the scope that have such a document. *)
Lemma distinct_in_scope_length (docs : list FounderMetrics.t) (ids : list ObjectId)
    (P : FounderMetrics.t -> bool) :
  NoDup ids ->
  List.length
    (FounderMetrics_distinct_founderId
       (filter (fun m => existsb (fun id => id =? FounderMetrics.founderId m) ids && P m) docs))
  = List.length
      (filter (fun id =>
                 existsb (fun x => x =? id)
                   (FounderMetrics_distinct_founderId
                      (filter (fun m => existsb (fun id => id =? FounderMetrics.founderId m) ids
                                        && P m) docs)))
              ids).
Proof.
  intros Hnd.
  set (d := FounderMetrics_distinct_founderId _).
  apply Permutation_length. apply NoDup_Permutation.
  - apply FounderMetrics_distinct_spec.
  - apply NoDup_filter. assumption.
  - intros f. rewrite filter_In, existsb_eqb_In. split; [|tauto].
    intros Hin. split; [|assumption].
    apply FounderMetrics_distinct_spec in Hin. destruct Hin as (m & Hm & <-).
    apply filter_In in Hm. destruct Hm as [_ Hm]. apply andb_true_iff in Hm.
    apply existsb_eqb_In. tauto.
Qed.

Lemma In_distinct_in_scope (docs : list FounderMetrics.t) (ids : list ObjectId)
    (P : FounderMetrics.t -> bool) (f : ObjectId) :
  In f (FounderMetrics_distinct_founderId
          (filter (fun m => existsb (fun id => id =? FounderMetrics.founderId m) ids && P m)
                  docs))
  <-> In f ids /\ exists m, In m docs /\ FounderMetrics.founderId m = f /\ P m = true.
Proof.
  rewrite (proj2 (FounderMetrics_distinct_spec _)). split.
  - intros (m & Hm & <-). apply filter_In in Hm. destruct Hm as [Hm Hk].
    apply andb_true_iff in Hk. destruct Hk as [Hk HP]. apply existsb_eqb_In in Hk.
    split; [assumption|]. exists m. auto.
  - intros (Hin & m & Hm & <- & HP). exists m. split; [|reflexivity].
    apply filter_In. split; [assumption|]. apply andb_true_iff. split; [|assumption].
    apply existsb_eqb_In. assumption.
Qed.

(** X16. The founders needing attention on an admin's dashboard, under the
    unique index of the assignments: the assigned founders split into those
    with a document created since the threshold and those needing
    attention; a founder needs attention exactly when it is assigned and
    every document filed under its id was created before the threshold; a
    later threshold never takes a founder off the list; with no assigned
    founder the count and the percentage are 0. *)
Theorem attention_partition (db : DB) (adminId : ObjectId) (thirtyDaysAgo : Date)
    (ids : list ObjectId) :
  assignmentIndex db ->
  AdminDashboardService.assignedFounderIds db adminId = Ok ids ->
  (exists r,
     AdminDashboardService.metricsNeedingAttention db adminId thirtyDaysAgo = Ok r
     /\ AdminDashboardService.attentionCount r
        = List.length (AdminDashboardService.foundersNeedingAttention db ids thirtyDaysAgo)
     /\ (AdminDashboardService.attentionCount r <= List.length ids)%nat
     /\ (ids = [] -> AdminDashboardService.attentionPercentage r = 0%float))
  /\ (List.length (AdminDashboardService.recentlyUpdatedFounderIds db ids thirtyDaysAgo)
      + List.length (AdminDashboardService.foundersNeedingAttention db ids thirtyDaysAgo))%nat
     = List.length ids
  /\ (forall id,
        In id (AdminDashboardService.foundersNeedingAttention db ids thirtyDaysAgo) <->
        In id ids
        /\ forall m, In m (foundermetrics db) -> FounderMetrics.founderId m = id ->
                     (FounderMetrics.createdAt m < thirtyDaysAgo)%Z)
  /\ (forall later id,
        (thirtyDaysAgo <= later)%Z ->
        In id (AdminDashboardService.foundersNeedingAttention db ids thirtyDaysAgo) ->
        In id (AdminDashboardService.foundersNeedingAttention db ids later)).
Proof.
  intros Hidx Hids.
  destruct (assignedFounderIds_Ok db adminId ids Hidx Hids) as (Hnd & _ & _).
  assert (Hin : forall t id,
             In id (AdminDashboardService.foundersNeedingAttention db ids t) <->
             In id ids
             /\ forall m, In m (foundermetrics db) -> FounderMetrics.founderId m = id ->
                          (FounderMetrics.createdAt m < t)%Z).
  { intros t id. unfold AdminDashboardService.foundersNeedingAttention,
      AdminDashboardService.recentlyUpdatedFounderIds.
    rewrite filter_In, negb_true_iff. split.
    - intros [Hid Hnot]. split; [assumption|]. intros m Hm Hf.
      destruct (Z.ltb_spec (FounderMetrics.createdAt m) t) as [Hlt|Hge]; [assumption|].
      exfalso.
      assert (Hex : existsb (fun updatedId => updatedId =? id)
                      (FounderMetrics_distinct_founderId
                         (filter (fun m => existsb (fun id => id =? FounderMetrics.founderId m) ids
                                           && (t <=? FounderMetrics.createdAt m)%Z)
                                 (foundermetrics db))) = true).
      { apply existsb_eqb_In. apply In_distinct_in_scope. split; [assumption|].
        exists m. repeat split; try assumption. apply Z.leb_le. assumption. }
      rewrite Hex in Hnot. discriminate.
    - intros [Hid Hall]. split; [assumption|].
      match goal with |- ?t = false => destruct t eqn:Hex; [|reflexivity] end.
      apply existsb_eqb_In in Hex. apply In_distinct_in_scope in Hex.
      destruct Hex as (_ & m & Hm & Hf & Hc). apply Z.leb_le in Hc.
      specialize (Hall m Hm Hf). lia. }
  assert (Hsplit :
            (List.length (AdminDashboardService.recentlyUpdatedFounderIds db ids thirtyDaysAgo)
             + List.length (AdminDashboardService.foundersNeedingAttention db ids thirtyDaysAgo))%nat
            = List.length ids).
  { unfold AdminDashboardService.foundersNeedingAttention,
      AdminDashboardService.recentlyUpdatedFounderIds.
    rewrite (distinct_in_scope_length (foundermetrics db) ids
               (fun m => (thirtyDaysAgo <=? FounderMetrics.createdAt m)%Z) Hnd) at 1.
    apply (filter_partition_length
             (fun id => existsb (fun x => x =? id)
                          (FounderMetrics_distinct_founderId
                             (filter (fun m =>
                                        existsb (fun id => id =? FounderMetrics.founderId m) ids
                                        && (thirtyDaysAgo <=? FounderMetrics.createdAt m)%Z)
                                     (foundermetrics db))))). }
  split; [|split; [exact Hsplit|split; [apply Hin|]]].
  - unfold AdminDashboardService.metricsNeedingAttention, bindR. rewrite Hids.
    eexists. split; [reflexivity|]. cbn [AdminDashboardService.attentionCount
                                          AdminDashboardService.attentionPercentage].
    split; [reflexivity|]. split; [lia|]. intros ->. reflexivity.
  - intros later id Hle. rewrite !Hin. intros [Hid Hall]. split; [assumption|].
    intros m Hm Hf. specialize (Hall m Hm Hf). lia.
Qed.

Lemma attention_partition_witness :
  exists r,
    AdminDashboardService.metricsNeedingAttention sampleDB "A1" 200%Z = Ok r
    /\ AdminDashboardService.attentionCount r = 1%nat.
Proof.
  destruct (attention_partition sampleDB "A1" 200%Z ["fd1"] sampleDB_assignmentIndex eq_refl)
    as ((r & Hr & Hcount & _) & _).
  exists r. split; [exact Hr | exact Hcount].
Defined.

(** X17. The upcoming deadlines of an admin's dashboard, under the unique
    index of the assignments: there is one deadline for each assigned
    founder without a document for the current month, in the order of the
    assignments, none is dropped and none is invented; together with the
    founders counted as completed they make up the assigned founders; every
    deadline carries the current month and the days left. *)
Theorem deadlines_complement_completed (db : DB) (adminId : ObjectId) (currentMonth : string)
    (daysLeftInMonth : Z) (ids : list ObjectId) :
  assignmentIndex db ->
  AdminDashboardService.assignedFounderIds db adminId = Ok ids ->
  map AdminDashboardService.deadlineId
    (AdminDashboardService.upcomingDeadlines db ids currentMonth daysLeftInMonth)
  = AdminDashboardService.foundersWithoutCurrentMetrics db ids currentMonth
  /\ (List.length (AdminDashboardService.foundersWithCurrentMonthMetrics db ids currentMonth)
      + List.length
          (AdminDashboardService.upcomingDeadlines db ids currentMonth daysLeftInMonth))%nat
     = List.length ids
  /\ (forall id,
        In id (map AdminDashboardService.deadlineId
                 (AdminDashboardService.upcomingDeadlines db ids currentMonth daysLeftInMonth))
        <-> In id ids
            /\ forall m, In m (foundermetrics db) -> FounderMetrics.founderId m = id ->
                         FounderMetrics.month m <> currentMonth)
  /\ (forall d,
        In d (AdminDashboardService.upcomingDeadlines db ids currentMonth daysLeftInMonth) ->
        AdminDashboardService.deadlineMonth d = currentMonth
        /\ AdminDashboardService.daysLeft d = daysLeftInMonth).
Proof.
  intros Hidx Hids.
  destruct (assignedFounderIds_Ok db adminId ids Hidx Hids) as (Hnd & _ & Hdocs).
  assert (Hmap : map AdminDashboardService.deadlineId
                   (AdminDashboardService.upcomingDeadlines db ids currentMonth daysLeftInMonth)
                 = AdminDashboardService.foundersWithoutCurrentMetrics db ids currentMonth).
  { unfold AdminDashboardService.upcomingDeadlines.
    assert (Hsub : forall id,
               In id (AdminDashboardService.foundersWithoutCurrentMetrics db ids currentMonth) ->
               In id ids).
    { intros id Hin. unfold AdminDashboardService.foundersWithoutCurrentMetrics in Hin.
      apply filter_In in Hin. tauto. }
    induction (AdminDashboardService.foundersWithoutCurrentMetrics db ids currentMonth)
      as [|id l IH]; simpl; [reflexivity|].
    destruct (Hdocs id (Hsub id (or_introl eq_refl))) as (f & Hf & Hfid).
    rewrite Hf. simpl. rewrite Hfid. f_equal. apply IH.
    intros x Hx. apply Hsub. right. assumption. }
  split; [exact Hmap|]. split; [|split].
  - rewrite <- (length_map AdminDashboardService.deadlineId), Hmap.
    unfold AdminDashboardService.foundersWithoutCurrentMetrics,
      AdminDashboardService.foundersWithCurrentMonthMetrics.
    rewrite (distinct_in_scope_length (foundermetrics db) ids
               (fun m => FounderMetrics.month m =? currentMonth) Hnd) at 1.
    apply (filter_partition_length
             (fun id => existsb (fun x => x =? id)
                          (FounderMetrics_distinct_founderId
                             (filter (fun m =>
                                        existsb (fun id => id =? FounderMetrics.founderId m) ids
                                        && (FounderMetrics.month m =? currentMonth))
                                     (foundermetrics db))))).
  - intros id. rewrite Hmap.
    unfold AdminDashboardService.foundersWithoutCurrentMetrics,
      AdminDashboardService.foundersWithCurrentMonthMetrics.
    rewrite filter_In, negb_true_iff. split.
    + intros [Hid Hnot]. split; [assumption|]. intros m Hm Hf Hmonth.
      assert (Hex : existsb (fun metricId => metricId =? id)
                      (FounderMetrics_distinct_founderId
                         (filter (fun m => existsb (fun id => id =? FounderMetrics.founderId m) ids
                                           && (FounderMetrics.month m =? currentMonth))
                                 (foundermetrics db))) = true).
      { apply existsb_eqb_In. apply In_distinct_in_scope. split; [assumption|].
        exists m. repeat split; try assumption. apply String.eqb_eq. assumption. }
      rewrite Hex in Hnot. discriminate.
    + intros [Hid Hall]. split; [assumption|].
      match goal with |- ?t = false => destruct t eqn:Hex; [|reflexivity] end.
      apply existsb_eqb_In in Hex. apply In_distinct_in_scope in Hex.
      destruct Hex as (_ & m & Hm & Hf & Hc). apply String.eqb_eq in Hc.
      exfalso. exact (Hall m Hm Hf Hc).
  - intros d Hd. unfold AdminDashboardService.upcomingDeadlines in Hd.
    apply in_flat_map in Hd. destruct Hd as (id & _ & Hd).
    destruct (Founder_findById db id); [|contradiction].
    destruct Hd as [<-|[]]. split; reflexivity.
Qed.

Lemma deadlines_complement_completed_witness :
  map AdminDashboardService.deadlineId
    (AdminDashboardService.upcomingDeadlines sampleDB ["fd1"] "2025-07" 12%Z)
  = ["fd1"]
  /\ map AdminDashboardService.deadlineId
       (AdminDashboardService.upcomingDeadlines sampleDB ["fd1"] "2025-06" 12%Z)
     = [].
Proof.
  split.
  - exact (proj1 (deadlines_complement_completed sampleDB "A1" "2025-07" 12%Z ["fd1"]
                    sampleDB_assignmentIndex eq_refl)).
  - exact (proj1 (deadlines_complement_completed sampleDB "A1" "2025-06" 12%Z ["fd1"]
                    sampleDB_assignmentIndex eq_refl)).
Defined.

(** ** The monthly series *)

Lemma filter_disjoint_length {A : Type} (p q : A -> bool) (l : list A) :
  (forall x, In x l -> p x = true -> q x = false) ->
  List.length (filter (fun x => p x || q x) l)
  = (List.length (filter p l) + List.length (filter q l))%nat.
Proof.
  induction l as [|x l IH]; intros Hd; [reflexivity|].
  assert (IH' := IH (fun y Hy => Hd y (or_intror Hy))).
  pose proof (Hd x (or_introl eq_refl)) as Hx.
  simpl. destruct (p x) eqn:Hp; simpl.
  - rewrite (Hx eq_refl). simpl. rewrite IH'. reflexivity.
  - destruct (q x); simpl; rewrite IH'; lia.
Qed.

(** Documents counted month by month, over months that do not repeat: each
    document of one of the months is counted once. *)
Lemma monthly_counts (P : FounderMetrics.t -> bool) (docs : list FounderMetrics.t)
    (months : list string) :
  NoDup months ->
  list_sum
    (map (fun month =>
            List.length (filter (fun m => P m && (FounderMetrics.month m =? month)) docs))
         months)
  = List.length
      (filter (fun m => P m && existsb (fun month => FounderMetrics.month m =? month) months)
              docs).
Proof.
  induction months as [|month months IH]; intros Hnd.
  - simpl. induction docs as [|m docs IHd]; simpl; [reflexivity|].
    rewrite andb_false_r. assumption.
  - inversion Hnd as [|? ? Hnot Hnd']; subst. simpl. rewrite (IH Hnd').
    rewrite <- filter_disjoint_length.
    + f_equal. apply filter_ext. intros m. destruct (P m); reflexivity.
    + intros m _ Hm. apply andb_true_iff in Hm. destruct Hm as [_ Hm].
      apply String.eqb_eq in Hm. apply andb_false_iff. right.
      destruct (existsb _ months) eqn:E; [|reflexivity].
      apply existsb_exists in E. destruct E as (mo & Hin & Hmo).
      apply String.eqb_eq in Hmo. exfalso. apply Hnot. congruence.
Qed.

(** X18. The monthly series of the two dashboards ([metricsTrends] over an
    admin's founders, [platformGrowthTrends] over all documents): one point
    per month asked for, in the order asked; a month without documents gives
    a point of zeros, and no average is computed for it; over months that do
    not repeat, the counts add up to the number of documents of those months,
    each document counted once. *)
Theorem monthly_series (db : DB) (ids : list ObjectId) (months : list string) :
  map AdminDashboardService.trendMonth (AdminDashboardService.metricsTrends db ids months)
  = months
  /\ map DashboardService.growthMonth (DashboardService.platformGrowthTrends db months) = months
  /\ (forall p, In p (AdminDashboardService.metricsTrends db ids months) ->
        AdminDashboardService.trendMetricsCount p = 0%nat ->
        p = AdminDashboardService.mkMetricsTrend (AdminDashboardService.trendMonth p)
              0%float 0%float 0%float 0 0%float 0%float 0%float)
  /\ (forall p, In p (DashboardService.platformGrowthTrends db months) ->
        DashboardService.metricsCount p = 0%nat ->
        p = DashboardService.mkGrowthTrend (DashboardService.growthMonth p)
              0%float 0%float 0%float 0)
  /\ (NoDup months ->
      list_sum (map AdminDashboardService.trendMetricsCount
                  (AdminDashboardService.metricsTrends db ids months))
      = List.length
          (filter (fun m => existsb (fun id => id =? FounderMetrics.founderId m) ids
                            && existsb (fun month => FounderMetrics.month m =? month) months)
                  (foundermetrics db))
      /\ list_sum (map DashboardService.metricsCount
                     (DashboardService.platformGrowthTrends db months))
         = List.length
             (filter (fun m => existsb (fun month => FounderMetrics.month m =? month) months)
                     (foundermetrics db))).
Proof.
  split; [|split; [|split; [|split]]].
  - unfold AdminDashboardService.metricsTrends. rewrite map_map. apply map_id.
  - unfold DashboardService.platformGrowthTrends. rewrite map_map. apply map_id.
  - intros p Hp. unfold AdminDashboardService.metricsTrends in Hp.
    apply in_map_iff in Hp. destruct Hp as (month & <- & _).
    cbn [AdminDashboardService.trendMetricsCount AdminDashboardService.trendMonth].
    intros Hlen. apply length_zero_iff_nil in Hlen. rewrite Hlen. reflexivity.
  - intros p Hp. unfold DashboardService.platformGrowthTrends in Hp.
    apply in_map_iff in Hp. destruct Hp as (month & <- & _).
    cbn [DashboardService.metricsCount DashboardService.growthMonth].
    intros Hlen. apply length_zero_iff_nil in Hlen. rewrite Hlen. reflexivity.
  - intros Hnd. split.
    + unfold AdminDashboardService.metricsTrends. rewrite map_map.
      cbn [AdminDashboardService.trendMetricsCount].
      apply (monthly_counts
               (fun m => existsb (fun id => id =? FounderMetrics.founderId m) ids)
               (foundermetrics db) months Hnd).
    + unfold DashboardService.platformGrowthTrends. rewrite map_map.
      cbn [DashboardService.metricsCount].
      pose proof (monthly_counts (fun _ => true) (foundermetrics db) months Hnd) as H.
      exact H.
Qed.

Lemma monthly_series_witness :
  map DashboardService.metricsCount
    (DashboardService.platformGrowthTrends sampleDB ["2025-04"; "2025-05"; "2025-06"])
  = [0; 2; 3]%nat
  /\ list_sum (map DashboardService.metricsCount
                 (DashboardService.platformGrowthTrends sampleDB
                    ["2025-04"; "2025-05"; "2025-06"]))
     = 5%nat.
Proof.
  split; [reflexivity|].
  refine (proj2 (proj2 (proj2 (proj2 (proj2
            (monthly_series sampleDB [] ["2025-04"; "2025-05"; "2025-06"])))) _)).
  repeat (constructor; [simpl; intuition discriminate|]). constructor.
Defined.

(** ** Admins requiring attention *)

Lemma filter_filter_key (l : list Assignment.t) (q : Assignment.t -> bool) (id : ObjectId) :
  (forall a, Assignment.adminId a = id -> q a = true) ->
  filter (fun a => Assignment.adminId a =? id) (filter q l)
  = filter (fun a => Assignment.adminId a =? id) l.
Proof.
  intros Hq. induction l as [|a l IH]; simpl; [reflexivity|].
  destruct (q a) eqn:E; simpl.
  - rewrite IH. reflexivity.
  - destruct (String.eqb_spec (Assignment.adminId a) id) as [Ea|Ea]; [|assumption].
    rewrite (Hq a Ea) in E. discriminate.
Qed.

(** X19. The admins requiring attention on the main dashboard: the users of
    role admin that uploaded no document since the threshold, each once per
    user document, each with the number of its assignment edges and no
    upload date, the admins with more assignments first. *)
Theorem adminsRequiringAttention_spec (db : DB) (thirtyDaysAgo : Date) :
  Permutation
    (map DashboardService.adminId (DashboardService.adminsRequiringAttention db thirtyDaysAgo))
    (map User._id
       (filter (fun u =>
                  UserRole_eqb (User.role u) Role.admin
                  && negb (existsb (fun m => (FounderMetrics.uploadedBy m =? User._id u)
                                             && (thirtyDaysAgo <=? FounderMetrics.createdAt m)%Z)
                             (foundermetrics db)))
               (users db)))
  /\ (forall row, In row (DashboardService.adminsRequiringAttention db thirtyDaysAgo) ->
        DashboardService.assignedFoundersCount row
        = List.length (filter (fun a => Assignment.adminId a =? DashboardService.adminId row)
                         (assignments db))
        /\ DashboardService.lastUploadDate row = None
        /\ (forall m, In m (foundermetrics db) ->
              FounderMetrics.uploadedBy m = DashboardService.adminId row ->
              (FounderMetrics.createdAt m < thirtyDaysAgo)%Z)
        /\ exists u, In u (users db) /\ User._id u = DashboardService.adminId row
                     /\ User.role u = Role.admin
                     /\ User.name u = DashboardService.adminName row
                     /\ User.email u = DashboardService.adminEmail row)
  /\ Sorted.StronglySorted
       (fun a b => (DashboardService.assignedFoundersCount b
                    <= DashboardService.assignedFoundersCount a)%nat)
       (DashboardService.adminsRequiringAttention db thirtyDaysAgo).
Proof.
  unfold DashboardService.adminsRequiringAttention.
  set (selected := filter _ (filter _ (users db))).
  set (rows := map _ selected).
  set (before := fun y x : DashboardService.AdminRequiringAttention =>
                   (DashboardService.assignedFoundersCount x
                    <? DashboardService.assignedFoundersCount y)%nat).
  pose proof (sortBy_Permutation before rows) as Hperm.
  assert (Hactive : forall id,
             existsb (fun x => x =? id) (DashboardService.recentlyActiveAdminIds db thirtyDaysAgo)
             = existsb (fun m => (FounderMetrics.uploadedBy m =? id)
                                 && (thirtyDaysAgo <=? FounderMetrics.createdAt m)%Z)
                 (foundermetrics db)).
  { intros id. unfold DashboardService.recentlyActiveAdminIds.
    apply eq_true_iff_eq. rewrite existsb_eqb_In, nodup_In, in_map_iff, existsb_exists.
    split.
    - intros (m & Hu & Hm). apply filter_In in Hm. destruct Hm as [Hm Hc].
      exists m. split; [assumption|]. rewrite Hu, String.eqb_refl, Hc. reflexivity.
    - intros (m & Hm & Hk). apply andb_true_iff in Hk. destruct Hk as [Hu Hc].
      apply String.eqb_eq in Hu. exists m. split; [assumption|].
      apply filter_In. auto. }
  assert (Hsel : selected
                 = filter (fun u =>
                     UserRole_eqb (User.role u) Role.admin
                     && negb (existsb (fun m => (FounderMetrics.uploadedBy m =? User._id u)
                                                && (thirtyDaysAgo <=? FounderMetrics.createdAt m)%Z)
                                (foundermetrics db)))
                     (users db)).
  { unfold selected. generalize (users db). clear - Hactive.
    intros l. induction l as [|u l IH]; simpl; [reflexivity|].
    destruct (UserRole_eqb (User.role u) Role.admin); simpl; [|assumption].
    rewrite Hactive.
    destruct (negb _); [f_equal|]; assumption. }
  split; [|split].
  - eapply Permutation_trans; [apply Permutation_map; exact Hperm|].
    unfold rows. rewrite map_map. cbn [DashboardService.adminId]. rewrite Hsel.
    apply Permutation_refl.
  - intros row Hrow. apply (Permutation_in _ Hperm) in Hrow. unfold rows in Hrow.
    apply in_map_iff in Hrow. destruct Hrow as (u & <- & Hu).
    cbn [DashboardService.assignedFoundersCount DashboardService.adminId
           DashboardService.lastUploadDate DashboardService.adminName
           DashboardService.adminEmail].
    split; [|split; [reflexivity|split]].
    + f_equal. apply filter_filter_key. intros a Ha.
      apply existsb_exists. exists u. split; [assumption|].
      rewrite Ha. apply String.eqb_refl.
    + rewrite Hsel in Hu. apply filter_In in Hu. destruct Hu as [_ Hk].
      apply andb_true_iff in Hk. destruct Hk as [_ Hk]. apply negb_true_iff in Hk.
      intros m Hm Hup.
      destruct (Z.ltb_spec (FounderMetrics.createdAt m) thirtyDaysAgo) as [Hlt|Hge];
        [assumption|].
      exfalso.
      assert (Hex : existsb (fun m => (FounderMetrics.uploadedBy m =? User._id u)
                                      && (thirtyDaysAgo <=? FounderMetrics.createdAt m)%Z)
                      (foundermetrics db) = true).
      { apply existsb_exists. exists m. split; [assumption|].
        rewrite Hup, String.eqb_refl. simpl. apply Z.leb_le. assumption. }
      rewrite Hex in Hk. discriminate.
    + rewrite Hsel in Hu. apply filter_In in Hu. destruct Hu as [Hu Hk].
      apply andb_true_iff in Hk. destruct Hk as [Hr _].
      exists u. repeat split; try assumption.
      destruct (User.role u); try discriminate. reflexivity.
  - assert (Hs : Sorted.StronglySorted (fun a b => before b a = false) (sortBy before rows)).
    { apply (sortBy_sorted before).
      - intros x y. unfold before. rewrite Nat.ltb_lt, Nat.ltb_ge. lia.
      - intros x y z. unfold before. rewrite !Nat.ltb_ge. lia. }
    clear - Hs. induction Hs as [|a l Hs IH Hall]; constructor; [assumption|].
    rewrite Forall_forall in Hall |- *. intros b Hb. specialize (Hall b Hb).
    unfold before in Hall. apply Nat.ltb_ge in Hall. exact Hall.
Qed.

(** ** Registering founders and admins *)

Lemma find_snoc {A : Type} (p : A -> bool) (l : list A) (x : A) :
  find p (l ++ [x]) =
  match find p l with
  | Some y => Some y
  | None => if p x then Some x else None
  end.
Proof.
  induction l as [|y l IH]; simpl; [reflexivity|].
  destruct (p y); [reflexivity | assumption].
Qed.

Lemma existsb_key_false {A : Type} (key : A -> string) (k : string) (l : list A) :
  existsb (fun y => key y =? k) l = false <-> ~ In k (map key l).
Proof.
  rewrite <- (find_key_None key). induction l as [|y l IH]; simpl; [tauto|].
  destruct (key y =? k); simpl; [split; discriminate | assumption].
Qed.

Lemma sampleDB_uniqueEmails : uniqueEmails sampleDB.
Proof.
  unfold uniqueEmails. simpl.
  repeat (constructor; [simpl; intuition discriminate|]). constructor.
Defined.

Lemma foundersHaveUsers_snoc_user (db : DB) (user : User.t) (l : list Founder.t) :
  (forall f, In f l -> exists u, User_findById db (Founder.userId f) = Some u) ->
  forall f, In f l ->
    exists u, find (fun u => User._id u =? Founder.userId f) (users db ++ [user]) = Some u.
Proof.
  intros H f Hf. destruct (H f Hf) as (u & Hu). exists u.
  unfold User_findById in Hu. rewrite find_snoc, Hu. reflexivity.
Qed.

(** X20. [createFounder] is all-or-nothing and establishes what the
    assignment service relies on. Whatever the validation of the schemas
    answers: a failed call leaves the database as it was; a successful one
    adds exactly one user of role founder and one founder profile of that
    user, keeps the unique indexes and the pairing of founder profiles with
    users, makes the profile and the user found under the new user id, lets
    a replacement of the new founder's admins pass the founder checks (the
    new user id being an ObjectId, as the ids the driver generates are),
    and makes a second registration of the email fail with 400. *)
Theorem createFounder_establishes_profile {oid : ObjectIds}
    (User_validate : User.t -> string -> Result unit)
    (Founder_validate : Founder.t -> Result unit)
    (db : DB) (userData : UserService.RegisterFounderData) (newUserId newFounderId : ObjectId) :
  uniqueProfiles db ->
  uniqueEmails db ->
  foundersHaveUsers db ->
  match UserService.createFounder User_validate Founder_validate db userData
          newUserId newFounderId with
  | (db', Ok (user, founder)) =>
      users db' = users db ++ [user]
      /\ founders db' = founders db ++ [founder]
      /\ admins db' = admins db
      /\ assignments db' = assignments db
      /\ foundermetrics db' = foundermetrics db
      /\ User._id user = newUserId
      /\ User.role user = Role.founder
      /\ User.email user = UserService.founderEmail userData
      /\ Founder._id founder = newFounderId
      /\ Founder.userId founder = newUserId
      /\ uniqueProfiles db' /\ uniqueEmails db' /\ foundersHaveUsers db'
      /\ AssignmentService.getFounderByUserId db' newUserId = Some founder
      /\ User_findById db' newUserId = Some user
      /\ (forall assignedBy now,
            ObjectId_isValid newUserId = true ->
            snd (AssignmentService.assignAdminsToFounder db' newUserId [] assignedBy now)
            = Ok tt)
      /\ (forall again id1 id2,
            UserService.founderEmail again = UserService.founderEmail userData ->
            UserService.createFounder User_validate Founder_validate db' again id1 id2
            = (db', Err (AppError "User already exists" 400)))
  | (db', Err e) => db' = db
  end.
Proof.
  intros (Huid & Had & Hfu) Hemail Hpair. unfold UserService.createFounder.
  destruct (UserService.User_findOne_email (users db) (UserService.founderEmail userData))
    as [x|] eqn:Hfind; [reflexivity|].
  set (user := User.mk newUserId (JS.trim (UserService.founderName userData))
                 (UserService.founderEmail userData) Role.founder).
  unfold bindR.
  destruct (User_validate user (UserService.founderPassword userData)); [|reflexivity].
  unfold UserService.User_insertOne.
  destruct (existsb (fun u => User._id u =? User._id user) (users db)) eqn:Hid1;
    [reflexivity|].
  destruct (existsb (fun u => User.email u =? User.email user) (users db)) eqn:Hem1;
    [reflexivity|].
  cbn [orb].
  set (founder := Founder.mk newFounderId (User._id user)
                    (JS.trim (UserService.companyName userData))
                    (option_map JS.trim (UserService.industry userData))).
  destruct (Founder_validate founder); [|reflexivity].
  unfold UserService.Founder_insertOne.
  destruct (existsb (fun f => Founder._id f =? Founder._id founder) (founders db)) eqn:Hid2;
    [reflexivity|].
  destruct (existsb (fun f => Founder.userId f =? Founder.userId founder) (founders db))
    eqn:Hus2; [reflexivity|].
  cbn [orb users founders admins assignments foundermetrics].
  apply (existsb_key_false User._id) in Hid1.
  apply (existsb_key_false User.email) in Hem1.
  apply (existsb_key_false Founder.userId) in Hus2.
  assert (Huser : find (fun u => User._id u =? newUserId) (users db ++ [user]) = Some user).
  { rewrite find_snoc. apply (find_key_None User._id) in Hid1. simpl in Hid1.
    rewrite Hid1. simpl. rewrite String.eqb_refl. reflexivity. }
  assert (Hprofile : find (fun f => Founder.userId f =? newUserId) (founders db ++ [founder])
                     = Some founder).
  { rewrite find_snoc. apply (find_key_None Founder.userId) in Hus2. simpl in Hus2.
    rewrite Hus2. simpl. rewrite String.eqb_refl. reflexivity. }
  repeat (split; [reflexivity|]).
  split; [|split; [|split; [|split; [|split; [|split]]]]].
  - unfold uniqueProfiles. cbn [users founders admins].
    split; [apply NoDup_map_snoc; assumption|].
    split; [assumption | apply NoDup_map_snoc; assumption].
  - unfold uniqueEmails. cbn [users]. apply NoDup_map_snoc; assumption.
  - intros f Hf. cbn [founders] in Hf. unfold User_findById. cbn [users].
    apply in_app_or in Hf. destruct Hf as [Hf|[<-|[]]].
    + apply (foundersHaveUsers_snoc_user db user (founders db) Hpair f Hf).
    + exists user. exact Huser.
  - exact Hprofile.
  - exact Huser.
  - intros assignedBy now Hc. unfold AssignmentService.assignAdminsToFounder,
      Founder_findOne_userId, User_findById, castObjectId. cbn [users founders].
    rewrite Hc, Hprofile, Huser. reflexivity.
  - intros again id1 id2 Hsame. unfold UserService.createFounder.
    cbn [users]. unfold UserService.User_findOne_email. rewrite find_snoc, Hsame.
    unfold UserService.User_findOne_email in Hfind. rewrite Hfind.
    simpl. rewrite String.eqb_refl. reflexivity.
Qed.

Section SampleCreateFounderEstablishesProfile.
#[local] Existing Instance sampleObjectIds.

Lemma createFounder_establishes_profile_witness :
  exists db' user founder,
    UserService.createFounder acceptUser acceptFounder sampleDB
      (UserService.mkRegisterFounderData " Gus " "gus@example.com" "secret1" "Gizmo" None)
      "F3" "fd3"
    = (db', Ok (user, founder))
    /\ User.name user = "Gus"
    /\ AssignmentService.getFounderByUserId db' "F3" = Some founder
    /\ foundersHaveUsers db'.
Proof.
  pose proof (createFounder_establishes_profile (oid := sampleObjectIds)
      acceptUser acceptFounder sampleDB
                (UserService.mkRegisterFounderData " Gus " "gus@example.com" "secret1"
                   "Gizmo" None)
                "F3" "fd3" sampleDB_unique sampleDB_uniqueEmails sampleDB_foundersHaveUsers)
    as H.
  cbv beta iota zeta delta [UserService.createFounder acceptUser acceptFounder bindR] in H.
  simpl in H.
  destruct H as (_ & _ & _ & _ & _ & _ & _ & _ & _ & _ & _ & _ & Hpair & Hget & _).
  eexists _, _, _. split; [reflexivity|]. split; [reflexivity|].
  split; [exact Hget | exact Hpair].
Defined.

End SampleCreateFounderEstablishesProfile.

(** X21. [createAdmin] is all-or-nothing and establishes a valid admin id.
    A failed call leaves the database as it was; a successful one adds one
    user of role admin and its admin profile, keeps the unique indexes and
    the pairing of founder profiles with users, and the new user id, an
    ObjectId as the ids the driver generates are, is one the assignment
    service accepts: assigning the new admin alone to a founder that has
    its profile and its founder-role user under an ObjectId succeeds, after
    which the assignment check accepts the pair and [getAssignedAdmins]
    lists the new admin. *)
Theorem createAdmin_establishes_admin {oid : ObjectIds}
    (User_validate : User.t -> string -> Result unit)
    (Admin_validate : Admin.t -> option string -> Result unit)
    (db : DB) (userData : UserService.RegisterAdminData) (newUserId newAdminId : ObjectId) :
  uniqueProfiles db ->
  uniqueEmails db ->
  foundersHaveUsers db ->
  match UserService.createAdmin User_validate Admin_validate db userData
          newUserId newAdminId with
  | (db', Ok (user, admin)) =>
      users db' = users db ++ [user]
      /\ admins db' = admins db ++ [admin]
      /\ founders db' = founders db
      /\ assignments db' = assignments db
      /\ foundermetrics db' = foundermetrics db
      /\ User._id user = newUserId
      /\ User.role user = Role.admin
      /\ Admin.userId admin = newUserId
      /\ uniqueProfiles db' /\ uniqueEmails db' /\ foundersHaveUsers db'
      /\ (ObjectId_isValid newUserId = true -> isValidAdminId db' newUserId = true)
      /\ (forall founderId founder founderUser assignedBy now,
            ObjectId_isValid newUserId = true ->
            ObjectId_isValid founderId = true ->
            Founder_findOne_userId db founderId = Some founder ->
            User_findById db founderId = Some founderUser ->
            User.role founderUser = Role.founder ->
            exists db'',
              AssignmentService.assignAdminsToFounder db' founderId [newUserId] assignedBy now
              = (db'', Ok tt)
              /\ AssignmentService.isAssigned db'' newUserId founderId = Ok true
              /\ exists rows,
                   AssignmentService.getAssignedAdmins db'' founderId = Ok rows
                   /\ map AssignmentService.adminId rows = [newUserId])
  | (db', Err e) => db' = db
  end.
Proof.
  intros (Huid & Had & Hfu) Hemail Hpair. unfold UserService.createAdmin.
  destruct (UserService.User_findOne_email (users db) (UserService.adminEmail userData))
    as [x|] eqn:Hfind; [reflexivity|].
  set (user := User.mk newUserId (JS.trim (UserService.adminName userData))
                 (UserService.adminEmail userData) Role.admin).
  unfold bindR.
  destruct (User_validate user (UserService.adminPassword userData)); [|reflexivity].
  unfold UserService.User_insertOne.
  destruct (existsb (fun u => User._id u =? User._id user) (users db)) eqn:Hid1;
    [reflexivity|].
  destruct (existsb (fun u => User.email u =? User.email user) (users db)) eqn:Hem1;
    [reflexivity|].
  cbn [orb].
  set (admin := Admin.mk newAdminId (User._id user)).
  destruct (Admin_validate admin (UserService.bio userData)); [|reflexivity].
  unfold UserService.Admin_insertOne.
  destruct (existsb (fun a => Admin._id a =? Admin._id admin) (admins db)) eqn:Hid2;
    [reflexivity|].
  destruct (existsb (fun a => Admin.userId a =? Admin.userId admin) (admins db))
    eqn:Hus2; [reflexivity|].
  cbn [orb users founders admins assignments foundermetrics].
  apply (existsb_key_false User._id) in Hid1.
  apply (existsb_key_false User.email) in Hem1.
  apply (existsb_key_false Admin.userId) in Hus2.
  set (db' := mkDB (users db ++ [user]) (founders db) (admins db ++ [admin]) (assignments db)
                (foundermetrics db)).
  assert (Huser : User_findById db' newUserId = Some user).
  { unfold User_findById. cbn [users db']. rewrite find_snoc.
    apply (find_key_None User._id) in Hid1. simpl in Hid1.
    rewrite Hid1. simpl. rewrite String.eqb_refl. reflexivity. }
  assert (Hprofile : Admin_findOne_userId db' newUserId = Some admin).
  { unfold Admin_findOne_userId. cbn [admins db']. rewrite find_snoc.
    apply (find_key_None Admin.userId) in Hus2. simpl in Hus2.
    rewrite Hus2. simpl. rewrite String.eqb_refl. reflexivity. }
  assert (Hvalid : ObjectId_isValid newUserId = true -> isValidAdminId db' newUserId = true)
    by (intros Hc; unfold isValidAdminId; rewrite Hc, Hprofile, Huser; reflexivity).
  assert (Huniq' : uniqueProfiles db').
  { unfold uniqueProfiles. cbn [users founders admins db'].
    split; [apply NoDup_map_snoc; assumption|].
    split; [apply NoDup_map_snoc; assumption | assumption]. }
  repeat (split; [reflexivity|]).
  split; [exact Huniq'|]. split; [|split; [|split]].
  - unfold uniqueEmails. cbn [users]. apply NoDup_map_snoc; assumption.
  - intros f Hf. cbn [founders] in Hf. unfold User_findById. cbn [users].
    apply (foundersHaveUsers_snoc_user db user (founders db) Hpair f Hf).
  - exact Hvalid.
  - intros founderId founder founderUser assignedBy now Hc Hcf Hf Hu Hrole.
    assert (Hf' : Founder_findOne_userId db' founderId = Some founder) by exact Hf.
    assert (Hu' : User_findById db' founderId = Some founderUser).
    { unfold User_findById in Hu |- *. cbn [users db']. rewrite find_snoc, Hu. reflexivity. }
    assert (Hall : forallb (isValidAdminId db') [newUserId] = true)
      by (simpl; rewrite (Hvalid Hc); reflexivity).
    assert (Hnd : NoDup [newUserId]) by (constructor; [intros [] | constructor]).
    eexists. split;
      [exact (assignAdminsToFounder_succeeds db' founderId [newUserId] assignedBy now
                founder founderUser Hcf Hf' Hu' Hrole Hall Hnd)|].
    split.
    + rewrite isAssigned_eq.
      change (Founder_findOne_userId (set_assignments db' _) founderId)
        with (Founder_findOne_userId db' founderId).
      rewrite Hf'. cbn [assignments set_assignments].
      rewrite Assignment_findOne_app, Assignment_findOne_deleted, Assignment_findOne_edges.
      simpl. rewrite String.eqb_refl. reflexivity.
    + unfold AssignmentService.getAssignedAdmins, castObjectId. rewrite Hcf. cbn [bindR].
      change (Founder_findOne_userId (set_assignments db' _) founderId)
        with (Founder_findOne_userId db' founderId).
      rewrite Hf'. eexists. split; [reflexivity|].
      match goal with
      | |- context [filter ?p (assignments ?d)] =>
          change (filter p (assignments d)) with (edgesOf d (Founder._id founder))
      end.
      rewrite edgesOf_replaced.
      apply (getAssignedAdmins_rows db' (Founder._id founder) assignedBy now [newUserId]
               Huniq' Hall).
Qed.

Section SampleCreateAdminEstablishesAdmin.
#[local] Existing Instance sampleObjectIds.

Lemma createAdmin_establishes_admin_witness :
  exists db' user admin,
    UserService.createAdmin acceptUser acceptAdmin sampleDB
      (UserService.mkRegisterAdminData "Amy" "amy@example.com" "secret1" None) "A3" "ad3"
    = (db', Ok (user, admin))
    /\ isValidAdminId db' "A3" = true.
Proof.
  pose proof (createAdmin_establishes_admin (oid := sampleObjectIds) acceptUser acceptAdmin sampleDB
                (UserService.mkRegisterAdminData "Amy" "amy@example.com" "secret1" None)
                "A3" "ad3" sampleDB_unique sampleDB_uniqueEmails sampleDB_foundersHaveUsers)
    as H.
  cbv beta iota zeta delta [UserService.createAdmin acceptUser acceptAdmin bindR] in H.
  simpl in H.
  destruct H as (_ & _ & _ & _ & _ & _ & _ & _ & _ & _ & _ & Hvalid & _).
  eexists _, _, _. split; [reflexivity | apply Hvalid; reflexivity].
Defined.

End SampleCreateAdminEstablishesAdmin.

(** ** The invariants of the assignments *)

Lemma NoDup_map_app {A B : Type} (g : A -> B) (l1 l2 : list A) :
  NoDup (map g l1) -> NoDup (map g l2) ->
  (forall x y, In x l1 -> In y l2 -> g x <> g y) ->
  NoDup (map g (l1 ++ l2)).
Proof.
  intros H1 H2 Hd. rewrite map_app. apply NoDup_app; try assumption.
  intros b Hb1 Hb2. apply in_map_iff in Hb1. apply in_map_iff in Hb2.
  destruct Hb1 as (x & Hx & Hxin). destruct Hb2 as (y & Hy & Hyin).
  apply (Hd x y Hxin Hyin). congruence.
Qed.

Lemma NoDup_map_inj {A B : Type} (g : A -> B) (l : list A) :
  (forall x y, g x = g y -> x = y) -> NoDup l -> NoDup (map g l).
Proof.
  intros Hinj Hnd. induction Hnd as [|x l Hnot Hnd IH]; simpl; constructor; [|assumption].
  intros Hin. apply in_map_iff in Hin. destruct Hin as (y & Hy & Hyin).
  apply Hinj in Hy. subst. contradiction.
Qed.

Lemma NoDup_map_filter {A B : Type} (g : A -> B) (p : A -> bool) (l : list A) :
  NoDup (map g l) -> NoDup (map g (filter p l)).
Proof.
  induction l as [|x l IH]; simpl; intros Hnd; [constructor|].
  inversion Hnd as [|? ? Hnot Hnd']; subst.
  destruct (p x); simpl; [|auto]. constructor; [|auto].
  intros Hin. apply Hnot. apply in_map_iff in Hin. destruct Hin as (y & Hy & Hyin).
  apply in_map_iff. exists y. split; [assumption|]. apply filter_In in Hyin. tauto.
Qed.

Lemma founderIdsOf_total (db : DB) (l : list Assignment.t) :
  (forall a, In a l -> Founder_findById db (Assignment.founderId a) <> None) ->
  exists ids, AdminDashboardService.founderIdsOf db l = Ok ids.
Proof.
  induction l as [|a l IH]; simpl; intros H; [eexists; reflexivity|].
  destruct (Founder_findById db (Assignment.founderId a)) as [f|] eqn:Hf.
  - destruct IH as (ids & ->); [intros x Hx; apply H; right; assumption|].
    eexists. reflexivity.
  - exfalso. apply (H a (or_introl eq_refl)). assumption.
Qed.

(** X22. The replacement keeps the assignments well-formed: after any call
    of [assignAdminsToFounder], failed or not, no (founder, admin) pair is
    stored twice and every edge points to a founder document, when this
    held before; and over such a collection the scope of an admin's
    dashboard is computed for every admin, the population of the edges never
    meeting a missing founder. *)
Theorem replacement_preserves_invariants {oid : ObjectIds} (db : DB) (founderId : ObjectId)
    (adminIds : list ObjectId) (assignedBy : ObjectId) (now : Date) :
  assignmentIndex db ->
  edgesHaveFounders db ->
  assignmentIndex
    (fst (AssignmentService.assignAdminsToFounder db founderId adminIds assignedBy now))
  /\ edgesHaveFounders
       (fst (AssignmentService.assignAdminsToFounder db founderId adminIds assignedBy now))
  /\ forall adminId,
       exists ids,
         AdminDashboardService.assignedFounderIds
           (fst (AssignmentService.assignAdminsToFounder db founderId adminIds assignedBy now))
           adminId
         = Ok ids.
Proof.
  intros Hidx Hedges.
  assert (Hgoal : forall db',
             assignmentIndex db' -> edgesHaveFounders db' ->
             assignmentIndex db' /\ edgesHaveFounders db'
             /\ forall adminId, exists ids,
                  AdminDashboardService.assignedFounderIds db' adminId = Ok ids).
  { intros db' Hi He. split; [assumption|]. split; [assumption|].
    intros adminId. unfold AdminDashboardService.assignedFounderIds.
    apply founderIdsOf_total. intros a Ha. apply filter_In in Ha. apply He. tauto. }
  destruct (assignAdminsToFounder_outcome db founderId adminIds assignedBy now)
    as [(e & -> & _)|(fd & Hfd & Hok)]; [apply Hgoal; assumption|].
  destruct (AssignmentService.assignAdminsToFounder db founderId adminIds assignedBy now)
    as [db' r] eqn:Hcall.
  rewrite Hok in Hcall. cbn [fst].
  assert (Hnd : NoDup adminIds).
  { destruct (assignAdminsToFounder_Ok _ _ _ _ _ _ (Hok now)) as (_ & _ & _ & H & _).
    exact H. }
  inversion Hcall; subst db' r. clear Hcall.
  apply Hgoal.
  - unfold assignmentIndex. cbn [assignments set_assignments].
    apply NoDup_map_app.
    + apply NoDup_map_filter. exact Hidx.
    + rewrite map_map. unfold assignmentKey, edge. simpl.
      apply NoDup_map_inj; [|assumption].
      intros x y E. inversion E. reflexivity.
    + intros x y Hx Hy E. unfold Assignment_deleteMany in Hx. apply filter_In in Hx.
      destruct Hx as [_ Hx]. apply negb_true_iff, String.eqb_neq in Hx.
      apply in_map_iff in Hy. destruct Hy as (a & <- & _).
      unfold assignmentKey, edge in E. simpl in E. inversion E. contradiction.
  - intros a Ha. cbn [assignments set_assignments] in Ha.
    change (Founder_findById (set_assignments db _) (Assignment.founderId a))
      with (Founder_findById db (Assignment.founderId a)).
    apply in_app_or in Ha. destruct Ha as [Ha|Ha].
    + apply Hedges. unfold Assignment_deleteMany in Ha. apply filter_In in Ha. tauto.
    + apply in_map_iff in Ha. destruct Ha as (x & <- & _). simpl.
      pose proof (find_key_In Founder.userId _ _ _ Hfd) as [Hin _].
      intros Hnone. apply (find_key_None Founder._id) in Hnone.
      apply Hnone. apply in_map. assumption.
Qed.

Lemma sampleDB_edgesHaveFounders : edgesHaveFounders sampleDB.
Proof.
  intros a [<-|[]]. discriminate.
Defined.

Section SampleReplacementPreservesInvariants.
#[local] Existing Instance sampleObjectIds.

Lemma replacement_preserves_invariants_witness :
  assignmentIndex
    (fst (AssignmentService.assignAdminsToFounder sampleDB "F1" ["A1"; "A2"] "S1" 60%Z))
  /\ exists ids,
       AdminDashboardService.assignedFounderIds
         (fst (AssignmentService.assignAdminsToFounder sampleDB "F1" ["A1"; "A2"] "S1" 60%Z))
         "A2"
       = Ok ids.
Proof.
  destruct (replacement_preserves_invariants (oid := sampleObjectIds)
      sampleDB "F1" ["A1"; "A2"] "S1" 60%Z
              sampleDB_assignmentIndex sampleDB_edgesHaveFounders) as (Hidx & _ & Hscope).
  split; [exact Hidx | exact (Hscope "A2")].
Defined.

End SampleReplacementPreservesInvariants.

(** ** The month of a report *)

Lemma ascii_eqb_nat (c : ascii) (n : nat) :
  (n < 256)%nat -> Ascii.eqb c (ascii_of_nat n) = (nat_of_ascii c =? n)%nat.
Proof.
  intros Hn. apply eq_true_iff_eq. rewrite Ascii.eqb_eq, Nat.eqb_eq. split.
  - intros ->. apply nat_ascii_embedding. assumption.
  - intros <-. symmetry. apply ascii_nat_embedding.
Qed.

(** X23. The month test of the reports checks the range the metrics test
    does not: [uploadReport] and the report schema accept exactly the keys
    made of a four-digit year, a hyphen and a month from 01 to 12; every
    key the reports accept passes the test of the metrics upload, and
    "2025-13" and "2025-00" pass the metrics test and fail the one of the
    reports. *)
Theorem report_month_is_range_checked :
  (forall s, ReportService.testMonth s = validMonthKey s)
  /\ (forall s, ReportService.testMonth s = true -> JS.testMonthFormat s = true)
  /\ JS.testMonthFormat "2025-13" = true /\ ReportService.testMonth "2025-13" = false
  /\ JS.testMonthFormat "2025-00" = true /\ ReportService.testMonth "2025-00" = false.
Proof.
  assert (Heq : forall s, ReportService.testMonth s = validMonthKey s).
  { intros s.
    destruct s as [|y1 [|y2 [|y3 [|y4 [|h [|m1 [|m2 [|c s]]]]]]]]; try reflexivity.
    unfold ReportService.testMonth, validMonthKey.
    rewrite <- !andb_assoc. do 5 f_equal.
    change "0"%char with (ascii_of_nat 48). change "1"%char with (ascii_of_nat 49).
    rewrite !ascii_eqb_nat by lia. unfold JS.isDigit.
    generalize (nat_of_ascii m1) (nat_of_ascii m2). intros a b.
    apply eq_true_iff_eq.
    rewrite ?orb_true_iff, ?andb_true_iff, ?Nat.leb_le, ?Nat.eqb_eq.
    rewrite ?orb_true_iff, ?andb_true_iff, ?Nat.leb_le, ?Nat.eqb_eq. lia. }
  split; [exact Heq|]. split; [|repeat split; reflexivity].
  intros s. rewrite Heq. apply validMonthKey_testMonthFormat.
Qed.

(** ** The role and permission middlewares *)

(** X24. The two [authorize] middlewares of the repository decide alike:
    a request passes exactly when it carries a role and the role is one of
    those listed; every refusal is a 403, whatever its message. *)
Theorem authorize_agree (roles : list UserRole) (userRole : option UserRole) :
  (authorize roles userRole = Ok tt <-> exists role, userRole = Some role /\ In role roles)
  /\ (auth.authorize roles userRole = Ok tt <-> authorize roles userRole = Ok tt)
  /\ (forall e, authorize roles userRole = Err e -> isForbidden e = true)
  /\ (forall e, auth.authorize roles userRole = Err e -> isForbidden e = true).
Proof.
  assert (Hin : forall role,
             existsb (UserRole_eqb role) roles = true <-> In role roles).
  { intros role. rewrite existsb_exists. split.
    - intros (x & Hx & E). destruct role, x; try discriminate; assumption.
    - intros H. exists role. split; [assumption | destruct role; reflexivity]. }
  unfold authorize, auth.authorize. destruct userRole as [role|].
  - destruct (existsb (UserRole_eqb role) roles) eqn:E.
    + split; [|split; [tauto|split; discriminate]].
      split; [intros _; exists role; split; [reflexivity | apply Hin; assumption] | reflexivity].
    + split; [|split; [split; discriminate|]].
      * split; [discriminate|]. intros (r & Hr & Hrin). inversion Hr; subst.
        apply Hin in Hrin. congruence.
      * split; intros e H; inversion H; reflexivity.
  - split; [|split; [split; discriminate|]].
    + split; [discriminate | intros (r & Hr & _); discriminate].
    + split; intros e H; inversion H; reflexivity.
Qed.

(** X25. The permission handlers are ordered: who may manage users may
    manage content, and who may manage the content of a founder named in
    the route may access it; a founder never manages content, an admin
    manages it on a route that names no founder; [checkPermission] lets a
    request pass exactly when it is authenticated and the handler grants,
    answers 401 without a user or a role and 403 on a refusal. *)
Theorem permissions_ordered (db : DB) (founderId userId : ObjectId) (userRole : UserRole) :
  founderId <> "" ->
  (canManageUsers userRole = true -> canManageContent db (Some founderId) userId userRole = true)
  /\ (canManageContent db (Some founderId) userId userRole = true ->
      canAccessFounderContent db founderId userId userRole = true)
  /\ (forall param, canManageContent db param userId Role.founder = false)
  /\ canManageContent db None userId Role.admin = true
  /\ (forall permission actor role,
        checkPermission permission actor role = Ok tt <->
        exists u r, actor = Some u /\ role = Some r /\ u <> "" /\ permission u r = true)
  /\ (forall permission actor role e,
        checkPermission permission actor role = Err e ->
        (e = AppError "Not authenticated" 401
         /\ (actor = None \/ actor = Some "" \/ role = None))
        \/ (isForbidden e = true
            /\ exists u r, actor = Some u /\ role = Some r /\ permission u r = false)).
Proof.
  intros Hne. apply String.eqb_neq in Hne.
  split; [|split; [|split; [|split; [|split]]]].
  - destruct userRole; simpl; try discriminate. reflexivity.
  - destruct userRole; simpl; try discriminate; [reflexivity|]. rewrite Hne. tauto.
  - reflexivity.
  - reflexivity.
  - intros permission actor role. unfold checkPermission.
    destruct actor as [u|]; [|split; [discriminate | intros (? & ? & ? & _); discriminate]].
    destruct role as [r|]; [|split; [discriminate | intros (? & ? & _ & ? & _); discriminate]].
    destruct (String.eqb_spec u "") as [E|E].
    + split; [discriminate|]. intros (u' & r' & Hu & _ & Hu' & _). congruence.
    + destruct (permission u r) eqn:Hp; simpl.
      * split; [intros _; exists u, r; auto | reflexivity].
      * split; [discriminate|]. intros (u' & r' & Hu & Hr & _ & Hp'). congruence.
  - intros permission actor role e. unfold checkPermission.
    destruct actor as [u|]; [|intros H; inversion H; left; auto].
    destruct role as [r|]; [|intros H; inversion H; left; auto].
    destruct (String.eqb_spec u "") as [E|E]; [intros H; inversion H; subst; left; auto|].
    destruct (permission u r) eqn:Hp; simpl; [discriminate|].
    intros H. inversion H. right. split; [reflexivity|]. exists u, r. auto.
Qed.

Lemma permissions_ordered_witness :
  canManageContent sampleDB (Some "fd1") "A1" Role.admin = true
  /\ canAccessFounderContent sampleDB "fd1" "A1" Role.admin = true.
Proof.
  split; [reflexivity|].
  apply (proj1 (proj2 (permissions_ordered sampleDB "fd1" "A1" Role.admin
                         ltac:(discriminate)))).
  reflexivity.
Defined.

(** ** Reading what was written *)

(** A successful upload under the indexes: one document of the pair
    afterwards, written over the document of the pair or added at the end,
    the other collections untouched. *)
Lemma uploadMetrics_shape (db db' : DB) (F U : ObjectId) (M : string)
    (data : MetricsService.MetricsData) (newId : ObjectId) (now : Date) (r : FounderMetrics.t) :
  metricsIndexes db ->
  MetricsService.uploadMetrics db F U M data newId now = (db', Ok r) ->
  filter (sameKey F M) (foundermetrics db') = [r]
  /\ FounderMetrics.founderId r = F
  /\ FounderMetrics.month r = M
  /\ FounderMetrics.uploadedBy r = U
  /\ ((exists l1 old l2,
         foundermetrics db = l1 ++ old :: l2
         /\ foundermetrics db' = l1 ++ r :: l2
         /\ FounderMetrics.founderId old = F)
      \/ foundermetrics db' = foundermetrics db ++ [r])
  /\ users db' = users db /\ founders db' = founders db
  /\ admins db' = admins db /\ assignments db' = assignments db.
Proof.
  intros [Hid Hkey]. unfold MetricsService.uploadMetrics, FounderMetrics_findOne.
  fold (sameKey F M).
  destruct (find (sameKey F M) (foundermetrics db)) as [old|] eqn:Hfind.
  - fold (overwritten old U data now).
    destruct (FounderMetrics_validate (overwritten old U data now)); [|discriminate].
    intros H. inversion H; subst db' r. clear H.
    destruct (find_sameKey_split F M _ old Hid Hkey Hfind)
      as (l1 & l2 & Hl & Hold & Hk1 & Hk2 & Hi1).
    pose proof Hold as Hold'. apply sameKey_iff in Hold'. unfold metricsKey in Hold'.
    cbn [foundermetrics set_foundermetrics users founders admins assignments].
    rewrite Hl. rewrite FounderMetrics_updateOne_split by auto.
    split; [apply filter_sameKey_split; assumption|].
    split; [simpl; congruence|]. split; [simpl; congruence|]. split; [reflexivity|].
    split; [|repeat split; reflexivity].
    left. exists l1, old, l2. repeat split. congruence.
  - fold (created newId F U M data now).
    destruct (FounderMetrics_validate (created newId F U M data now)); [|discriminate].
    unfold FounderMetrics_insertOne, FounderMetrics_findOne.
    destruct (existsb _ (foundermetrics db)); [discriminate|].
    change (FounderMetrics.founderId (created newId F U M data now)) with F.
    change (FounderMetrics.month (created newId F U M data now)) with M.
    fold (sameKey F M). rewrite Hfind.
    intros H. inversion H; subst db' r. clear H.
    cbn [foundermetrics set_foundermetrics users founders admins assignments].
    split.
    { rewrite filter_app, (filter_sameKey_nil F M _ (find_sameKey_None F M _ Hfind)).
      simpl. unfold sameKey. simpl. rewrite !String.eqb_refl. reflexivity. }
    repeat split; try reflexivity. right. reflexivity.
Qed.

(** X26. Read your writes: after a successful upload through the route,
    under the indexes of the collection, the monthly read of the founder
    and month returns the document the upload returned, with the uploader
    populated, and the founder's list, which is read under a founder id
    that is an ObjectId, holds it as its only row of that month. *)
Theorem upload_then_read {oid : ObjectIds} (db db' : DB) (userId : ObjectId) (userRole : UserRole)
    (founderId : ObjectId) (body : metricsController.Body) (newId : ObjectId) (now : Date)
    (r : FounderMetrics.t) :
  metricsIndexes db ->
  metricsRoutes.postFounderMetrics db userId userRole founderId body newId now = (db', Ok r) ->
  (forall reader,
     metricsController.getFounderMonthlyMetrics db' reader Role.super_admin founderId
       (FounderMetrics.month r)
     = Ok (r, User_findById db userId))
  /\ (ObjectId_isValid founderId = true ->
      exists rows,
        MetricsService.getFounderMetrics db' founderId = Ok rows
        /\ filter (fun row => FounderMetrics.month (fst row) =? FounderMetrics.month r) rows
           = [(r, User_findById db userId)]).
Proof.
  intros Hidx. unfold metricsRoutes.postFounderMetrics.
  destruct (auth.authorize [Role.admin; Role.super_admin] (Some userRole)); [|discriminate].
  destruct (controller_uploadMetrics_cases db userId userRole founderId body newId now)
    as [(e' & ->)|(month & data & _ & Hmonth & _ & ->)]; [discriminate|].
  intros Hup.
  destruct (uploadMetrics_shape _ _ _ _ _ _ _ _ _ Hidx Hup)
    as (Hone & Hf & Hm & Hu & _ & Husers & _).
  assert (Hpop : User_findById db' (FounderMetrics.uploadedBy r) = User_findById db userId)
    by (unfold User_findById; rewrite Husers, Hu; reflexivity).
  split.
  - intros reader. unfold metricsController.getFounderMonthlyMetrics, bindR.
    rewrite Hm, Hmonth. cbn [negb].
    unfold MetricsService.getFounderMonthlyMetrics, FounderMetrics_findOne.
    fold (sameKey founderId month).
    rewrite (filter_singleton_find _ _ _ Hone). cbn [option_map]. rewrite Hpop. reflexivity.
  - intros Hcf. unfold MetricsService.getFounderMetrics, castObjectId.
    rewrite Hcf. cbn [bindR]. eexists. split; [reflexivity|].
    rewrite sortByMonthDesc_sortBy.
    set (before := fun y x : FounderMetrics.t =>
                     String.ltb (FounderMetrics.month x) (FounderMetrics.month y)).
    set (docs := filter (fun m => FounderMetrics.founderId m =? founderId) (foundermetrics db')).
    assert (Hfilter : forall l : list FounderMetrics.t,
               filter (fun row : FounderMetrics.t * option User.t =>
                         FounderMetrics.month (fst row) =? FounderMetrics.month r)
                 (map (fun m => (m, User_findById db' (FounderMetrics.uploadedBy m))) l)
               = map (fun m => (m, User_findById db' (FounderMetrics.uploadedBy m)))
                   (filter (fun m => FounderMetrics.month m =? FounderMetrics.month r) l)).
    { intros l. induction l as [|x l IH]; simpl; [reflexivity|].
      destruct (FounderMetrics.month x =? FounderMetrics.month r); simpl; rewrite IH;
        reflexivity. }
    rewrite Hfilter.
    assert (Hdocs : filter (fun m => FounderMetrics.month m =? FounderMetrics.month r) docs
                    = [r]).
    { unfold docs. rewrite <- Hone, Hm. clear.
      induction (foundermetrics db') as [|x l IH]; simpl; [reflexivity|].
      unfold sameKey at 1.
      destruct (FounderMetrics.founderId x =? founderId); simpl; [|assumption].
      destruct (FounderMetrics.month x =? month); [f_equal|]; assumption. }
    assert (Hsorted : filter (fun m => FounderMetrics.month m =? FounderMetrics.month r)
                        (sortBy before docs) = [r]).
    { pose proof (sortBy_Permutation before docs) as Hperm.
      assert (Hp : Permutation
                     (filter (fun m => FounderMetrics.month m =? FounderMetrics.month r)
                        (sortBy before docs))
                     (filter (fun m => FounderMetrics.month m =? FounderMetrics.month r) docs)).
      { clear - Hperm. induction Hperm; simpl.
        - apply Permutation_refl.
        - destruct (FounderMetrics.month x =? FounderMetrics.month r);
            [apply perm_skip|]; assumption.
        - destruct (FounderMetrics.month x =? FounderMetrics.month r),
            (FounderMetrics.month y =? FounderMetrics.month r);
            try apply Permutation_refl. apply perm_swap.
        - eapply Permutation_trans; eassumption. }
      rewrite Hdocs in Hp. apply Permutation_sym, Permutation_length_1_inv in Hp. exact Hp. }
    rewrite Hsorted. simpl. rewrite Hpop. reflexivity.
Qed.

Section SampleUploadThenRead.
#[local] Existing Instance sampleObjectIds.

Lemma upload_then_read_witness :
  exists row,
    metricsController.getFounderMonthlyMetrics
      (fst (metricsRoutes.postFounderMetrics sampleDB "A1" Role.admin "F1"
              (sampleBody "2025-06" 60%float 130%float 12%float) "m9" 300%Z))
      "S1" Role.super_admin "F1" "2025-06"
    = Ok row
    /\ FounderMetrics._id (fst row) = "m2"
    /\ FounderMetrics.totalPosts (fst row) = 60%float.
Proof.
  eexists. split.
  - exact (proj1 (upload_then_read (oid := sampleObjectIds) sampleDB _ "A1" Role.admin "F1"
                    (sampleBody "2025-06" 60%float 130%float 12%float) "m9" 300%Z _
                    sampleDB_indexes eq_refl) "S1").
  - split; reflexivity.
Defined.

End SampleUploadThenRead.

(** ** Uploading the same data again *)

Lemma number_eqb_refl (x : JS.number) :
  PrimFloat.is_nan x = false -> PrimFloat.eqb x x = true.
Proof.
  intros H. apply is_nan_Prim2SF in H. rewrite FloatAxioms.eqb_spec.
  unfold SFeqb, SFcompare.
  destruct (Prim2SF x) as [s|s| |s m e]; try reflexivity.
  - destruct s; reflexivity.
  - contradiction.
  - change (Pos.compare_cont Eq m m) with (Pos.compare m m).
    destruct s; rewrite Z.compare_refl, Pos.compare_refl; reflexivity.
Qed.

Lemma optionString_eqb_refl (a : option string) : optionString_eqb a a = true.
Proof. destruct a as [x|]; simpl; [apply String.eqb_refl | reflexivity]. Qed.

Lemma validNumberMin0_not_nan (x : JS.number) :
  validNumberMin0 x = true -> PrimFloat.is_nan x = false.
Proof.
  unfold validNumberMin0. rewrite andb_true_iff, negb_true_iff. tauto.
Qed.

Lemma FounderMetrics_validate_numbers (m : FounderMetrics.t) :
  FounderMetrics_validate m = Ok tt ->
  PrimFloat.is_nan (FounderMetrics.totalPosts m) = false
  /\ PrimFloat.is_nan (FounderMetrics.totalImpressions m) = false
  /\ PrimFloat.is_nan (FounderMetrics.totalCommentOutreach m) = false.
Proof.
  unfold FounderMetrics_validate.
  destruct (JS.testMonthFormat (FounderMetrics.month m)); cbn [negb]; [|discriminate].
  destruct (validNumberMin0 (FounderMetrics.totalPosts m)) eqn:H1; cbn [negb];
    [|discriminate].
  destruct (validNumberMin0 (FounderMetrics.totalImpressions m)) eqn:H2; cbn [negb];
    [|discriminate].
  destruct (validNumberMin0 (FounderMetrics.totalCommentOutreach m)) eqn:H3; cbn [negb];
    [|discriminate].
  intros _. repeat split; apply validNumberMin0_not_nan; assumption.
Qed.

(** What a successful upload returns: a document that passed the schema
    and carries the data of the call. *)
Lemma uploadMetrics_Ok_fields (db db' : DB) (F U : ObjectId) (M : string)
    (data : MetricsService.MetricsData) (newId : ObjectId) (now : Date) (r : FounderMetrics.t) :
  MetricsService.uploadMetrics db F U M data newId now = (db', Ok r) ->
  FounderMetrics_validate r = Ok tt
  /\ FounderMetrics.uploadedBy r = U
  /\ FounderMetrics.totalPosts r = MetricsService.totalPosts data
  /\ FounderMetrics.totalImpressions r = MetricsService.totalImpressions data
  /\ FounderMetrics.totalCommentOutreach r = MetricsService.totalCommentOutreach data
  /\ FounderMetrics.notes r = option_map JS.trim (MetricsService.notes data).
Proof.
  unfold MetricsService.uploadMetrics.
  destruct (FounderMetrics_findOne (foundermetrics db) F M) as [old|].
  - fold (overwritten old U data now).
    destruct (FounderMetrics_validate (overwritten old U data now)) eqn:Hval; [|discriminate].
    intros H. inversion H; subst. destruct a. repeat split. exact Hval.
  - fold (created newId F U M data now).
    destruct (FounderMetrics_validate (created newId F U M data now)) eqn:Hval;
      [|discriminate].
    destruct (FounderMetrics_insertOne _ _); [|discriminate].
    intros H. inversion H; subst. destruct a. repeat split. exact Hval.
Qed.

(** X29. Uploading the same data again changes nothing: after a successful
    upload, under the indexes of the collection, the same upload by the same
    uploader, at whatever later time, finds the document, modifies no path
    of it and returns it as it is stored, the date of its last update
    included, and the database is the one after the first upload. An upload
    that changes the posts keeps the id and the creation date of the
    document and moves the date of its last update to its own time. *)
Theorem upload_repeated (db db1 : DB) (F U : ObjectId) (M : string)
    (data : MetricsService.MetricsData) (id1 id2 : ObjectId) (now1 now2 : Date)
    (r1 : FounderMetrics.t) :
  metricsIndexes db ->
  MetricsService.uploadMetrics db F U M data id1 now1 = (db1, Ok r1) ->
  MetricsService.uploadMetrics db1 F U M data id2 now2 = (db1, Ok r1)
  /\ (forall U2 data2 db2 r2,
        MetricsService.uploadMetrics db1 F U2 M data2 id2 now2 = (db2, Ok r2) ->
        FounderMetrics._id r2 = FounderMetrics._id r1
        /\ FounderMetrics.createdAt r2 = FounderMetrics.createdAt r1
        /\ (PrimFloat.eqb (MetricsService.totalPosts data) (MetricsService.totalPosts data2)
            = false ->
            FounderMetrics.updatedAt r2 = now2)).
Proof.
  intros Hidx Hup.
  destruct (uploadMetrics_shape _ _ _ _ _ _ _ _ _ Hidx Hup) as (Hone & _).
  destruct (uploadMetrics_Ok_fields _ _ _ _ _ _ _ _ _ Hup)
    as (Hval & Hu & Hp & Hi & Hc & Hn).
  assert (Hidx1 : metricsIndexes db1).
  { destruct (uploadMetrics_cases db F U M data id1 now1)
      as [(e & He)|(r & l' & Heq & _ & _ & _ & _ & _ & Hkeep & _)].
    - rewrite Hup in He. discriminate.
    - rewrite Hup in Heq. inversion Heq; subst. apply Hkeep. exact Hidx. }
  pose proof (filter_singleton_find _ _ _ Hone) as Hfind.
  destruct Hidx1 as [Hid1 Hkey1].
  destruct (find_sameKey_split F M _ r1 Hid1 Hkey1 Hfind) as (l1 & l2 & Hl & _ & _ & _ & Hnot).
  destruct (FounderMetrics_validate_numbers r1 Hval) as (Hnp & Hni & Hnc).
  split.
  - assert (Hsame : overwritten r1 U data now2 = r1).
    { unfold overwritten, FounderMetrics_isModified.
      rewrite <- Hp, <- Hi, <- Hc, <- Hn, <- Hu.
      rewrite !number_eqb_refl by assumption.
      rewrite optionString_eqb_refl, String.eqb_refl. cbn [andb negb].
      destruct r1. reflexivity. }
    unfold MetricsService.uploadMetrics, FounderMetrics_findOne. fold (sameKey F M).
    rewrite Hfind. fold (overwritten r1 U data now2). rewrite Hsame, Hval.
    rewrite Hl at 1. rewrite FounderMetrics_updateOne_split by auto.
    rewrite <- Hl, set_foundermetrics_same. reflexivity.
  - intros U2 data2 db2 r2.
    unfold MetricsService.uploadMetrics, FounderMetrics_findOne. fold (sameKey F M).
    rewrite Hfind. fold (overwritten r1 U2 data2 now2).
    destruct (FounderMetrics_validate (overwritten r1 U2 data2 now2)); [|discriminate].
    intros H. inversion H; subst r2. split; [reflexivity|]. split; [reflexivity|].
    intros Hdiff. unfold overwritten, FounderMetrics_isModified. cbn [FounderMetrics.updatedAt].
    rewrite Hp, Hdiff. reflexivity.
Qed.

Lemma upload_repeated_witness :
  MetricsService.uploadMetrics sampleDB "F1" "A1" "2025-06"
    (MetricsService.mkMetricsData 55%float 120%float 10%float None) "m9" 300%Z
  = (sampleDB, Ok (sampleMetrics "m2" "F1" "2025-06" 55%float 120%float 10%float))
  /\ exists db2 r2,
       MetricsService.uploadMetrics sampleDB "F1" "A1" "2025-06"
         (MetricsService.mkMetricsData 56%float 120%float 10%float None) "m9" 300%Z
       = (db2, Ok r2)
       /\ FounderMetrics._id r2 = "m2"
       /\ FounderMetrics.createdAt r2 = 100%Z
       /\ FounderMetrics.updatedAt r2 = 300%Z.
Proof.
  assert (Hfirst : MetricsService.uploadMetrics sampleDB "F1" "A1" "2025-06"
                     (MetricsService.mkMetricsData 55%float 120%float 10%float None)
                     "m8" 200%Z
                   = (sampleDB,
                      Ok (sampleMetrics "m2" "F1" "2025-06" 55%float 120%float 10%float)))
    by reflexivity.
  destruct (upload_repeated sampleDB sampleDB "F1" "A1" "2025-06"
              (MetricsService.mkMetricsData 55%float 120%float 10%float None)
              "m8" "m9" 200%Z 300%Z _ sampleDB_indexes Hfirst) as [Hagain Hother].
  split; [exact Hagain|].
  eexists _, _. split; [reflexivity|].
  destruct (Hother "A1" (MetricsService.mkMetricsData 56%float 120%float 10%float None)
              _ _ eq_refl) as (H1 & H2 & H3).
  split; [exact H1|]. split; [exact H2 | apply H3; reflexivity].
Defined.

(** [trim] on the white space of ECMAScript: the no-break space (C2 A0 in
    UTF-8) and the narrow no-break space (E2 80 AF) go with the spaces and
    the line feed at both ends, the spaces inside stay. *)
Example trim_white_space :
  JS.trim " Gus " = "Gus"
  /\ JS.trim (String (ascii_of_nat 194) (String (ascii_of_nat 160) " a b  ")
              ++ String (ascii_of_nat 226) (String (ascii_of_nat 128)
                   (String (ascii_of_nat 175) (String (ascii_of_nat 10) ""))))
     = "a b"
  /\ JS.trim "   " = ""
  /\ JS.trim "a-b" = "a-b".
Proof. repeat split; reflexivity. Qed.

(** ** Uploads and the admin dashboards *)

Lemma filter_replace_outside {A : Type} (p : A -> bool) (l1 l2 : list A) (x y : A) :
  p x = false -> p y = false -> filter p (l1 ++ y :: l2) = filter p (l1 ++ x :: l2).
Proof.
  intros Hx Hy. rewrite !filter_app. simpl. rewrite Hx, Hy. reflexivity.
Qed.

(** X27. The ids the metrics are filed and counted under. An admin's upload
    is filed under the user id of a founder ([getAssignedFounders] lists
    user ids), while the admin dashboards count the documents filed under
    the ids of the founder documents of the admin's edges. So when no
    founder document carries the id of a user, a successful upload by an
    admin leaves the completion rate, the founders with metrics and the
    deadlines of every admin's dashboard as they were; a successful upload
    filed under the id of an assigned founder document marks that founder
    as having metrics for the month. *)
Theorem upload_and_dashboard_ids {oid : ObjectIds} (db db' : DB) (userId : ObjectId)
    (userRole : UserRole)
    (founderId : ObjectId) (body : metricsController.Body) (newId : ObjectId) (now : Date)
    (r : FounderMetrics.t) :
  metricsIndexes db ->
  metricsRoutes.postFounderMetrics db userId userRole founderId body newId now = (db', Ok r) ->
  (userRole = Role.admin ->
   profileIdsApart db ->
   (exists u, In u (users db) /\ User._id u = founderId)
   /\ forall adminId currentMonth,
        AdminDashboardService.assignedFounderIds db' adminId
        = AdminDashboardService.assignedFounderIds db adminId
        /\ AdminDashboardService.metricsCompletionRate db' adminId currentMonth
           = AdminDashboardService.metricsCompletionRate db adminId currentMonth
        /\ forall ids daysLeftInMonth,
             AdminDashboardService.assignedFounderIds db adminId = Ok ids ->
             AdminDashboardService.foundersWithCurrentMonthMetrics db' ids currentMonth
             = AdminDashboardService.foundersWithCurrentMonthMetrics db ids currentMonth
             /\ map AdminDashboardService.deadlineId
                  (AdminDashboardService.upcomingDeadlines db' ids currentMonth daysLeftInMonth)
                = map AdminDashboardService.deadlineId
                    (AdminDashboardService.upcomingDeadlines db ids currentMonth
                       daysLeftInMonth))
  /\ (forall adminId ids,
        AdminDashboardService.assignedFounderIds db adminId = Ok ids ->
        In founderId ids ->
        In founderId
          (AdminDashboardService.foundersWithCurrentMonthMetrics db' ids
             (FounderMetrics.month r))).
Proof.
  intros Hidx. unfold metricsRoutes.postFounderMetrics.
  destruct (auth.authorize [Role.admin; Role.super_admin] (Some userRole)); [|discriminate].
  destruct (controller_uploadMetrics_cases db userId userRole founderId body newId now)
    as [(e' & ->)|(month & data & _ & _ & Hadmin & ->)]; [discriminate|].
  intros Hup.
  destruct (uploadMetrics_shape _ _ _ _ _ _ _ _ _ Hidx Hup)
    as (Hone & Hf & Hm & _ & Hshape & Husers & Hfounders & _ & Hassignments).
  assert (Hscope : forall adminId,
             AdminDashboardService.assignedFounderIds db' adminId
             = AdminDashboardService.assignedFounderIds db adminId).
  { intros adminId. unfold AdminDashboardService.assignedFounderIds. rewrite Hassignments.
    induction (filter _ (assignments db)) as [|edge0 l IH]; simpl; [reflexivity|].
    unfold Founder_findById. rewrite Hfounders, IH. reflexivity. }
  split.
  - intros Hrole Hapart.
    destruct (Hadmin Hrole) as (rows & Hrows & Hex).
    assert (Huser : exists u, In u (users db) /\ User._id u = founderId).
    { apply existsb_exists in Hex. destruct Hex as (id & Hin & Hid).
      apply String.eqb_eq in Hid. subst id.
      unfold AssignmentService.getAssignedFounders, castObjectId in Hrows.
      destruct (ObjectId_isValid userId); cbn [bindR] in Hrows; [|discriminate].
      destruct (Admin_findOne_userId db userId); [|discriminate].
      destruct (User_findById db userId) as [au|]; [|discriminate].
      destruct (negb (UserRole_eqb (User.role au) Role.admin)); [discriminate|].
      inversion Hrows; subst rows. clear Hrows.
      apply in_map_iff in Hin. destruct Hin as (row & Hrow & Hin).
      apply in_flat_map in Hin. destruct Hin as (edge1 & _ & Hin).
      apply in_flat_map in Hin. destruct Hin as (g & _ & Hin).
      apply in_map_iff in Hin. destruct Hin as (u & Hu & Huin). subst row. simpl in Hrow.
      apply filter_In in Huin. destruct Huin as [Huin Hk]. apply String.eqb_eq in Hk.
      exists u. split; [assumption | congruence]. }
    split; [exact Huser|].
    destruct Huser as (u & Huin & Huid).
    assert (Hkeep : forall ids currentMonth,
               (forall id, In id ids ->
                  exists founder, Founder_findById db id = Some founder
                                  /\ Founder._id founder = id) ->
               AdminDashboardService.foundersWithCurrentMonthMetrics db' ids currentMonth
               = AdminDashboardService.foundersWithCurrentMonthMetrics db ids currentMonth).
    { intros ids currentMonth Hdocs.
      assert (Hout : forall m, FounderMetrics.founderId m = founderId ->
                 existsb (fun id => id =? FounderMetrics.founderId m) ids
                 && (FounderMetrics.month m =? currentMonth) = false).
      { intros m Hmf. apply andb_false_iff. left.
        destruct (existsb (fun id => id =? FounderMetrics.founderId m) ids) eqn:E;
          [|reflexivity].
        apply existsb_eqb_In in E. destruct (Hdocs _ E) as (g & Hg & Hgid).
        pose proof (find_key_In Founder._id _ _ _ Hg) as [Hgin _].
        exfalso. apply (Hapart g u Hgin Huin). congruence. }
      unfold AdminDashboardService.foundersWithCurrentMonthMetrics. f_equal.
      destruct Hshape as [(l1 & old & l2 & Hl & Hl' & Hold)|Hl'].
      - rewrite Hl, Hl'. apply filter_replace_outside; apply Hout; assumption.
      - rewrite Hl', filter_app. simpl. rewrite (Hout r Hf). apply app_nil_r. }
    intros adminId currentMonth. split; [apply Hscope|]. split.
    + unfold AdminDashboardService.metricsCompletionRate, bindR. rewrite Hscope.
      destruct (AdminDashboardService.assignedFounderIds db adminId) as [ids|] eqn:Hids;
        [|reflexivity].
      unfold AdminDashboardService.assignedFounderIds in Hids.
      apply founderIdsOf_Ok in Hids. destruct Hids as [_ Hdocs].
      rewrite (Hkeep ids currentMonth Hdocs). reflexivity.
    + intros ids daysLeftInMonth Hids.
      unfold AdminDashboardService.assignedFounderIds in Hids.
      apply founderIdsOf_Ok in Hids. destruct Hids as [_ Hdocs].
      split; [apply Hkeep; assumption|].
      unfold AdminDashboardService.upcomingDeadlines,
        AdminDashboardService.foundersWithoutCurrentMetrics.
      rewrite (Hkeep ids currentMonth Hdocs).
      match goal with
      | |- map _ (flat_map _ ?l) = _ => induction l as [|id0 l0 IH]
      end; simpl; [reflexivity|].
      unfold Founder_findById in IH |- *. rewrite Hfounders in IH |- *.
      destruct (find _ (founders db)); simpl; rewrite ?map_app, IH; reflexivity.
  - intros adminId ids _ Hin.
    unfold AdminDashboardService.foundersWithCurrentMonthMetrics.
    apply In_distinct_in_scope. split; [assumption|].
    exists r. split; [|split; [assumption | apply String.eqb_refl]].
    assert (Hr : In r (filter (sameKey founderId month) (foundermetrics db')))
      by (rewrite Hone; left; reflexivity).
    apply filter_In in Hr. tauto.
Qed.

Lemma sampleDB_profileIdsApart : profileIdsApart sampleDB.
Proof.
  intros f u [<-|[<-|[]]] [<-|[<-|[<-|[<-|[<-|[]]]]]]; discriminate.
Defined.

Section SampleUploadAndDashboardIds.
#[local] Existing Instance sampleObjectIds.

Lemma upload_and_dashboard_ids_witness :
  AdminDashboardService.metricsCompletionRate
    (fst (metricsRoutes.postFounderMetrics sampleDB "A1" Role.admin "F1"
            (sampleBody "2025-07" 3%float 10%float 10%float) "m9" 300%Z))
    "A1" "2025-07"
  = AdminDashboardService.metricsCompletionRate sampleDB "A1" "2025-07"
  /\ In "fd1"
       (AdminDashboardService.foundersWithCurrentMonthMetrics
          (fst (metricsRoutes.postFounderMetrics sampleDB "S1" Role.super_admin "fd1"
                  (sampleBody "2025-07" 3%float 10%float 10%float) "m9" 300%Z))
          ["fd1"] "2025-07").
Proof.
  split.
  - exact (proj1 (proj2 (proj2
             (proj1 (upload_and_dashboard_ids (oid := sampleObjectIds)
                 sampleDB _ "A1" Role.admin "F1"
                       (sampleBody "2025-07" 3%float 10%float 10%float) "m9" 300%Z _
                       sampleDB_indexes eq_refl)
                eq_refl sampleDB_profileIdsApart) "A1" "2025-07"))).
  - exact (proj2 (upload_and_dashboard_ids (oid := sampleObjectIds)
      sampleDB _ "S1" Role.super_admin "fd1"
                    (sampleBody "2025-07" 3%float 10%float 10%float) "m9" 300%Z _
                    sampleDB_indexes eq_refl)
             "A1" ["fd1"] eq_refl (or_introl eq_refl)).
Defined.

End SampleUploadAndDashboardIds.

(** ** The scope of a dashboard and the listing of the founders *)

Lemma scope_matches_rows (db : DB) (l : list Assignment.t) :
  uniqueProfiles db ->
  founderIdsUnique db ->
  foundersHaveUsers db ->
  (forall e, In e l -> Founder_findById db (Assignment.founderId e) <> None) ->
  exists ids,
    AdminDashboardService.founderIdsOf db l = Ok ids
    /\ Forall2
         (fun id row =>
            exists founder,
              Founder_findById db id = Some founder
              /\ Founder._id founder = id
              /\ AssignmentService.af_founderId row = Founder.userId founder
              /\ AssignmentService.af_companyName row = Founder.companyName founder)
         ids
         (flat_map
            (fun a =>
               flat_map
                 (fun f =>
                    map (fun user =>
                           AssignmentService.mkAssignedFounder (Assignment.adminId a)
                             (Founder.userId f) (Assignment.assignedAt a)
                             (User.name user) (User.email user)
                             (Founder.companyName f) (Founder.industry f))
                        (filter (fun u => User._id u =? Founder.userId f) (users db)))
                 (filter (fun f => Founder._id f =? Assignment.founderId a) (founders db)))
            l).
Proof.
  intros (Huid & _ & _) Hfid Hpair. induction l as [|e l IH]; intros Hdocs.
  - exists []. split; [reflexivity | constructor].
  - destruct IH as (ids & Hids & Hall); [intros x Hx; apply Hdocs; right; assumption|].
    destruct (Founder_findById db (Assignment.founderId e)) as [f|] eqn:Hf;
      [|exfalso; apply (Hdocs e (or_introl eq_refl)); assumption].
    pose proof (find_key_In Founder._id _ _ _ Hf) as [Hfin Hfk].
    destruct (Hpair f Hfin) as (u & Hu).
    exists (Founder._id f :: ids). split; [simpl; rewrite Hf, Hids; reflexivity|].
    cbn [flat_map].
    rewrite (filter_key_unique Founder._id _ _ f Hfid Hf). cbn [flat_map].
    rewrite (filter_key_unique User._id _ _ u Huid Hu). cbn [map app].
    constructor; [|exact Hall].
    exists f. split; [rewrite Hfk; exact Hf | repeat split].
Qed.

(** X28. An admin's dashboard and the listing of its founders cover the
    same founders, edge by edge: under the primary keys and unique indexes
    of users and profiles, with every founder profile paired with its user
    and every edge pointing to a founder document, the scope of the
    dashboard and [getAssignedFounders] have one entry per edge of the
    admin, in the same order; the dashboard names the founder by the id of
    its document, the listing by the id of its user. *)
Theorem dashboard_scope_matches_listing {oid : ObjectIds} (db : DB) (adminId : ObjectId) :
  uniqueProfiles db ->
  founderIdsUnique db ->
  foundersHaveUsers db ->
  edgesHaveFounders db ->
  isValidAdminId db adminId = true ->
  exists ids rows,
    AdminDashboardService.assignedFounderIds db adminId = Ok ids
    /\ AssignmentService.getAssignedFounders db adminId = Ok rows
    /\ Forall2
         (fun id row =>
            exists founder,
              Founder_findById db id = Some founder
              /\ Founder._id founder = id
              /\ AssignmentService.af_founderId row = Founder.userId founder
              /\ AssignmentService.af_companyName row = Founder.companyName founder)
         ids rows
    /\ List.length ids
       = List.length (filter (fun a => Assignment.adminId a =? adminId) (assignments db))
    /\ List.length rows = List.length ids.
Proof.
  intros Huniq Hfid Hpair Hedges Hvalid.
  destruct (scope_matches_rows db
              (filter (fun a => Assignment.adminId a =? adminId) (assignments db))
              Huniq Hfid Hpair) as (ids & Hids & Hall).
  { intros e He. apply filter_In in He. apply Hedges. tauto. }
  apply isValidAdminId_true in Hvalid. destruct Hvalid as (Hc & ad & au & Had & Hau & Hrole).
  unfold AssignmentService.getAssignedFounders, castObjectId.
  rewrite Hc, Had, Hau, Hrole. cbn [bindR UserRole_eqb negb].
  pose proof (find_key_In User._id _ _ _ Hau) as [_ Hauid]. rewrite Hauid.
  exists ids. eexists. split; [exact Hids|]. split; [reflexivity|].
  split; [exact Hall|]. split.
  - apply founderIdsOf_Ok in Hids. destruct Hids as [-> _]. apply length_map.
  - symmetry. exact (Forall2_length Hall).
Qed.

Lemma sampleDB_founderIdsUnique : founderIdsUnique sampleDB.
Proof.
  unfold founderIdsUnique. simpl. repeat (constructor; [simpl; intuition discriminate|]).
  constructor.
Defined.

Section SampleDashboardScopeMatchesListing.
#[local] Existing Instance sampleObjectIds.

Lemma dashboard_scope_matches_listing_witness :
  exists ids rows,
    AdminDashboardService.assignedFounderIds sampleDB "A1" = Ok ids
    /\ AssignmentService.getAssignedFounders sampleDB "A1" = Ok rows
    /\ ids = ["fd1"]
    /\ map AssignmentService.af_founderId rows = ["F1"].
Proof.
  destruct (dashboard_scope_matches_listing (oid := sampleObjectIds) sampleDB "A1" sampleDB_unique
              sampleDB_founderIdsUnique sampleDB_foundersHaveUsers
              sampleDB_edgesHaveFounders eq_refl) as (ids & rows & Hids & Hrows & _).
  exists ids, rows. split; [exact Hids|]. split; [exact Hrows|].
  inversion Hids. inversion Hrows. split; reflexivity.
Defined.

End SampleDashboardScopeMatchesListing.
